(** * S3 reporting framework (modules/s3/s3report.py): pivot-table engine

    A shallow embedding of [S3Report] (the aggregation engine) and of
    [S3ContingencyTable._top] (the chart reduction), together with the
    properties of the design document that concern them.

    The source is Python 2.  Python objects are embedded as a tagged
    [value]; exceptions as the [Raise] branch of [result]; the mutable
    dictionaries and lists of the source as explicit state that every
    statement threads along, with aliasing written out where the source
    lets two names share one list. *)

From Stdlib Require Import ZArith QArith Qround List String Ascii Bool Lia.
From Stdlib Require Import Permutation Sorted.
Import ListNotations.

Set Warnings "-register-all".

Local Open Scope Z_scope.
Local Open Scope string_scope.
Local Open Scope list_scope.

(** ** Exceptions *)

Inductive exn : Type :=
| TypeError
| ValueError
| SyntaxError
| KeyError
| IndexError
| AttributeError.

Inductive result (A : Type) : Type :=
| Ok (a : A)
| Raise (e : exn).

Arguments Ok {A} a.
Arguments Raise {A} e.

Definition bind {A B : Type} (m : result A) (k : A -> result B) : result B :=
  match m with
  | Ok a => k a
  | Raise e => Raise e
  end.

Notation "x <- m ;; k" := (bind m (fun x => k))
  (at level 61, m at next level, right associativity).
Notation "' pat <- m ;; k" := (bind m (fun x => match x with pat => k end))
  (at level 61, pat pattern, m at next level, right associativity).

(** [for x in xs: st = body(st, x)], stopping at the first exception. *)
Fixpoint for_each {A S : Type} (xs : list A) (body : S -> A -> result S)
         (st : S) : result S :=
  match xs with
  | [] => Ok st
  | x :: xs' => st' <- body st x ;; for_each xs' body st'
  end.

(** ** Python values

    The values a DAL row can hold and an aggregate can return.  Floats are
    carried as exact rationals (rounding, infinities and NaN are outside
    the model); [str] and [unicode] are one [VStr]; a [datetime.date] is
    carried by its ordinal. *)

Inductive value : Type :=
| VNone
| VBool (b : bool)
| VInt (n : Z)
| VFloat (q : Q)
| VStr (s : string)
| VDate (d : Z)
| VList (l : list value).

(** Numbers: [bool] is a subclass of [int]. *)
Inductive num : Type :=
| NInt (n : Z)
| NFloat (q : Q).

Definition as_num (v : value) : option num :=
  match v with
  | VBool b => Some (NInt (if b then 1 else 0))
  | VInt n => Some (NInt n)
  | VFloat q => Some (NFloat q)
  | _ => None
  end.

Definition num_Q (n : num) : Q :=
  match n with
  | NInt z => inject_Z z
  | NFloat q => q
  end.

(** [bool(v)] *)
Definition truthy (v : value) : bool :=
  match v with
  | VNone => false
  | VBool b => b
  | VInt n => negb (Z.eqb n 0)
  | VFloat q => negb (Qeq_bool q 0)
  | VStr s => negb (String.eqb s "")
  | VDate _ => true
  | VList l => match l with [] => false | _ => true end
  end.

(** [a == b]: never raises for these types. *)
Fixpoint py_eq (a b : value) {struct a} : bool :=
  match a, b with
  | VNone, VNone => true
  | VStr s, VStr t => String.eqb s t
  | VDate d, VDate e => Z.eqb d e
  | VList la, VList lb =>
      (fix eq_list (xs ys : list value) {struct xs} : bool :=
         match xs, ys with
         | [], [] => true
         | x :: xs', y :: ys' => py_eq x y && eq_list xs' ys'
         | _, _ => false
         end) la lb
  | _, _ =>
      match as_num a, as_num b with
      | Some m, Some n => Qeq_bool (num_Q m) (num_Q n)
      | _, _ => false
      end
  end.

(** Rank of a type in Python 2's default ordering of unlike types: [None]
    first, then numbers, then the other types by type name
    ("list" < "str"/"unicode"). *)
Definition type_rank (v : value) : Z :=
  match v with
  | VNone => 0
  | VBool _ | VInt _ | VFloat _ => 1
  | VList _ => 2
  | VStr _ => 3
  | VDate _ => 4
  end.

(** Three-way ordering behind [<] and [>].  A [datetime.date] refuses
    to be ordered against anything but a date. *)
Fixpoint py_cmp (a b : value) {struct a} : result comparison :=
  match a, b with
  | VDate d, VDate e => Ok (Z.compare d e)
  | VDate _, _ => Raise TypeError
  | _, VDate _ => Raise TypeError
  | VStr s, VStr t => Ok (String.compare s t)
  | VList la, VList lb =>
      (fix cmp_list (xs ys : list value) {struct xs} : result comparison :=
         match xs, ys with
         | [], [] => Ok Eq
         | [], _ :: _ => Ok Lt
         | _ :: _, [] => Ok Gt
         | x :: xs', y :: ys' =>
             if py_eq x y then cmp_list xs' ys' else py_cmp x y
         end) la lb
  | _, _ =>
      match as_num a, as_num b with
      | Some m, Some n => Ok (Qcompare (num_Q m) (num_Q n))
      | _, _ => Ok (Z.compare (type_rank a) (type_rank b))
      end
  end.

Definition py_lt (a b : value) : result bool :=
  c <- py_cmp a b ;; Ok (match c with Lt => true | _ => false end).

Definition py_gt (a b : value) : result bool :=
  c <- py_cmp a b ;; Ok (match c with Gt => true | _ => false end).

Definition explode (s : string) : list value :=
  map (fun c => VStr (String c EmptyString)) (list_ascii_of_string s).

(** [a + b] *)
Definition py_add (a b : value) : result value :=
  match as_num a, as_num b with
  | Some (NInt m), Some (NInt n) => Ok (VInt (m + n))
  | Some m, Some n => Ok (VFloat (Qred (num_Q m + num_Q n)))
  | _, _ =>
      match a, b with
      | VStr s, VStr t => Ok (VStr (s ++ t))
      | VList la, VList lb => Ok (VList (la ++ lb))
      | _, _ => Raise TypeError
      end
  end.

(** [len(l)] as a Python int *)
Definition py_len {A : Type} (l : list A) : Z := Z.of_nat (List.length l).

(** [min(values)] and [max(values)]: the first item, replaced by every later
    item that is strictly smaller (larger); an empty sequence is a
    [ValueError]. *)
Definition py_extreme (better : value -> value -> result bool)
           (values : list value) : result value :=
  match values with
  | [] => Raise ValueError
  | v :: rest =>
      for_each rest
        (fun cur item => b <- better item cur ;; Ok (if b then item else cur)) v
  end.

Definition py_min : list value -> result value := py_extreme py_lt.
Definition py_max : list value -> result value := py_extreme py_gt.

(** [sum(values)]: starts from the int 0. *)
Definition py_sum (values : list value) : result value :=
  for_each values py_add (VInt 0).

(** [x / float(n)] for a number [x] and [n > 0] *)
Definition py_div_float (x : value) (n : Z) : result value :=
  match as_num x with
  | Some m => Ok (VFloat (Qred (num_Q m / inject_Z n)))
  | None => Raise TypeError
  end.

(** [needle in hay] for two strings: substring test. *)
Fixpoint str_contains (hay needle : string) : bool :=
  String.prefix needle hay ||
  match hay with
  | EmptyString => false
  | String _ hay' => str_contains hay' needle
  end.

Arguments str_contains : simpl never.

(** [try: body except TypeError: return None].  The source also writes
    [except TypeError, ValueError:], which in Python 2 still catches
    [TypeError] alone (and binds the exception to the name [ValueError]). *)
Definition except_TypeError (body : result value) : result value :=
  match body with
  | Raise TypeError => Ok VNone
  | r => r
  end.

(** ** Dictionaries

    A [Storage] (a [dict] with attribute access) with text keys is an
    association list; iteration follows insertion order, and assigning to an
    existing key keeps its position. *)

Definition dict (A : Type) : Type := list (string * A).

Fixpoint dict_get {A : Type} (d : dict A) (k : string) : option A :=
  match d with
  | [] => None
  | (k', v) :: d' => if String.eqb k k' then Some v else dict_get d' k
  end.

Fixpoint dict_set {A : Type} (d : dict A) (k : string) (v : A) : dict A :=
  match d with
  | [] => [(k, v)]
  | (k', v') :: d' =>
      if String.eqb k k' then (k', v) :: d' else (k', v') :: dict_set d' k v
  end.

Definition keys {A B : Type} (d : list (A * B)) : list A := map fst d.

(** [l[n]] and [l[n] = x] on a list; reading out of range is an
    [IndexError]. *)
Definition list_get {A : Type} (l : list A) (n : nat) : result A :=
  match nth_error l n with
  | Some x => Ok x
  | None => Raise IndexError
  end.

Fixpoint list_set {A : Type} (l : list A) (n : nat) (x : A) : list A :=
  match l, n with
  | [], _ => []
  | _ :: l', O => x :: l'
  | y :: l', S n' => y :: list_set l' n' x
  end.

(** [x in l] with Python equality. *)
Definition py_in (x : value) (l : list value) : bool :=
  existsb (py_eq x) l.

(** [list(set(values))]: a list is not hashable.  The iteration order of a
    Python set is unspecified; the model keeps first occurrences in
    order. *)
Fixpoint dedupe (seen values : list value) : list value :=
  match values with
  | [] => []
  | v :: rest =>
      if py_in v seen then dedupe seen rest else v :: dedupe (v :: seen) rest
  end.

Definition is_list (v : value) : bool :=
  match v with VList _ => true | _ => false end.

Definition is_none (v : value) : bool :=
  match v with VNone => true | _ => false end.

Definition py_set (values : list value) : result (list value) :=
  if existsb is_list values then Raise TypeError else Ok (dedupe [] values).

(** ** Rows of the data abstraction layer

    [resource.sqltable(..., as_list=True)] gives one dict per record; a field
    sits either under its own name or inside the sub-dict of its table.  The
    two levels are kept apart (a field named like a table is outside the
    model). *)

Record Row : Type := mkRow {
  r_fields : dict value;
  r_tables : dict (dict value)
}.

(** A resolved list field: what [resource.resolve_selectors] returns per
    selector, as far as the report reads it. *)
Record LField : Type := mkLField {
  tname : string;
  fname : string
}.

(** Apply [f] to the value [_extract] would read, in place. *)
Definition row_modify (lfields : dict LField) (row : Row) (field : string)
           (f : value -> value) : Row :=
  match dict_get lfields field with
  | None => row
  | Some lf =>
      match dict_get (r_fields row) (fname lf) with
      | Some v =>
          mkRow (dict_set (r_fields row) (fname lf) (f v)) (r_tables row)
      | None =>
          match dict_get (r_tables row) (tname lf) with
          | Some t =>
              match dict_get t (fname lf) with
              | Some v =>
                  mkRow (r_fields row)
                        (dict_set (r_tables row) (tname lf)
                                  (dict_set t (fname lf) (f v)))
              | None => row
              end
          | None => row
          end
      end
  end.

(** A flat item of the data frame. *)
Definition item : Type := dict value.

(** [a == b] on two items (dicts): same keys, equal values. *)
Definition item_eq (a b : item) : bool :=
  Nat.eqb (List.length a) (List.length b) &&
  forallb (fun kv => match dict_get b (fst kv) with
                     | Some w => py_eq (snd kv) w
                     | None => false
                     end) a.

(** The in-place effect of [value.append(None)] on an empty list. *)
Definition placeholder (v : value) : value :=
  match v with
  | VList [] => VList [VNone]
  | _ => v
  end.

(** A layer key [(fact, method)]. *)
Definition layer : Type := (option string * option string)%type.

Definition opt_str_eqb (a b : option string) : bool :=
  match a, b with
  | None, None => true
  | Some s, Some t => String.eqb s t
  | _, _ => false
  end.

Definition layer_eqb (a b : layer) : bool :=
  opt_str_eqb (fst a) (fst b) && opt_str_eqb (snd a) (snd b).

Fixpoint layer_get (d : list (layer * value)) (k : layer) : option value :=
  match d with
  | [] => None
  | (k', v) :: d' => if layer_eqb k k' then Some v else layer_get d' k
  end.

Fixpoint layer_set (d : list (layer * value)) (k : layer) (v : value)
  : list (layer * value) :=
  match d with
  | [] => [(k, v)]
  | (k', v') :: d' =>
      if layer_eqb k k' then (k', v) :: d' else (k', v') :: layer_set d' k v
  end.

(** A row or column header: [Storage(value=...)], later also holding
    ["records"], ["values"] (while a layer is computed) and one aggregate per
    layer. *)
Record AxisEntry : Type := mkAxis {
  e_value : value;
  e_records : option (list value);
  e_values : option (list value);
  e_layers : list (layer * value)
}.

Record Cell : Type := mkCell {
  c_records : option (list value);
  c_layers : list (layer * value)
}.

(** ** The pivot of record ids *)

(** What the report reads of a pivot table [pt]: [pt.rnames] and
    [pt.cnames], each name kept as the value [n[0][1]] the source takes from
    it, and the lists of primary keys [pt[r][c]]. *)
Record PivotTable : Type := mkPivot {
  rnames : list value;
  cnames : list value;
  pt_data : list (list (list value))
}.

Definition item_field (i : item) (f : string) : value :=
  match dict_get i f with Some v => v | None => VNone end.

(** Modelled from the spec: the names of one axis of the pivot, the
    distinct values of the field in first-seen order (section 4.4); one
    entry for a dimension that is not set. *)
Definition axis_names (items : list item) (dim : list string) : list value :=
  match dim with
  | [] => [VInt 1]
  | f :: _ => dedupe [] (map (fun i => item_field i f) items)
  end.

(** Modelled from the spec: whether an item falls under a name of an axis
    (section 4.5). *)
Definition on_axis (dim : list string) (name : value) (i : item) : bool :=
  match dim with
  | [] => true
  | f :: _ => py_eq (item_field i f) name
  end.

(** Modelled from the spec: [DataFrame.pivot(pkey, rows, cols,
    aggregate="tolist")] of the pyvttbl library, which is not part of the
    sources.  Following sections 4.4 and 4.5 of the design document: each
    axis lists the distinct values of its field in first-seen order, an unset
    dimension has one entry, and cell (r, c) lists the primary keys of the
    items whose row value and column value are those of r and c. *)
Definition pivot (items : list item) (pkey : string) (rows cols : list string)
  : PivotTable :=
  let rn := axis_names items rows in
  let cn := axis_names items cols in
  mkPivot rn cn
    (map (fun r =>
       map (fun c =>
          map (fun i => item_field i pkey)
              (filter (fun i => on_axis rows r i && on_axis cols c i) items))
         cn)
       rn).

(** What the report reads of the [S3Resource]: the name of the primary key
    ([table._id.name]), the list fields resolved by [resolve_selectors], and
    the records retrieved by [sqltable]. *)
Record Resource : Type := mkResource {
  pkey_name : string;
  resolved : dict LField;
  sqltable : list Row
}.

(** Truth value of an optional selector ([None] and the empty text are
    false). *)
Definition given (sel : option string) : bool :=
  match sel with
  | Some s => negb (String.eqb s "")
  | None => false
  end.

Definition selector (sel : option string) : string :=
  match sel with Some s => s | None => "" end.

Definition some_or_empty (o : option (list value)) : list value :=
  match o with Some l => l | None => [] end.

Module S3Report.

Definition METHODS : list string :=
  ["list"; "count"; "min"; "max"; "sum"; "avg"].

(** The report object.  [records] is the [Storage] from primary key to
    record; the record dicts themselves live in [objects] (they are shared
    with the retrieved list and are modified in place), so [records] maps a
    key to a position in [objects]. *)
Record t : Type := mkReport {
  rows : option string;
  cols : option string;
  layers : list layer;
  records : option (list (value * nat));
  objects : list Row;
  empty : bool;
  lfields : dict LField;
  dfields : list string;
  row : option (list AxisEntry);
  col : option (list AxisEntry);
  cell : option (list (list Cell));
  numrows : option nat;
  numcols : option nat;
  totals : list (layer * value)
}.

(** [S3Report._get_fields]: the fields that group the records ([dfields]).
    The fields to retrieve ([rfields]) and their resolution ([lfields]) are
    the business of the resource; see [Resource]. *)
Definition _get_fields (pkey : string) (rows_sel cols_sel : option string)
  : list string :=
  let d0 : list string := [] in
  let d1 := if given rows_sel && negb (existsb (String.eqb (selector rows_sel)) d0)
            then d0 ++ [selector rows_sel] else d0 in
  let d2 := if given cols_sel && negb (existsb (String.eqb (selector cols_sel)) d1)
            then d1 ++ [selector cols_sel] else d1 in
  if negb (existsb (String.eqb pkey) d2) then d2 ++ [pkey] else d2.

(** [S3Report._extract(row, field)] *)
Definition _extract (lf : dict LField) (r : Row) (field : string)
  : result value :=
  match dict_get lf field with
  | None => Raise KeyError
  | Some lfield =>
      match dict_get (r_fields r) (fname lfield) with
      | Some v => Ok v
      | None =>
          match dict_get (r_tables r) (tname lfield) with
          | Some sub =>
              match dict_get sub (fname lfield) with
              | Some v => Ok v
              | None => Ok VNone
              end
          | None => Ok VNone
          end
      end
  end.

(** [S3Report._flatten(row)].  The step from [str] to [unicode] is the
    identity on [VStr]. *)
Definition _flatten (lf : dict LField) (fields : list string) (pkey : string)
           (r : Row) : result item :=
  pk <- _extract lf r pkey ;;
  it <- for_each fields
          (fun (it : item) field =>
             v <- _extract lf r field ;;
             let v := if is_none v && negb (String.eqb field pkey)
                      then VStr "__NONE__" else v in
             Ok (dict_set it field v))
          [] ;;
  Ok (dict_set it pkey pk).

(** [S3Report._expand(rows, field=field)]: one field over a list of rows. *)
Definition _expand_field (rs : list item) (field : string)
  : result (list item) :=
  for_each rs
    (fun results r =>
       match dict_get r field with
       | None => Raise KeyError
       | Some (VList l) =>
           let l := match l with [] => [VNone] | _ => l end in
           Ok (results ++ map (fun v => dict_set r field v) l)
       | Some _ => Ok (results ++ [r])
       end)
    [].

(** [S3Report._expand(row)]: all fields, in the order the item lists
    them. *)
Definition _expand (r : item) : result (list item) :=
  for_each (keys r) _expand_field [r].

(** The argument of [_expand(row)] after the call: the empty lists it
    holds have received their [None] entry in place. *)
Definition _expand_effect (r : item) : item :=
  map (fun kv => (fst kv, placeholder (snd kv))) r.

(** [S3Report._aggregate(values, method)] *)
Definition _aggregate (values : option (list value))
           (method : option string) : result value :=
  match values with
  | None => Ok VNone
  | Some vs =>
      match method with
      | None => if truthy (VList vs) then Ok (VList vs) else Ok VNone
      | Some m =>
          if String.eqb m "list" then
            if truthy (VList vs) then Ok (VList vs) else Ok VNone
          else if String.eqb m "count" then
            Ok (VInt (py_len vs))
          else if String.eqb m "min" then
            except_TypeError (py_min vs)
          else if String.eqb m "max" then
            except_TypeError (py_max vs)
          else if String.eqb m "sum" then
            except_TypeError (py_sum vs)
          else if str_contains "avg" m then
            except_TypeError
              (if negb (Z.eqb (py_len vs) 0)
               then s <- py_sum vs ;; py_div_float s (py_len vs)
               else Ok (VFloat 0))
          else Ok VNone
      end
  end.

(** [records[i]]: the record object stored under key [i]. *)
Definition lookup_record (store : option (list (value * nat))) (i : value)
  : result nat :=
  match store with
  | None => Raise TypeError
  | Some st =>
      match find (fun kv => py_eq i (fst kv)) st with
      | Some kv => Ok (snd kv)
      | None => Raise KeyError
      end
  end.

(** [records.keys()], in the order of the store (Python 2 leaves the order
    of the keys of a dict open; "count" reads their number only). *)
Definition record_keys (store : option (list (value * nat)))
  : result (list value) :=
  match store with
  | None => Raise AttributeError
  | Some st => Ok (keys st)
  end.

(** [x.extend(y)] *)
Definition py_extend (x : list value) (y : value) : result (list value) :=
  match y with
  | VList l => Ok (x ++ l)
  | VStr s => Ok (x ++ explode s)
  | _ => Raise TypeError
  end.

(** The fact values of the records of one cell ([_add_layer], the branch for
    a given fact): extract the fact of every record, skip [None], and when
    the first value is a list, flatten the values into it -- it is the list
    held by the first record, which is extended in place. *)
Definition fact_values (lf : dict LField)
           (store : option (list (value * nat)))
           (objs : list Row) (ids : list value) (fact : string)
  : result (list value * list Row) :=
  found <- for_each ids
             (fun (acc : list (nat * value)) i =>
                k <- lookup_record store i ;;
                r <- list_get objs k ;;
                v <- _extract lf r fact ;;
                Ok (if is_none v then acc else acc ++ [(k, v)]))
             [] ;;
  match found with
  | (k, VList x) :: rest =>
      x' <- for_each (map snd rest) py_extend x ;;
      r <- list_get objs k ;;
      Ok (x', list_set objs k (row_modify lf r fact (fun _ => VList x')))
  | _ => Ok (map snd found, objs)
  end.

(** The values one cell aggregates: for "list" and "count" the fact values
    pass through a set. *)
Definition cell_values (lf : dict LField)
           (store : option (list (value * nat)))
           (objs : list Row) (ids : list value) (fact : string)
           (method : option string) : result (list value * list Row) :=
  ' (values, objs) <- fact_values lf store objs ids fact ;;
  values <- (if existsb (opt_str_eqb method) [Some "list"; Some "count"]
             then py_set values else Ok values) ;;
  Ok (values, objs).

(** The names and objects [_add_layer] works on while it runs.
    [row_values_is_records] records that the name [row_values] has been
    bound to the list [row_records] (the branch for a missing fact does
    that), so that extending one extends the other. *)
Record frame : Type := mkFrame {
  f_objects : list Row;
  f_rows : option (list AxisEntry);
  f_cols : option (list AxisEntry);
  f_cells : list (list Cell);
  f_fact : option string;
  f_all_values : list value;
  row_values_is_records : bool
}.

(** [headers[n]] and [headers[n] = e] on [self.row] / [self.col], which are
    [None] until the constructor has built them. *)
Definition axis_get (hs : option (list AxisEntry)) (n : nat)
  : result AxisEntry :=
  match hs with
  | None => Raise TypeError
  | Some l => list_get l n
  end.

Definition axis_set (hs : option (list AxisEntry)) (n : nat) (e : AxisEntry)
  : option (list AxisEntry) :=
  option_map (fun l => list_set l n e) hs.

Definition header_extend (e : AxisEntry) (ids vals : list value) : AxisEntry :=
  mkAxis (e_value e)
         (Some (some_or_empty (e_records e) ++ ids))
         (Some (some_or_empty (e_values e) ++ vals))
         (e_layers e).

(** Body of the loop over the columns of row [r] in [_add_layer]. *)
Definition cell_step (self : t) (pt : PivotTable) (pkey : string)
           (method : option string) (lay : layer) (r : nat)
           (fr : frame) (c : nat) : result frame :=
  (* column header: "records" and "values" are created once *)
  col0 <- axis_get (f_cols fr) c ;;
  (* the records of the cell: from the first layer on *)
  cell_row <- list_get (f_cells fr) r ;;
  cell0 <- list_get cell_row c ;;
  ids <- match c_records cell0 with
         | Some ids => Ok ids
         | None =>
             data_row <- list_get (pt_data pt) r ;;
             data <- list_get data_row c ;;
             Ok (filter (fun i => negb (py_eq VNone i)) data)
         end ;;
  row0 <- axis_get (f_rows fr) r ;;
  match f_fact fr with
  | None =>
      (* fact = pkey; values = ids; row_values = row_records;
         col_values = row_records; all_values = self.records.keys() *)
      all_values <- record_keys (records self) ;;
      v <- _aggregate (Some ids) method ;;
      Ok (mkFrame (f_objects fr)
            (axis_set (f_rows fr) r (header_extend row0 ids []))
            (axis_set (f_cols fr) c (header_extend col0 ids []))
            (list_set (f_cells fr) r
               (list_set cell_row c
                  (mkCell (Some ids) (layer_set (c_layers cell0) lay v))))
            (Some pkey)
            all_values
            true)
  | Some fact =>
      ' (values, objs) <-
          cell_values (lfields self) (records self)
                      (f_objects fr) ids fact method ;;
      v <- _aggregate (Some values) method ;;
      let row1 := if row_values_is_records fr
                  then header_extend row0 (ids ++ values) []
                  else header_extend row0 ids values in
      Ok (mkFrame objs
            (axis_set (f_rows fr) r row1)
            (axis_set (f_cols fr) c (header_extend col0 ids values))
            (list_set (f_cells fr) r
               (list_set cell_row c
                  (mkCell (Some ids) (layer_set (c_layers cell0) lay v))))
            (Some fact)
            (f_all_values fr ++ values)
            (row_values_is_records fr))
  end.

(** Body of the loop over the rows in [_add_layer]. *)
Definition row_step (self : t) (pt : PivotTable) (pkey : string)
           (method : option string) (lay : layer) (numcols : nat)
           (fr : frame) (r : nat) : result frame :=
  (* row header: row[RECORDS] = []; row[VALUES] = [] *)
  row0 <- axis_get (f_rows fr) r ;;
  let fr := mkFrame (f_objects fr)
              (axis_set (f_rows fr) r
                 (mkAxis (e_value row0) (Some []) (Some []) (e_layers row0)))
              (f_cols fr) (f_cells fr) (f_fact fr) (f_all_values fr) false in
  fr <- for_each (seq 0 numcols) (cell_step self pt pkey method lay r) fr ;;
  (* row total *)
  row1 <- axis_get (f_rows fr) r ;;
  let row_values := if row_values_is_records fr
                    then e_records row1 else e_values row1 in
  v <- _aggregate row_values method ;;
  Ok (mkFrame (f_objects fr)
        (axis_set (f_rows fr) r
           (mkAxis (e_value row1) (e_records row1) None
                   (layer_set (e_layers row1) lay v)))
        (f_cols fr) (f_cells fr) (f_fact fr) (f_all_values fr)
        (row_values_is_records fr)).

(** Column total of column [c]: [col[layer] = aggregate(col[VALUES])], then
    [del col[VALUES]]. *)
Definition col_total (method : option string) (lay : layer)
           (cs : option (list AxisEntry)) (c : nat)
  : result (option (list AxisEntry)) :=
  col0 <- axis_get cs c ;;
  match e_values col0 with
  | None => Raise KeyError
  | Some vals =>
      v <- _aggregate (Some vals) method ;;
      Ok (axis_set cs c
            (mkAxis (e_value col0) (e_records col0) None
                    (layer_set (e_layers col0) lay v)))
  end.

(** [S3Report._add_layer(pt, fact, method)].  The method has passed the
    test against [METHODS] when the source replaces [None] by "list", so
    that replacement never happens. *)
Definition _add_layer (self : t) (pkey : string) (pt : PivotTable)
           (fact method : option string) : result t :=
  if negb (existsb (opt_str_eqb method) (map Some METHODS))
  then Raise SyntaxError
  else
    let lay : layer := (fact, method) in
    let ncols := List.length (cnames pt) in
    let nrows := List.length (rnames pt) in
    let cells := match cell self with
                 | None => repeat (repeat (mkCell None []) ncols) nrows
                 | Some cs => cs
                 end in
    fr <- for_each (seq 0 nrows)
            (row_step self pt pkey method lay ncols)
            (mkFrame (objects self) (row self) (col self) cells fact []
                     false) ;;
    cs <- for_each (seq 0 ncols) (col_total method lay) (f_cols fr) ;;
    total <- _aggregate (Some (f_all_values fr)) method ;;
    Ok (mkReport (rows self) (cols self) (layers self) (records self)
          (f_objects fr) (empty self) (lfields self) (dfields self)
          (f_rows fr) cs (Some (f_cells fr))
          (numrows self) (numcols self)
          (layer_set (totals self) lay total)).

(** [Storage(pairs)]: a dict from primary key to record; a later pair
    replaces the record of an equal key, and a list cannot be a key. *)
Fixpoint store_set (st : list (value * nat)) (k : value) (n : nat)
  : list (value * nat) :=
  match st with
  | [] => [(k, n)]
  | (k', n') :: st' =>
      if py_eq k k' then (k', n) :: st' else (k', n') :: store_set st' k n
  end.

Definition build_store (lf : dict LField) (pkey : string) (recs : list Row)
  : result (list (value * nat)) :=
  for_each (combine (seq 0 (List.length recs)) recs)
    (fun st kr =>
       pk <- _extract lf (snd kr) pkey ;;
       if is_list pk then Raise TypeError
       else Ok (store_set st pk (fst kr)))
    [].

(** The value of a header: [v != "__NONE__" and v or None]. *)
Definition header_value (v : value) : value :=
  if negb (py_eq v (VStr "__NONE__")) && truthy v then v else VNone.

Definition header (v : value) : AxisEntry := mkAxis v None None [].

(** One turn of the loop that fills the data frame: flatten and expand a
    record, keep the items not seen before.  The lists of the record that
    [_expand] touched are the record's own. *)
Definition frame_step (lf : dict LField) (fields : list string)
           (pkey : string) (st : list item * list Row) (k : nat)
  : result (list item * list Row) :=
  r <- list_get (snd st) k ;;
  flat <- _flatten lf fields pkey r ;;
  expanded <- _expand flat ;;
  let r' := fold_left (fun r f => row_modify lf r f placeholder)
                      (keys flat) r in
  Ok (fold_left (fun item_list i =>
                   if existsb (item_eq i) item_list then item_list
                   else item_list ++ [i])
                expanded (fst st),
      list_set (snd st) k r').

(** The items of the data frame: every record flattened and expanded, each
    item once. *)
Definition data_frame (lf : dict LField) (fields : list string)
           (pkey : string) (recs : list Row)
  : result (list item * list Row) :=
  for_each (seq 0 (List.length recs)) (frame_step lf fields pkey) ([], recs).

(** [S3Report.__init__(resource, rows, cols, layers)] *)
Definition __init__ (resource : Resource) (rows_sel cols_sel : option string)
           (lays : list layer) : result t :=
  if negb (given rows_sel) && negb (given cols_sel) then Raise SyntaxError
  else
    let pkey := pkey_name resource in
    let lf := resolved resource in
    let fields := _get_fields pkey rows_sel cols_sel in
    let recs := sqltable resource in
    let self := mkReport rows_sel cols_sel lays None recs false lf fields
                         None None None None None [] in
    match recs with
    | [] =>
        Ok (mkReport rows_sel cols_sel lays None recs true lf fields
                     None None None None None [])
    | _ :: _ =>
        store <- build_store lf pkey recs ;;
        ' (item_list, objs) <- data_frame lf fields pkey recs ;;
        let rows_l := if given rows_sel then [selector rows_sel] else [] in
        let cols_l := if given cols_sel then [selector cols_sel] else [] in
        let pt := pivot item_list pkey rows_l cols_l in
        let col_h := match cols_l with
                     | [] => [header VNone]
                     | _ => map (fun v => header (header_value v)) (cnames pt)
                     end in
        let row_h := match rows_l with
                     | [] => [header VNone]
                     | _ => map (fun v => header (header_value v)) (rnames pt)
                     end in
        let self := mkReport rows_sel cols_sel lays (Some store) objs false
                             lf fields (Some row_h) (Some col_h) None
                             (Some (List.length row_h))
                             (Some (List.length col_h)) [] in
        for_each lays
          (fun self fm => _add_layer self pkey pt (fst fm) (snd fm)) self
    end.

(** [S3Report.__len__()]: the number of records of the report. *)
Definition __len__ (self : t) : Z :=
  match records self with
  | None => 0
  | Some items => py_len items
  end.

(** [x not in l] then [l.append(x)], on selectors that may be [None]. *)
Definition append_new (l : list (option string)) (x : option string)
  : list (option string) :=
  if existsb (opt_str_eqb x) l then l else l ++ [x].

(** [S3Report._get_fields]: the fields to retrieve ([rfields]), from the
    configured [fields], the dimensions, the primary key and the facts of
    the layers. *)
Definition _get_rfields (fields : list (option string)) (pkey : string)
           (rows_sel cols_sel : option string) (lays : list layer)
  : list (option string) :=
  let r0 := fields in
  let r1 := if given rows_sel then append_new r0 rows_sel else r0 in
  let r2 := if given cols_sel then append_new r1 cols_sel else r1 in
  let r3 := append_new r2 (Some pkey) in
  fold_left (fun rf fm => append_new rf (fst fm)) lays r3.

End S3Report.


Module S3ContingencyTable.

(** The label of the synthetic entry, [str(current.T("Others"))], before
    translation. *)
Definition OTHERS : string := "Others".

(** [int(x)] on a number: truncation toward zero. *)
Definition py_int (n : num) : Z :=
  match n with
  | NInt z => z
  | NFloat q => Z.quot (Qnum q) (Zpos (Qden q))
  end.

(** [x - y] on numbers *)
Definition num_sub (x y : num) : num :=
  match x, y with
  | NInt a, NInt b => NInt (a - b)
  | _, _ => NFloat (Qred (num_Q x - num_Q y))
  end.

(** The comparison function of the sort, [lambda x, y: int(y[1]-x[1])].
    Values that are not numbers end in a [TypeError] (no subtraction, or a
    difference that [int] refuses). *)
Definition top_cmp (x y : string * value) : result Z :=
  match as_num (snd y), as_num (snd x) with
  | Some b, Some a => Ok (py_int (num_sub b a))
  | _, _ => Raise TypeError
  end.

(** [l.sort(cmp)]: a stable sort.  Each element in turn is put behind the
    elements it is not smaller than.  (CPython finds that place by binary
    search; the two agree whenever [cmp] is a consistent ordering.) *)
Fixpoint insert_sorted {A : Type} (cmp : A -> A -> result Z) (x : A)
         (sorted : list A) : result (list A) :=
  match sorted with
  | [] => Ok [x]
  | y :: rest =>
      c <- cmp x y ;;
      if Z.ltb c 0 then Ok (x :: y :: rest)
      else rest' <- insert_sorted cmp x rest ;; Ok (y :: rest')
  end.

Definition py_sort {A : Type} (cmp : A -> A -> result Z) (l : list A)
  : result (list A) :=
  for_each l (fun sorted x => insert_sorted cmp x sorted) [].

(** Where the index [m] of a slice falls in a list of [n] elements. *)
Definition slice_index (n : nat) (m : Z) : nat :=
  if Z.ltb m 0 then Z.to_nat (Z.max 0 (Z.of_nat n + m))
  else Z.to_nat m.

(** [l[:m]] and [l[m:]] *)
Definition slice_to {A : Type} (l : list A) (m : Z) : list A :=
  firstn (slice_index (List.length l) m) l.

Definition slice_from {A : Type} (l : list A) (m : Z) : list A :=
  skipn (slice_index (List.length l) m) l.

(** [S3ContingencyTable._top(tl, length, least)] *)
Definition _top (tl : list (string * value)) (length : Z) (least : bool)
  : result (list (string * value)) :=
  let body :=
    if Z.gtb (py_len tl) length then
      let m := length - 1 in
      l <- py_sort top_cmp tl ;;
      let l := if least then rev l else l in
      others <- for_each (slice_from l m)
                  (fun s t => py_add s (snd t)) (VInt 0) ;;
      let ts := (OTHERS, others) in
      Ok (Some (slice_to l m ++ [ts]))
    else Ok None in
  match body with
  | Ok (Some l) => Ok l
  | Ok None => Ok tl
  | Raise TypeError => Ok tl
  | Raise ValueError => Ok tl
  | Raise e => Raise e
  end.

(** [sep.join(l)] *)
Fixpoint py_join (sep : string) (l : list string) : string :=
  match l with
  | [] => ""
  | [x] => x
  | x :: rest => x ++ sep ++ py_join sep rest
  end.

(** [value and len(value) or 0]: the length of a non-empty list or text, 0
    for anything false; a true value without a length is a [TypeError]. *)
Definition length_or_zero (v : value) : result value :=
  if truthy v then
    match v with
    | VList l => Ok (VInt (py_len l))
    | VStr s => Ok (VInt (Z.of_nat (String.length s)))
    | _ => Raise TypeError
    end
  else Ok (VInt 0).

(** [S3ContingencyTable._totals(values, layers, append)].  [values] is the
    header (or the totals of the report) as far as its layers go;
    [represent] stands for [IS_NUMBER.represent]; the callback [append] is
    the list it appends to. *)
Definition _totals (represent : value -> string)
           (values : list (layer * value)) (lays : list layer)
           (append : option (list value))
  : result (string * option (list value)) :=
  ' (totals, append) <-
      for_each lays
        (fun (st : list string * option (list value)) lay =>
           value <- match layer_get values lay with
                    | Some v => Ok v
                    | None => Raise KeyError
                    end ;;
           value <- (if opt_str_eqb (snd lay) (Some "list")
                     then length_or_zero value else Ok value) ;;
           let append :=
             match fst st, snd st with
             | [], Some collected => Some (collected ++ [value])
             | _, a => a
             end in
           Ok (fst st ++ [represent value], append))
        ([], append) ;;
  Ok (py_join " / " totals, append).

(** What [_get_label] reads of a list field. *)
Record FieldLabel : Type := mkFieldLabel {
  lf_selector : string;
  lf_label : string
}.

(** An entry of a configured field list: a selector, or a pair
    [(label, selector)]. *)
Inductive field_entry : Type :=
| Plain (sel : string)
| Labelled (label sel : string).

(** [s3db.get_config(tablename, key, default)] on the configuration of the
    table. *)
Definition get_config {A : Type} (config : dict A) (key : string)
           (default : option A) : option A :=
  match dict_get config key with
  | Some v => Some v
  | None => default
  end.

(** [S3ContingencyTable._get_label(lfields, field, tablename, key)] *)
Definition _get_label (lf : dict FieldLabel) (field : option string)
           (config : dict (list field_entry)) (key : string) : string :=
  match field with
  | None => ""
  | Some field =>
      match dict_get lf field with
      | None => ""
      | Some l =>
          let list_fields := get_config config "list_fields" None in
          let fields := get_config config key list_fields in
          match find (fun f => match f with
                               | Labelled _ sel => String.eqb sel (lf_selector l)
                               | Plain _ => false
                               end)
                     (match fields with Some fs => fs | None => [] end) with
          | Some (Labelled label _) => label
          | _ => lf_label l
          end
      end
  end.

End S3ContingencyTable.

Module S3Cube.

(** [S3Cube.METHODS]: the names of the methods, [T] being the translator. *)
Definition METHODS (T : string -> string) : dict string :=
  [("list", T "List"); ("count", T "Count"); ("min", T "Minimum");
   ("max", T "Maximum"); ("sum", T "Sum"); ("avg", T "Average")].

(** [S3Cube.mname(code)] *)
Definition mname (T : string -> string) (code : option string)
  : option string :=
  let code := match code with None => "list" | Some c => c end in
  match dict_get (METHODS T) code with
  | Some name => Some (T name)
  | None => None
  end.

(** The options [S3Cube._select_method] offers: the configured methods
    that are supported, or all supported ones (in the order of the
    table; Python leaves the order of [items()] open). *)
Definition method_options (T : string -> string)
           (methods : option (list string)) : list (string * string) :=
  match methods with
  | Some (m :: ms) =>
      flat_map (fun m => match dict_get (METHODS T) m with
                         | Some label => [(m, label)]
                         | None => []
                         end) (m :: ms)
  | _ => METHODS T
  end.

(** [s.split(sep)] for a one-character separator. *)
Fixpoint py_split (sep : ascii) (s : string) : list string :=
  match s with
  | EmptyString => [""]
  | String c s' =>
      if Ascii.eqb c sep then "" :: py_split sep s'
      else match py_split sep s' with
           | [] => [String c ""]
           | piece :: rest => String c piece :: rest
           end
  end.

(** [s.split(sep, 1)] when [sep in s]: the text before the first separator
    and the text after it. *)
Fixpoint py_split_once (sep : ascii) (s : string) : option (string * string) :=
  match s with
  | EmptyString => None
  | String c s' =>
      if Ascii.eqb c sep then Some ("", s')
      else match py_split_once sep s' with
           | Some (before, after) => Some (String c before, after)
           | None => None
           end
  end.

(** A value of the request form: missing, a text, or several texts. *)
Inductive form_value : Type :=
| FNone
| FStr (s : string)
| FList (l : list string).

(** [S3Cube.report]: the layers of the request.  [fact] and [aggregate]
    are the form values; without a fact the field "name" of the table is
    taken, or else the primary key. *)
Definition request_layers (fact : form_value) (aggregate : option string)
           (has_name : bool) (pkey : string) : list layer :=
  let aggregate := if given aggregate then selector aggregate else "list" in
  let facts :=
    match fact with
    | FList (f :: fs) => f :: fs
    | FStr (String c f) => [String c f]
    | _ =>
        let default := if has_name then "name" else pkey in
        match default with
        | EmptyString => []
        | _ => [default]
        end
    end in
  flat_map
    (fun f =>
       map (fun l =>
              match py_split_once ":" l with
              | Some (method, lay) => (Some lay, Some method)
              | None => (Some l, Some aggregate)
              end)
           (py_split "," f))
    facts.

(** [S3Cube.report]: whether the report is generated.  Without rows and
    columns the method falls back to "list"; [form_ok] stands for
    [not form.errors]. *)
Definition generates_report (rows_sel cols_sel : option string)
           (method : string) (form_ok : bool) : bool :=
  let method := if negb (given rows_sel) && negb (given cols_sel)
                then "list" else method in
  form_ok && String.eqb method "report".

End S3Cube.

(** ** The example of the design document *)

Definition rec3 (i : Z) (region status : string) : Row :=
  mkRow [("id", VInt i); ("region", VStr region); ("status", VStr status)] [].

Definition example_lfields : dict LField :=
  [("id", mkLField "t" "id"); ("region", mkLField "t" "region");
   ("status", mkLField "t" "status")].

Definition example_resource : Resource :=
  mkResource "id" example_lfields
    [rec3 1 "A" "open"; rec3 2 "A" "closed"; rec3 3 "B" "open"].


(** * Vocabulary of the properties *)

Local Open Scope Z_scope.

Section value_induction.
Variable P : value -> Prop.
Hypothesis HNone : P VNone.
Hypothesis HBool : forall b, P (VBool b).
Hypothesis HInt : forall n, P (VInt n).
Hypothesis HFloat : forall q, P (VFloat q).
Hypothesis HStr : forall s, P (VStr s).
Hypothesis HDate : forall d, P (VDate d).
Hypothesis HList : forall l, Forall P l -> P (VList l).

Fixpoint value_rect' (v : value) : P v :=
  match v with
  | VNone => HNone
  | VBool b => HBool b
  | VInt n => HInt n
  | VFloat q => HFloat q
  | VStr s => HStr s
  | VDate d => HDate d
  | VList l =>
      HList l ((fix all (l : list value) : Forall P l :=
                  match l with
                  | [] => Forall_nil P
                  | x :: xs => Forall_cons x (value_rect' x) (all xs)
                  end) l)
  end.
End value_induction.

Fixpoint all2 {A : Type} (f : A -> A -> bool) (xs ys : list A) : bool :=
  match xs, ys with
  | [], [] => true
  | x :: xs', y :: ys' => f x y && all2 f xs' ys'
  | _, _ => false
  end.

Fixpoint cmp_list (xs ys : list value) : result comparison :=
  match xs, ys with
  | [], [] => Ok Eq
  | [], _ :: _ => Ok Lt
  | _ :: _, [] => Ok Gt
  | x :: xs', y :: ys' => if py_eq x y then cmp_list xs' ys' else py_cmp x y
  end.

Definition is_date (v : value) : bool :=
  match v with VDate _ => true | _ => false end.

(** The builtin behind each of the four numeric methods. *)
Definition builtin_of (m : string) (values : list value)
  : option (result value) :=
  if String.eqb m "min" then Some (py_min values)
  else if String.eqb m "max" then Some (py_max values)
  else if String.eqb m "sum" then Some (py_sum values)
  else if String.eqb m "avg" then Some (py_sum values)
  else None.

(** The elements of [values] cannot be compared (for "min", "max") or
    added up (for "sum", "avg"). *)
Definition type_failure (m : string) (values : list value) : Prop :=
  builtin_of m values = Some (Raise TypeError).

(** The values a field stands for: the elements of a list, with a single
    none for the empty list; the value itself otherwise. *)
Definition choices (v : value) : list value :=
  match v with
  | VList [] => [VNone]
  | VList l => l
  | _ => [v]
  end.

(** The expansion as the design document words it: one item per
    combination of the values of the fields. *)
Fixpoint combinations (r : item) : list item :=
  match r with
  | [] => [[]]
  | (k, v) :: rest =>
      flat_map (fun x => map (cons (k, x)) (combinations rest)) (choices v)
  end.

Definition expand_example : item :=
  [("region", VList [VStr "A"; VStr "B"]); ("tags", VList []); ("id", VInt 7)].

Definition ints (l : list (string * Z)) : list (string * value) :=
  map (fun p => (fst p, VInt (snd p))) l.

Definition total (l : list (string * Z)) : Z :=
  fold_right (fun p s => snd p + s) 0 l.





Definition tied_entries : list (string * Z) := [("a", 1); ("b", 1); ("c", 5)].


Definition header_values (hs : option (list AxisEntry)) : option (list value) :=
  option_map (map e_value) hs.

(** The cell of row [r] and column [c]. *)
Definition cell_at (cells : list (list Cell)) (r c : nat) : option Cell :=
  match nth_error cells r with
  | Some cell_row => nth_error cell_row c
  | None => None
  end.

(** The record ids the pivot lists for a cell, without [None]. *)
Definition pivot_ids (pt : PivotTable) (r c : nat) : option (list value) :=
  match nth_error (pt_data pt) r with
  | Some data_row =>
      match nth_error data_row c with
      | Some data => Some (filter (fun i => negb (py_eq VNone i)) data)
      | None => None
      end
  | None => None
  end.

(** The report a successful construction over a non-empty record set
    starts its layers from. *)
Definition base_report (resource : Resource) (rows cols : option string)
           (lays : list layer) (store : list (value * nat))
           (items : list item) (objs : list Row) : S3Report.t :=
  let pkey := pkey_name resource in
  let rows_l := if given rows then [selector rows] else [] in
  let cols_l := if given cols then [selector cols] else [] in
  let pt := pivot items pkey rows_l cols_l in
  let col_h := match cols_l with
               | [] => [S3Report.header VNone]
               | _ => map (fun v => S3Report.header (S3Report.header_value v))
                          (cnames pt)
               end in
  let row_h := match rows_l with
               | [] => [S3Report.header VNone]
               | _ => map (fun v => S3Report.header (S3Report.header_value v))
                          (rnames pt)
               end in
  S3Report.mkReport rows cols lays (Some store) objs false
    (resolved resource)
    (S3Report._get_fields pkey rows cols)
    (Some row_h) (Some col_h) None
    (Some (List.length row_h)) (Some (List.length col_h)) [].

Definition report_pivot (resource : Resource) (rows cols : option string)
           (items : list item) : PivotTable :=
  pivot items (pkey_name resource)
        (if given rows then [selector rows] else [])
        (if given cols then [selector cols] else []).

Definition falsy_resource : Resource :=
  mkResource "id"
    [("id", mkLField "t" "id"); ("level", mkLField "t" "level")]
    [mkRow [("id", VInt 1); ("level", VInt 0)] [];
     mkRow [("id", VInt 2); ("level", VNone)] [];
     mkRow [("id", VInt 3); ("level", VInt 2)] []].

Definition five_records : list Row :=
  [rec3 1 "A" "open"; rec3 2 "A" "open"; rec3 3 "A" "closed";
   rec3 4 "A" "open"; rec3 5 "A" "closed"].

Definition five_resource : Resource :=
  mkResource "id" example_lfields five_records.

Definition grand_total (rep : S3Report.t) (lay : layer) : option value :=
  layer_get (S3Report.totals rep) lay.

Definition cell_aggregate (rep : S3Report.t) (r c : nat) (lay : layer)
  : option value :=
  match S3Report.cell rep with
  | Some cells =>
      match cell_at cells r c with
      | Some cl => layer_get (c_layers cl) lay
      | None => None
      end
  | None => None
  end.

Definition header_total (hs : option (list AxisEntry)) (n : nat) (lay : layer)
  : option value :=
  match hs with
  | Some l =>
      match nth_error l n with
      | Some e => layer_get (e_layers e) lay
      | None => None
      end
  | None => None
  end.

Definition count_layer : layer := (None, Some "count").

Definition matrix_shape (nrows ncols : nat) (cells : list (list Cell)) : Prop :=
  List.length cells = nrows /\
  Forall (fun cell_row => List.length cell_row = ncols) cells.

(** The records a cell holds are those of the pivot. *)
Definition cells_sound (pt : PivotTable) (cells : list (list Cell)) : Prop :=
  forall r c cl ids,
    cell_at cells r c = Some cl -> c_records cl = Some ids ->
    pivot_ids pt r c = Some ids.

Definition cell_filled (cells : list (list Cell)) (rc : nat * nat) : Prop :=
  exists cl ids, cell_at cells (fst rc) (snd rc) = Some cl /\
                 c_records cl = Some ids.

Definition cells_grow (cells cells' : list (list Cell)) : Prop :=
  forall rc, cell_filled cells rc -> cell_filled cells' rc.

Definition cells_inv (pt : PivotTable) (nrows ncols : nat)
           (fr : S3Report.frame) : Prop :=
  matrix_shape nrows ncols (S3Report.f_cells fr) /\
  cells_sound pt (S3Report.f_cells fr).

Definition item_differs (a b : item) : Prop := item_eq b a = false.

(** The items of the data frame all carry the grouping fields, and no two
    of them are equal. *)
Definition frame_ok (fields : list string) (items : list item) : Prop :=
  Forall (fun i => keys i = fields) items /\
  ForallOrdPairs item_differs items.

Definition in_cell (rows_l cols_l : list string) (rn cn : value) (i : item)
  : bool :=
  on_axis rows_l rn i && on_axis cols_l cn i.

Definition distinct_ids (ids : list value) : Prop :=
  ForallOrdPairs (fun a b => py_eq a b = false) ids.

Definition collapsing : list (option string) := [Some "list"; Some "count"].

(** Three records of one cell with the kinds "a", "a", "b" and the amounts
    2, 2, 3. *)
Definition kinds_lfields : dict LField :=
  [("id", mkLField "t" "id"); ("region", mkLField "t" "region");
   ("kind", mkLField "t" "kind"); ("amount", mkLField "t" "amount")].

Definition kinds_row (i : Z) (kind : string) (amount : Z) : Row :=
  mkRow [("id", VInt i); ("region", VStr "A"); ("kind", VStr kind);
         ("amount", VInt amount)] [].

Definition kinds_resource : Resource :=
  mkResource "id" kinds_lfields
    [kinds_row 1 "a" 2; kinds_row 2 "a" 2; kinds_row 3 "b" 3].

Definition kinds_self : S3Report.t :=
  Eval vm_compute in
    S3Report.mkReport (Some "region") None [(Some "kind", Some "count")]
      (Some [(VInt 1, 0%nat); (VInt 2, 1%nat); (VInt 3, 2%nat)])
      (sqltable kinds_resource) false kinds_lfields ["region"; "id"]
      (Some [S3Report.header (VStr "A")]) (Some [S3Report.header VNone]) None
      (Some 1%nat) (Some 1%nat) [].

Definition kinds_pivot : PivotTable :=
  mkPivot [VStr "A"] [VInt 1] [[[VInt 1; VInt 2; VInt 3]]].

Definition kinds_frame : S3Report.frame :=
  S3Report.mkFrame (sqltable kinds_resource)
    (Some [mkAxis (VStr "A") (Some []) (Some []) []])
    (Some [S3Report.header VNone])
    [[mkCell None []]] (Some "kind") [] false.

(** The first example with the columns in sorted order (closed, open). *)
Definition sorted_pivot : PivotTable :=
  mkPivot [VStr "A"; VStr "B"] [VStr "closed"; VStr "open"]
          [[[VInt 2]; [VInt 1]]; [[]; [VInt 3]]].

Definition sorted_self : S3Report.t :=
  S3Report.mkReport (Some "region") (Some "status") [count_layer]
    (Some [(VInt 1, 0%nat); (VInt 2, 1%nat); (VInt 3, 2%nat)])
    (sqltable example_resource) false example_lfields
    ["region"; "status"; "id"]
    (Some [S3Report.header (VStr "A"); S3Report.header (VStr "B")])
    (Some [S3Report.header (VStr "closed"); S3Report.header (VStr "open")])
    None (Some 2%nat) (Some 2%nat) [].

(** ** Vocabulary of the further properties *)




(** The primary key of a record, none when it cannot be extracted. *)
Definition key_of (lf : dict LField) (pkey : string) (r : Row) : value :=
  match S3Report._extract lf r pkey with
  | Ok v => v
  | Raise _ => VNone
  end.

(** The body of the loop that fills the store ([S3Report.build_store]). *)
Definition store_body (lf : dict LField) (pkey : string)
           (st : list (value * nat)) (kr : nat * Row)
  : result (list (value * nat)) :=
  pk <- S3Report._extract lf (snd kr) pkey ;;
  if is_list pk then Raise TypeError
  else Ok (S3Report.store_set st pk (fst kr)).

(** What the store holds once the records [done] are in it. *)
Definition store_inv (lf : dict LField) (pkey : string)
           (done : list (nat * Row)) (st : list (value * nat)) : Prop :=
  distinct_ids (keys st) /\
  (List.length st <= List.length done)%nat /\
  (forall k, In k (keys st) -> exists kr, In kr done /\ k = key_of lf pkey (snd kr)) /\
  (forall kr, In kr done ->
     S3Report._extract lf (snd kr) pkey = Ok (key_of lf pkey (snd kr)) /\
     exists kr',
       In kr' done /\
       S3Report.lookup_record (Some st) (key_of lf pkey (snd kr)) = Ok (fst kr') /\
       py_eq (key_of lf pkey (snd kr)) (key_of lf pkey (snd kr')) = true) /\
  (distinct_ids (map (fun kr => key_of lf pkey (snd kr)) done) ->
   List.length st = List.length done).

(** A computation that does not end in a SyntaxError. *)
Definition quiet {A : Type} (m : result A) : Prop := m <> Raise SyntaxError.

(** The value [_totals] shows for a layer: the aggregate of the layer, or
    its length when the layer is a list. *)
Definition shown (values : list (layer * value)) (lay : layer) (v : value)
  : Prop :=
  exists raw,
    layer_get values lay = Some raw /\
    (if opt_str_eqb (snd lay) (Some "list")
     then S3ContingencyTable.length_or_zero raw = Ok v
     else v = raw).

(** [c in s] for a character. *)
Fixpoint has_char (c : ascii) (s : string) : bool :=
  match s with
  | EmptyString => false
  | String d s' => Ascii.eqb d c || has_char c s'
  end.

(** The text of a layer in a request: [method:fact]. *)
Definition layer_text (l : string * string) : string :=
  (snd l ++ ":" ++ fst l)%string.

(** The layers of one fact of the request. *)
Definition fact_layers (aggregate f : string) : list layer :=
  map (fun l =>
         match S3Cube.py_split_once ":" l with
         | Some (method, lay) => (Some lay, Some method)
         | None => (Some l, Some aggregate)
         end)
      (S3Cube.py_split "," f).

(** The aggregate a matrix of cells holds at row [r] and column [c] for a
    layer. *)
Definition cells_layer (cells : list (list Cell)) (r c : nat) (lay : layer)
  : option value :=
  match cell_at cells r c with
  | Some cl => layer_get (c_layers cl) lay
  | None => None
  end.

(** What computing the layer [lay] may do to the aggregates [f] of one
    place: the other layers keep their aggregate, and no layer loses
    its. *)
Definition same_but (lay : layer) (f g : layer -> option value) : Prop :=
  (forall lay0, layer_eqb lay0 lay = false -> g lay0 = f lay0) /\
  (forall lay0, f lay0 <> None -> g lay0 <> None).

(** The same, for all the places of the frame a layer is computed in. *)
Definition frame_rel (lay : layer) (a b : S3Report.frame) : Prop :=
  (forall r c, same_but lay (cells_layer (S3Report.f_cells a) r c)
                        (cells_layer (S3Report.f_cells b) r c)) /\
  (forall n, same_but lay (header_total (S3Report.f_rows a) n)
                      (header_total (S3Report.f_rows b) n)) /\
  (forall n, same_but lay (header_total (S3Report.f_cols a) n)
                      (header_total (S3Report.f_cols b) n)).

(** No place of the report loses an aggregate. *)
Definition report_keeps (a b : S3Report.t) : Prop :=
  forall lay0,
    (forall r c, cell_aggregate a r c lay0 <> None ->
                 cell_aggregate b r c lay0 <> None) /\
    (forall n, header_total (S3Report.row a) n lay0 <> None ->
               header_total (S3Report.row b) n lay0 <> None) /\
    (forall n, header_total (S3Report.col a) n lay0 <> None ->
               header_total (S3Report.col b) n lay0 <> None) /\
    (grand_total a lay0 <> None -> grand_total b lay0 <> None).

(** Every place of the report, up to [nr] rows and [nc] columns, holds an
    aggregate of the layer. *)
Definition layer_complete (nr nc : nat) (rep : S3Report.t) (lay : layer)
  : Prop :=
  (forall r c, (r < nr)%nat -> (c < nc)%nat ->
               cell_aggregate rep r c lay <> None) /\
  (forall r, (r < nr)%nat -> header_total (S3Report.row rep) r lay <> None) /\
  (forall c, (c < nc)%nat -> header_total (S3Report.col rep) c lay <> None) /\
  grand_total rep lay <> None.












(** * Properties *)

(** ** Generic facts about the error monad and the loops *)

Lemma bind_Ok {A B : Type} (m : result A) (k : A -> result B) (b : B) :
  bind m k = Ok b -> exists a, m = Ok a /\ k a = Ok b.
Proof.
  destruct m as [a|e]; simpl; intros H; [exists a; split; trivial | discriminate].
Qed.

Lemma for_each_app {A S : Type} (xs ys : list A) (body : S -> A -> result S)
      (st : S) :
  for_each (xs ++ ys) body st = (st' <- for_each xs body st ;; for_each ys body st').
Proof.
  revert st; induction xs as [|x xs IH]; intros st; simpl; [reflexivity|].
  destruct (body st x) as [st'|e]; simpl; [apply IH | reflexivity].
Qed.

(** A loop that ends normally has kept every invariant its body keeps. *)
Lemma for_each_invariant {A S : Type} (P : S -> Prop) (xs : list A)
      (body : S -> A -> result S) :
  (forall st x st', In x xs -> P st -> body st x = Ok st' -> P st') ->
  forall st st', P st -> for_each xs body st = Ok st' -> P st'.
Proof.
  induction xs as [|x xs IH]; intros Hbody st st' HP H; simpl in H.
  - inversion H; subst; exact HP.
  - apply bind_Ok in H. destruct H as (st1 & H1 & H2).
    apply (IH (fun s y s' Hy => Hbody s y s' (or_intror Hy)) st1 st'); trivial.
    apply (Hbody st x st1); simpl; auto.
Qed.


(** ** The aggregation functions *)

Example aggregate_median :
  S3Report._aggregate (Some [VInt 1; VInt 2; VInt 3]) (Some "median") = Ok VNone.
Proof. reflexivity. Qed.

Example aggregate_avg :
  S3Report._aggregate (Some [VInt 1; VInt 2; VInt 4]) (Some "avg")
  = Ok (VFloat (7 # 3)).
Proof. reflexivity. Qed.

(** Python 2 orders unlike types instead of refusing them. *)
Example aggregate_min_int_text :
  S3Report._aggregate (Some [VInt 1; VStr "a"]) (Some "min") = Ok (VInt 1).
Proof. reflexivity. Qed.

(** The handlers of "min" and "max" do not cover the [ValueError] of an
    empty sequence. *)
Example aggregate_empty_min_max :
  S3Report._aggregate (Some []) (Some "min") = Raise ValueError /\
  S3Report._aggregate (Some []) (Some "max") = Raise ValueError.
Proof. split; reflexivity. Qed.

(** The test [method in ("avg")] is a substring test. *)
Example aggregate_substring_of_avg :
  S3Report._aggregate (Some [VInt 1; VInt 2; VInt 3]) (Some "a")
  = Ok (VFloat (2 # 1)).
Proof. reflexivity. Qed.

(** C3, as stated, fails: the sum of an empty sequence is 0, not none. *)
Lemma aggregate_empty_sum_not_none :
  S3Report._aggregate (Some []) (Some "sum") <> Ok VNone.
Proof. simpl. discriminate. Qed.

(** C3 (amended): on an empty value sequence the aggregation function
    returns none for "list", 0 for "count", 0 for "sum" and 0.0 for "avg". *)
Theorem aggregate_empty :
  S3Report._aggregate (Some []) (Some "list") = Ok VNone /\
  S3Report._aggregate (Some []) (Some "count") = Ok (VInt 0) /\
  S3Report._aggregate (Some []) (Some "sum") = Ok (VInt 0) /\
  S3Report._aggregate (Some []) (Some "avg") = Ok (VFloat 0).
Proof. repeat split; reflexivity. Qed.

Lemma py_add_num (a b v : value) :
  as_num a <> None -> py_add a b = Ok v -> as_num v <> None.
Proof.
  unfold py_add. intros Ha H.
  destruct (as_num a) as [[m|p]|] eqn:Ea; [| |contradiction];
    destruct (as_num b) as [[n|q]|] eqn:Eb;
    try (inversion H; subst; simpl; discriminate);
    destruct a; simpl in Ea; try discriminate;
    destruct b; simpl in Eb; discriminate.
Qed.

Lemma py_add_raises (a b : value) (e : exn) :
  py_add a b = Raise e -> e = TypeError.
Proof.
  unfold py_add.
  destruct (as_num a) as [[m|p]|]; destruct (as_num b) as [[n|q]|];
    try discriminate; destruct a; destruct b; intros H; inversion H; reflexivity.
Qed.


Lemma sum_loop_raises (vs : list value) (acc : value) (e : exn) :
  for_each vs py_add acc = Raise e -> e = TypeError.
Proof.
  revert acc; induction vs as [|x vs IH]; intros acc H; simpl in H; [discriminate|].
  destruct (py_add acc x) as [acc'|e'] eqn:E; simpl in H.
  - exact (IH _ H).
  - inversion H; subst. exact (py_add_raises _ _ _ E).
Qed.









(** ** Python equality and ordering *)

Lemma py_eq_list (la lb : list value) :
  py_eq (VList la) (VList lb) = all2 py_eq la lb.
Proof.
  revert lb; induction la as [|x la IH]; intros [|y lb]; try reflexivity.
  simpl. f_equal. exact (IH lb).
Qed.

Lemma Qeq_bool_sym (p q : Q) : Qeq_bool p q = Qeq_bool q p.
Proof.
  apply eq_true_iff_eq. rewrite !Qeq_bool_iff. split; intros H; symmetry; exact H.
Qed.

Lemma Qeq_bool_trans (p q r : Q) :
  Qeq_bool p q = true -> Qeq_bool q r = true -> Qeq_bool p r = true.
Proof.
  rewrite !Qeq_bool_iff. intros H1 H2. rewrite H1. exact H2.
Qed.

Lemma py_eq_refl (v : value) : py_eq v v = true.
Proof.
  induction v using value_rect'; simpl;
    try reflexivity; try (apply Qeq_bool_iff; reflexivity).
  - apply String.eqb_refl.
  - apply Z.eqb_refl.
  - change (py_eq (VList l) (VList l) = true). rewrite py_eq_list.
    induction H as [|x l Hx Hl IH]; simpl; [reflexivity|].
    rewrite Hx. exact IH.
Qed.

Lemma py_eq_sym (u w : value) : py_eq u w = py_eq w u.
Proof.
  revert w; induction u using value_rect'; intros w; destruct w;
    simpl; try reflexivity; try apply Qeq_bool_sym.
  - apply String.eqb_sym.
  - apply Z.eqb_sym.
  - change (py_eq (VList l) (VList l0) = py_eq (VList l0) (VList l)).
    rewrite !py_eq_list. revert l0.
    induction H as [|x l Hx Hl IH]; intros [|y l0]; simpl; try reflexivity.
    rewrite Hx, IH. reflexivity.
Qed.

Lemma py_eq_trans (u w z : value) :
  py_eq u w = true -> py_eq w z = true -> py_eq u z = true.
Proof.
  revert w z; induction u using value_rect'; intros w z; destruct w;
    simpl; try discriminate; destruct z; simpl; try discriminate;
    try (apply Qeq_bool_trans); try (intros; reflexivity).
  - rewrite !String.eqb_eq. congruence.
  - rewrite !Z.eqb_eq. congruence.
  - change (py_eq (VList l) (VList l0) = true ->
            py_eq (VList l0) (VList l1) = true ->
            py_eq (VList l) (VList l1) = true).
    rewrite !py_eq_list. revert l0 l1.
    induction H as [|x l Hx Hl IH]; intros [|y l0] [|z l1]; simpl;
      try discriminate; try reflexivity.
    rewrite !andb_true_iff. intros [H1 H2] [H3 H4]. split.
    + exact (Hx _ _ H1 H3).
    + exact (IH _ _ H2 H4).
Qed.

Lemma py_cmp_list (la lb : list value) :
  py_cmp (VList la) (VList lb) = cmp_list la lb.
Proof.
  destruct la, lb; reflexivity.
Qed.

(** Ordering two values fails with a [TypeError] or not at all. *)
Lemma py_cmp_raises (u w : value) (e : exn) :
  py_cmp u w = Raise e -> e = TypeError.
Proof.
  revert w; induction u using value_rect'; intros w;
    destruct w as [| | | | | |lw]; simpl;
    try discriminate; try (intros Hr; inversion Hr; reflexivity).
  change (py_cmp (VList l) (VList lw) = Raise e -> e = TypeError).
  rewrite py_cmp_list. revert lw.
  induction H as [|x l Hx Hl IH]; intros [|y lw]; simpl; try discriminate.
  destruct (py_eq x y); [apply IH | apply Hx].
Qed.

Lemma py_cmp_date_mix (a b : value) :
  is_date a <> is_date b -> py_cmp a b = Raise TypeError.
Proof.
  destruct a, b; simpl; intros H; try reflexivity; exfalso; apply H; reflexivity.
Qed.

(** [min] and [max] over dates mixed with anything else raise a
    [TypeError]. *)
Lemma extreme_loop_mixed (pick : comparison -> bool) (rest : list value)
      (cur x : value) :
  In x rest -> is_date x <> is_date cur ->
  for_each rest
    (fun cur item =>
       b <- (c <- py_cmp item cur ;; Ok (pick c)) ;;
       Ok (if b then item else cur)) cur
  = Raise TypeError.
Proof.
  revert cur; induction rest as [|y rest IH]; intros cur Hin Hmix; [contradiction|].
  simpl. destruct (py_cmp y cur) as [c|e] eqn:E; simpl.
  - assert (Hy : is_date y = is_date cur).
    { destruct (Bool.bool_dec (is_date y) (is_date cur)) as [Heq|Hne]; trivial.
      rewrite (py_cmp_date_mix _ _ Hne) in E. discriminate. }
    destruct Hin as [->|Hin]; [contradiction|].
    apply IH; trivial. destruct (pick c); congruence.
  - rewrite (py_cmp_raises _ _ _ E). reflexivity.
Qed.

Lemma min_max_mixed_dates (values : list value) (x y : value) :
  In x values -> In y values -> is_date x <> is_date y ->
  py_min values = Raise TypeError /\ py_max values = Raise TypeError.
Proof.
  intros Hx Hy Hmix. destruct values as [|v rest]; [contradiction|].
  assert (H : exists z, In z rest /\ is_date z <> is_date v).
  { destruct Hx as [->|Hx]; destruct Hy as [->|Hy].
    - contradiction Hmix; reflexivity.
    - exists y; split; trivial. congruence.
    - exists x; split; trivial.
    - destruct (Bool.bool_dec (is_date x) (is_date v)).
      + exists y; split; trivial. congruence.
      + exists x; split; trivial. }
  destruct H as (z & Hz & Hzv). split.
  - exact (extreme_loop_mixed (fun c => match c with Lt => true | _ => false end)
             rest v z Hz Hzv).
  - exact (extreme_loop_mixed (fun c => match c with Gt => true | _ => false end)
             rest v z Hz Hzv).
Qed.

(** [sum] over anything that holds a value which is not a number raises a
    [TypeError]. *)
Lemma sum_loop_non_number (values : list value) (acc x : value) :
  as_num acc <> None -> In x values -> as_num x = None ->
  for_each values py_add acc = Raise TypeError.
Proof.
  revert acc; induction values as [|y values IH]; intros acc Ha Hin Hx; [contradiction|].
  simpl. destruct (py_add acc y) as [acc'|e] eqn:E; simpl.
  - destruct Hin as [->|Hin].
    + exfalso. unfold py_add in E. rewrite Hx in E.
      destruct acc; simpl in *; try discriminate; try (apply Ha; reflexivity);
        destruct b; discriminate.
    + exact (IH acc' (py_add_num _ _ _ Ha E) Hin Hx).
  - rewrite (py_add_raises _ _ _ E). reflexivity.
Qed.

Lemma sum_non_number (values : list value) (x : value) :
  In x values -> as_num x = None -> py_sum values = Raise TypeError.
Proof. apply sum_loop_non_number. simpl. discriminate. Qed.

Lemma aggregate_type_failure (m : string) (values : list value) :
  type_failure m values ->
  S3Report._aggregate (Some values) (Some m) = Ok VNone.
Proof.
  unfold type_failure, builtin_of, S3Report._aggregate. intros Hfail.
  destruct (String.eqb m "min") eqn:E1.
  { apply String.eqb_eq in E1; subst m. simpl. inversion Hfail as [H].
    rewrite H. reflexivity. }
  destruct (String.eqb m "max") eqn:E2.
  { apply String.eqb_eq in E2; subst m. simpl. inversion Hfail as [H].
    rewrite H. reflexivity. }
  destruct (String.eqb m "sum") eqn:E3.
  { apply String.eqb_eq in E3; subst m. simpl. inversion Hfail as [H].
    rewrite H. reflexivity. }
  destruct (String.eqb m "avg") eqn:E4; [|discriminate].
  apply String.eqb_eq in E4; subst m. inversion Hfail as [H].
  change (String.eqb "avg" "list") with false.
  change (String.eqb "avg" "count") with false.
  change (str_contains "avg" "avg") with true.
  cbv iota. rewrite H.
  destruct values as [|v values]; [discriminate H|].
  reflexivity.
Qed.



(** Instances of C5 by the kind of the values: dates among other values
    under "min" and "max", anything but numbers under "sum" and "avg". *)
Lemma aggregate_mixed_values (values : list value) (x y : value) :
  In x values -> In y values ->
  (is_date x <> is_date y ->
   S3Report._aggregate (Some values) (Some "min") = Ok VNone /\
   S3Report._aggregate (Some values) (Some "max") = Ok VNone) /\
  (as_num x = None ->
   S3Report._aggregate (Some values) (Some "sum") = Ok VNone /\
   S3Report._aggregate (Some values) (Some "avg") = Ok VNone).
Proof.
  intros Hx Hy. split.
  - intros Hmix. destruct (min_max_mixed_dates values x y Hx Hy Hmix) as [H1 H2].
    split.
    + apply (aggregate_type_failure "min"). unfold type_failure, builtin_of.
      simpl. rewrite H1. reflexivity.
    + apply (aggregate_type_failure "max"). unfold type_failure, builtin_of.
      simpl. rewrite H2. reflexivity.
  - intros Hn. pose proof (sum_non_number values x Hx Hn) as H. split.
    + apply (aggregate_type_failure "sum"). unfold type_failure, builtin_of.
      simpl. rewrite H. reflexivity.
    + apply (aggregate_type_failure "avg"). unfold type_failure, builtin_of.
      simpl. rewrite H. reflexivity.
Qed.

(** ** Expansion of multi-valued fields *)

Lemma dict_get_app_miss {A : Type} (p q : dict A) (k : string) :
  ~ In k (keys p) -> dict_get (p ++ q) k = dict_get q k.
Proof.
  induction p as [|[k' v'] p IH]; simpl; intros H; [reflexivity|].
  destruct (String.eqb k k') eqn:E.
  - apply String.eqb_eq in E. subst. tauto.
  - apply IH. tauto.
Qed.

Lemma dict_set_app_miss {A : Type} (p q : dict A) (k : string) (x : A) :
  ~ In k (keys p) -> dict_set (p ++ q) k x = p ++ dict_set q k x.
Proof.
  induction p as [|[k' v'] p IH]; simpl; intros H; [reflexivity|].
  destruct (String.eqb k k') eqn:E.
  - apply String.eqb_eq in E. subst. tauto.
  - rewrite IH by tauto. reflexivity.
Qed.

Lemma expand_field_at (k : string) (v : value) (post : item)
      (ps : list item) (acc : list item) :
  (forall p, In p ps -> ~ In k (keys p)) ->
  for_each (map (fun p => p ++ (k, v) :: post) ps)
    (fun results r =>
       match dict_get r k with
       | None => Raise KeyError
       | Some (VList l) =>
           let l := match l with [] => [VNone] | _ => l end in
           Ok (results ++ map (fun x => dict_set r k x) l)
       | Some _ => Ok (results ++ [r])
       end) acc
  = Ok (acc ++ flat_map (fun p => map (fun x => p ++ (k, x) :: post) (choices v))
                        ps).
Proof.
  revert acc; induction ps as [|p ps IH]; intros acc Hk; simpl.
  - rewrite app_nil_r. reflexivity.
  - assert (Hp : ~ In k (keys p)) by (apply Hk; simpl; auto).
    rewrite (dict_get_app_miss p _ k Hp). simpl. rewrite String.eqb_refl.
    assert (Hset : forall x, dict_set (p ++ (k, v) :: post) k x = p ++ (k, x) :: post).
    { intros x. rewrite (dict_set_app_miss p _ k x Hp). simpl.
      rewrite String.eqb_refl. reflexivity. }
    assert (Hmap : forall l, map (fun x => dict_set (p ++ (k, v) :: post) k x) l
                             = map (fun x => p ++ (k, x) :: post) l).
    { intros l. apply map_ext. exact Hset. }
    assert (Hrest : forall p', In p' ps -> ~ In k (keys p'))
      by (intros p' Hp'; apply Hk; simpl; auto).
    destruct v as [| | | | | |l]; simpl;
      try (rewrite (IH _ Hrest), <- app_assoc; reflexivity).
    destruct l as [|x l]; simpl.
    + rewrite (IH _ Hrest), <- app_assoc. simpl. rewrite Hset. reflexivity.
    + rewrite (IH _ Hrest), <- app_assoc. simpl. rewrite Hset, Hmap. reflexivity.
Qed.

Lemma expand_field_spec (k : string) (v : value) (post : item)
      (ps : list item) :
  (forall p, In p ps -> ~ In k (keys p)) ->
  S3Report._expand_field (map (fun p => p ++ (k, v) :: post) ps) k
  = Ok (flat_map (fun p => map (fun x => p ++ (k, x) :: post) (choices v)) ps).
Proof. intros H. exact (expand_field_at k v post ps [] H). Qed.

Lemma keys_app {A : Type} (p q : dict A) : keys (p ++ q) = keys p ++ keys q.
Proof. apply map_app. Qed.

Lemma flat_map_map {A B C : Type} (f : A -> B) (g : B -> list C) (l : list A) :
  flat_map g (map f l) = flat_map (fun x => g (f x)) l.
Proof.
  induction l as [|x l IH]; simpl; [reflexivity|]. rewrite IH. reflexivity.
Qed.

Lemma map_flat_map {A B C : Type} (f : B -> C) (g : A -> list B) (l : list A) :
  map f (flat_map g l) = flat_map (fun x => map f (g x)) l.
Proof.
  induction l as [|x l IH]; simpl; [reflexivity|].
  rewrite map_app, IH. reflexivity.
Qed.

Lemma flat_map_flat_map {A B C : Type} (f : A -> list B) (g : B -> list C)
      (l : list A) :
  flat_map g (flat_map f l) = flat_map (fun x => flat_map g (f x)) l.
Proof.
  induction l as [|x l IH]; simpl; [reflexivity|].
  rewrite flat_map_app, IH. reflexivity.
Qed.

Lemma expand_loop (post : item) :
  forall (kpre : list string) (ps : list item),
    (forall p, In p ps -> keys p = kpre) ->
    NoDup (kpre ++ keys post) ->
    for_each (keys post) S3Report._expand_field (map (fun p => p ++ post) ps)
    = Ok (flat_map (fun p => map (app p) (combinations post)) ps).
Proof.
  induction post as [|[k v] post IH]; intros kpre ps Hkeys Hnd; simpl.
  - clear Hkeys. apply f_equal.
    induction ps as [|p ps IHps]; simpl; [reflexivity|].
    rewrite IHps. reflexivity.
  - rewrite (expand_field_spec k v post ps).
    2:{ intros p Hp Hin. rewrite (Hkeys p Hp) in Hin.
        apply NoDup_remove_2 in Hnd. apply Hnd. apply in_or_app. auto. }
    simpl.
    set (ps' := flat_map (fun p => map (fun x => p ++ [(k, x)]) (choices v)) ps).
    assert (E : flat_map (fun p => map (fun x => p ++ (k, x) :: post) (choices v)) ps
                = map (fun p' => p' ++ post) ps').
    { unfold ps'. rewrite map_flat_map. apply flat_map_ext. intros p.
      rewrite map_map. apply map_ext. intros x. rewrite <- app_assoc. reflexivity. }
    rewrite E. rewrite (IH (kpre ++ [k]) ps').
    + f_equal. unfold ps'. rewrite flat_map_flat_map. apply flat_map_ext. intros p.
      rewrite flat_map_map, map_flat_map. apply flat_map_ext. intros x.
      rewrite map_map. apply map_ext. intros t. rewrite <- app_assoc. reflexivity.
    + intros p' Hp'. unfold ps' in Hp'. apply in_flat_map in Hp'.
      destruct Hp' as (p & Hp & Hin). apply in_map_iff in Hin.
      destruct Hin as (x & <- & _). rewrite keys_app, (Hkeys p Hp). reflexivity.
    + rewrite <- app_assoc. exact Hnd.
Qed.

Lemma expand_combinations (r : item) :
  NoDup (keys r) -> S3Report._expand r = Ok (combinations r).
Proof.
  intros Hnd. unfold S3Report._expand.
  assert (H : for_each (keys r) S3Report._expand_field
                (map (fun p : item => p ++ r) [[]])
              = Ok (flat_map (fun p => map (app p) (combinations r)) [[]])).
  { apply (expand_loop r []); [|exact Hnd]. intros p [<-|[]]. reflexivity. }
  refine (eq_trans H _). simpl. rewrite app_nil_r. apply f_equal.
  erewrite map_ext; [apply map_id | reflexivity].
Qed.

Lemma choices_placeholder (v : value) : choices (placeholder v) = choices v.
Proof. destruct v as [| | | | | |[|x l]]; reflexivity. Qed.

Lemma combinations_effect (r : item) :
  combinations (S3Report._expand_effect r) = combinations r.
Proof.
  induction r as [|[k v] r IH]; simpl; [reflexivity|].
  rewrite choices_placeholder. apply flat_map_ext. intros x.
  change (map (cons (k, x)) (combinations (S3Report._expand_effect r))
          = map (cons (k, x)) (combinations r)).
  rewrite IH. reflexivity.
Qed.

Lemma keys_effect (r : item) : keys (S3Report._expand_effect r) = keys r.
Proof.
  unfold S3Report._expand_effect, keys. rewrite map_map. reflexivity.
Qed.

Lemma combinations_length (r : item) :
  List.length (combinations r)
  = fold_right (fun kv n => (List.length (choices (snd kv)) * n)%nat) 1%nat r.
Proof.
  induction r as [|[k v] r IH]; simpl; [reflexivity|].
  rewrite <- IH. generalize (choices v) as cs.
  induction cs as [|x cs IHcs]; simpl; [reflexivity|].
  rewrite length_app, length_map. f_equal. exact IHcs.
Qed.

Lemma choices_not_empty (v : value) : choices v <> [].
Proof. destruct v as [| | | | | |[|x l]]; discriminate. Qed.

Lemma combinations_not_empty (r : item) : combinations r <> [].
Proof.
  induction r as [|[k v] r IH]; simpl; [discriminate|].
  destruct (choices v) as [|x cs] eqn:E; [destruct (choices_not_empty v E)|].
  simpl. destruct (combinations r); [contradiction|discriminate].
Qed.

(** C9: the expansion of a flat item is the sequence of all combinations
    of the values of its list-typed fields (an empty list standing for one
    none); their number is the product of the numbers of values, so at
    least one; and a call leaves nothing behind that changes a later
    call, not even on the item it has just expanded. *)
Theorem expand_cartesian (r : item) (Hkeys : NoDup (keys r)) :
  S3Report._expand r = Ok (combinations r) /\
  List.length (combinations r)
  = fold_right (fun kv n => (List.length (choices (snd kv)) * n)%nat) 1%nat r /\
  combinations r <> [] /\
  S3Report._expand (S3Report._expand_effect r) = S3Report._expand r.
Proof.
  repeat split.
  - exact (expand_combinations r Hkeys).
  - exact (combinations_length r).
  - exact (combinations_not_empty r).
  - rewrite (expand_combinations r Hkeys).
    rewrite expand_combinations by (rewrite keys_effect; exact Hkeys).
    rewrite combinations_effect. reflexivity.
Qed.

Lemma expand_cartesian_witness :
  NoDup (keys expand_example) /\
  S3Report._expand expand_example
  = Ok [[("region", VStr "A"); ("tags", VNone); ("id", VInt 7)];
        [("region", VStr "B"); ("tags", VNone); ("id", VInt 7)]].
Proof.
  assert (H : NoDup (keys expand_example)).
  { repeat constructor; simpl; intros F;
      repeat (destruct F as [F|F]; [discriminate F|]); exact F. }
  split; [exact H|].
  exact (proj1 (expand_cartesian expand_example H)).
Defined.

(** ** Top-N with Others *)


(** With no room for a first entry the reduction still returns entries. *)
Example top_zero :
  S3ContingencyTable._top (ints tied_entries) 0 false
  = Ok [("c", VInt 5); ("a", VInt 1); ("Others", VInt 1)].
Proof. reflexivity. Qed.

(** The comparison of the sort truncates the difference of two floats, so
    that values less than 1 apart count as equal. *)
Example top_floats :
  S3ContingencyTable._top
    [("a", VFloat (1 # 4)); ("b", VFloat (3 # 4)); ("c", VFloat (1 # 2))] 2 false
  = Ok [("a", VFloat (1 # 4)); ("Others", VFloat (5 # 4))].
Proof. reflexivity. Qed.















(** ** The layer loop: what a step does to the headers and the cells *)

Lemma list_set_length {A : Type} (l : list A) (n : nat) (x : A) :
  List.length (list_set l n x) = List.length l.
Proof.
  revert n; induction l as [|y l IH]; intros [|n]; simpl; auto.
Qed.

Lemma list_set_same {A : Type} (l : list A) (n : nat) (x y : A) :
  nth_error l n = Some y -> nth_error (list_set l n x) n = Some x.
Proof.
  revert n; induction l as [|z l IH]; intros [|n]; simpl; try discriminate; auto.
Qed.

Lemma list_set_other {A : Type} (l : list A) (n m : nat) (x : A) :
  n <> m -> nth_error (list_set l n x) m = nth_error l m.
Proof.
  revert n m; induction l as [|z l IH]; intros [|n] [|m] H; simpl; auto.
  contradiction H; reflexivity.
Qed.

Lemma list_get_Ok {A : Type} (l : list A) (n : nat) (x : A) :
  list_get l n = Ok x -> nth_error l n = Some x.
Proof.
  unfold list_get. destruct (nth_error l n); intros H; inversion H; reflexivity.
Qed.

Lemma map_list_set {A B : Type} (f : A -> B) (l : list A) (n : nat) (x y : A) :
  nth_error l n = Some y -> f x = f y -> map f (list_set l n x) = map f l.
Proof.
  revert n; induction l as [|z l IH]; intros [|n] H E; simpl in *;
    try discriminate; auto.
  - inversion H; subst. rewrite E. reflexivity.
  - rewrite (IH n H E). reflexivity.
Qed.

Lemma axis_set_values (hs : option (list AxisEntry)) (n : nat)
      (e e' : AxisEntry) :
  S3Report.axis_get hs n = Ok e -> e_value e' = e_value e ->
  header_values (S3Report.axis_set hs n e') = header_values hs.
Proof.
  destruct hs as [l|]; simpl; [|reflexivity].
  intros H E. apply list_get_Ok in H.
  rewrite (map_list_set e_value l n e' e H E). reflexivity.
Qed.

Lemma layer_eqb_refl (k : layer) : layer_eqb k k = true.
Proof.
  destruct k as [[f|] [m|]]; unfold layer_eqb; simpl;
    rewrite ?String.eqb_refl; reflexivity.
Qed.

Lemma layer_get_set (d : list (layer * value)) (k : layer) (v : value) :
  layer_get (layer_set d k v) k = Some v.
Proof.
  induction d as [|[k' v'] d IH]; simpl.
  - rewrite layer_eqb_refl. reflexivity.
  - destruct (layer_eqb k k') eqn:E; simpl; rewrite E; [reflexivity | exact IH].
Qed.

(** What one turn of the column loop does. *)
Lemma cell_step_inv (self : S3Report.t) (pt : PivotTable) (pkey : string)
      (method : option string) (lay : layer) (r c : nat)
      (fr fr' : S3Report.frame) :
  S3Report.cell_step self pt pkey method lay r fr c = Ok fr' ->
  exists col0 row0 col1 row1 cell_row cell0 ids values v,
    S3Report.axis_get (S3Report.f_cols fr) c = Ok col0 /\
    S3Report.axis_get (S3Report.f_rows fr) r = Ok row0 /\
    nth_error (S3Report.f_cells fr) r = Some cell_row /\
    nth_error cell_row c = Some cell0 /\
    (c_records cell0 = Some ids \/
     c_records cell0 = None /\ pivot_ids pt r c = Some ids) /\
    match S3Report.f_fact fr with
    | None => values = ids /\ S3Report.f_objects fr' = S3Report.f_objects fr
    | Some fact =>
        S3Report.cell_values (S3Report.lfields self) (S3Report.records self)
          (S3Report.f_objects fr) ids fact method
        = Ok (values, S3Report.f_objects fr')
    end /\
    S3Report._aggregate (Some values) method = Ok v /\
    S3Report.f_cells fr'
    = list_set (S3Report.f_cells fr) r
        (list_set cell_row c
           (mkCell (Some ids) (layer_set (c_layers cell0) lay v))) /\
    S3Report.f_rows fr' = S3Report.axis_set (S3Report.f_rows fr) r row1 /\
    e_value row1 = e_value row0 /\
    S3Report.f_cols fr' = S3Report.axis_set (S3Report.f_cols fr) c col1 /\
    e_value col1 = e_value col0.
Proof.
  unfold S3Report.cell_step. intros H.
  apply bind_Ok in H. destruct H as (col0 & Hcol & H).
  apply bind_Ok in H. destruct H as (cell_row & Hcr & H).
  apply bind_Ok in H. destruct H as (cell0 & Hc0 & H).
  apply bind_Ok in H. destruct H as (ids & Hids & H).
  apply bind_Ok in H. destruct H as (row0 & Hrow & H).
  apply list_get_Ok in Hcr. apply list_get_Ok in Hc0.
  assert (Hrec : c_records cell0 = Some ids \/
                 c_records cell0 = None /\ pivot_ids pt r c = Some ids).
  { destruct (c_records cell0) as [ids0|].
    - inversion Hids; subst. left. reflexivity.
    - right. split; [reflexivity|].
      apply bind_Ok in Hids. destruct Hids as (data_row & Hdr & Hids).
      apply bind_Ok in Hids. destruct Hids as (data & Hd & Hids).
      apply list_get_Ok in Hdr. apply list_get_Ok in Hd.
      unfold pivot_ids. rewrite Hdr, Hd. inversion Hids; reflexivity. }
  destruct (S3Report.f_fact fr) as [fact|] eqn:Ef.
  - apply bind_Ok in H. destruct H as ([values objs] & Hv & H).
    apply bind_Ok in H. destruct H as (v & Hagg & H).
    inversion H; subst; clear H. simpl.
    eexists col0, row0, _, _, cell_row, cell0, ids, values, v.
    repeat split; try eassumption; try reflexivity.
    destruct (S3Report.row_values_is_records fr); reflexivity.
  - apply bind_Ok in H. destruct H as (all_values & Hk & H).
    apply bind_Ok in H. destruct H as (v & Hagg & H).
    inversion H; subst; clear H. simpl.
    eexists col0, row0, _, _, cell_row, cell0, ids, ids, v.
    repeat split; try eassumption; reflexivity.
Qed.

(** The layer loop leaves the values of the row and column headers as the
    constructor has set them. *)
Lemma cell_step_headers (self : S3Report.t) (pt : PivotTable) (pkey : string)
      (method : option string) (lay : layer) (r c : nat)
      (fr fr' : S3Report.frame) :
  S3Report.cell_step self pt pkey method lay r fr c = Ok fr' ->
  header_values (S3Report.f_rows fr') = header_values (S3Report.f_rows fr) /\
  header_values (S3Report.f_cols fr') = header_values (S3Report.f_cols fr).
Proof.
  intros H. apply cell_step_inv in H.
  destruct H as (col0 & row0 & col1 & row1 & cell_row & cell0 & ids & values & v
                 & Hc & Hr & _ & _ & _ & _ & _ & _ & Er & Evr & Ec & Evc).
  rewrite Er, Ec. split; eapply axis_set_values; eassumption.
Qed.

Lemma row_step_headers (self : S3Report.t) (pt : PivotTable) (pkey : string)
      (method : option string) (lay : layer) (ncols r : nat)
      (fr fr' : S3Report.frame) :
  S3Report.row_step self pt pkey method lay ncols fr r = Ok fr' ->
  header_values (S3Report.f_rows fr') = header_values (S3Report.f_rows fr) /\
  header_values (S3Report.f_cols fr') = header_values (S3Report.f_cols fr).
Proof.
  unfold S3Report.row_step. intros H.
  apply bind_Ok in H. destruct H as (row0 & Hrow & H).
  apply bind_Ok in H. destruct H as (fr1 & Hloop & H).
  apply bind_Ok in H. destruct H as (row1 & Hrow1 & H).
  apply bind_Ok in H. destruct H as (v & _ & H).
  inversion H; subst; clear H. simpl.
  assert (H1 : header_values (S3Report.f_rows fr1) = header_values (S3Report.f_rows fr)
               /\ header_values (S3Report.f_cols fr1)
                  = header_values (S3Report.f_cols fr)).
  { revert Hloop.
    apply (for_each_invariant
             (fun st => header_values (S3Report.f_rows st)
                        = header_values (S3Report.f_rows fr) /\
                        header_values (S3Report.f_cols st)
                        = header_values (S3Report.f_cols fr))).
    - intros st x st' _ [Ha Hb] Hstep.
      destruct (cell_step_headers _ _ _ _ _ _ _ _ _ Hstep) as [Hc Hd].
      split; congruence.
    - simpl. split; [|reflexivity].
      eapply axis_set_values; [exact Hrow | reflexivity]. }
  destruct H1 as [Ha Hb]. split; [|exact Hb].
  rewrite <- Ha. eapply axis_set_values; [exact Hrow1 | reflexivity].
Qed.

Lemma col_total_headers (method : option string) (lay : layer)
      (cs cs' : option (list AxisEntry)) (c : nat) :
  S3Report.col_total method lay cs c = Ok cs' ->
  header_values cs' = header_values cs.
Proof.
  unfold S3Report.col_total. intros H.
  apply bind_Ok in H. destruct H as (col0 & Hcol & H).
  destruct (e_values col0) as [vals|]; [|discriminate].
  apply bind_Ok in H. destruct H as (v & _ & H).
  inversion H; subst. eapply axis_set_values; [exact Hcol | reflexivity].
Qed.

Lemma add_layer_headers (self self' : S3Report.t) (pkey : string)
      (pt : PivotTable) (fact method : option string) :
  S3Report._add_layer self pkey pt fact method = Ok self' ->
  header_values (S3Report.row self') = header_values (S3Report.row self) /\
  header_values (S3Report.col self') = header_values (S3Report.col self) /\
  S3Report.numrows self' = S3Report.numrows self /\
  S3Report.numcols self' = S3Report.numcols self /\
  S3Report.records self' = S3Report.records self /\
  S3Report.lfields self' = S3Report.lfields self.
Proof.
  unfold S3Report._add_layer. intros H.
  destruct (negb _); [discriminate|].
  apply bind_Ok in H. destruct H as (fr & Hrows & H).
  apply bind_Ok in H. destruct H as (cs & Hcols & H).
  apply bind_Ok in H. destruct H as (total & _ & H).
  inversion H; subst; clear H. simpl.
  assert (H1 : header_values (S3Report.f_rows fr) = header_values (S3Report.row self)
               /\ header_values (S3Report.f_cols fr)
                  = header_values (S3Report.col self)).
  { revert Hrows.
    apply (for_each_invariant
             (fun st => header_values (S3Report.f_rows st)
                        = header_values (S3Report.row self) /\
                        header_values (S3Report.f_cols st)
                        = header_values (S3Report.col self))).
    - intros st x st' _ [Ha Hb] Hstep.
      destruct (row_step_headers _ _ _ _ _ _ _ _ _ Hstep) as [Hc Hd].
      split; congruence.
    - simpl. split; reflexivity. }
  destruct H1 as [Ha Hb]. repeat split; trivial.
  rewrite <- Hb. revert Hcols.
  apply (for_each_invariant
           (fun st => header_values st = header_values (S3Report.f_cols fr))).
  - intros st x st' _ Hst Hstep.
    rewrite (col_total_headers _ _ _ _ _ Hstep). exact Hst.
  - reflexivity.
Qed.

(** ** The constructor *)

Lemma init_inv (resource : Resource) (rows cols : option string)
      (lays : list layer) (rep : S3Report.t) :
  sqltable resource <> [] ->
  S3Report.__init__ resource rows cols lays = Ok rep ->
  (given rows = true \/ given cols = true) /\
  exists store items objs,
    S3Report.build_store (resolved resource) (pkey_name resource)
                         (sqltable resource) = Ok store /\
    S3Report.data_frame (resolved resource)
      (S3Report._get_fields (pkey_name resource) rows cols)
      (pkey_name resource) (sqltable resource) = Ok (items, objs) /\
    for_each lays
      (fun self fm =>
         S3Report._add_layer self (pkey_name resource)
           (report_pivot resource rows cols items) (fst fm) (snd fm))
      (base_report resource rows cols lays store items objs) = Ok rep.
Proof.
  intros Hrec H. unfold S3Report.__init__ in H.
  destruct (given rows) eqn:Er; destruct (given cols) eqn:Ec; simpl in H;
    try discriminate;
    (split; [auto|]);
    (destruct (sqltable resource) as [|r0 recs] eqn:Es; [contradiction|]);
    apply bind_Ok in H; destruct H as (store & Hstore & H);
    apply bind_Ok in H; destruct H as ([items objs] & Hdf & H);
    exists store, items, objs;
    (split; [exact Hstore|]); (split; [exact Hdf|]);
    unfold base_report, report_pivot; rewrite Er, Ec; exact H.
Qed.

(** The layers leave the header values, the counts and the record store of
    the report they start from. *)
Lemma layers_keep (pkey : string) (pt : PivotTable) (lays : list layer)
      (self rep : S3Report.t) :
  for_each lays
    (fun self fm => S3Report._add_layer self pkey pt (fst fm) (snd fm)) self
  = Ok rep ->
  header_values (S3Report.row rep) = header_values (S3Report.row self) /\
  header_values (S3Report.col rep) = header_values (S3Report.col self) /\
  S3Report.numrows rep = S3Report.numrows self /\
  S3Report.numcols rep = S3Report.numcols self.
Proof.
  apply (for_each_invariant
           (fun st => header_values (S3Report.row st)
                      = header_values (S3Report.row self) /\
                      header_values (S3Report.col st)
                      = header_values (S3Report.col self) /\
                      S3Report.numrows st = S3Report.numrows self /\
                      S3Report.numcols st = S3Report.numcols self)).
  - intros st x st' _ (H1 & H2 & H3 & H4) Hstep.
    destruct (add_layer_headers _ _ _ _ _ _ Hstep) as (G1 & G2 & G3 & G4 & _).
    repeat split; congruence.
  - repeat split.
Qed.

Lemma header_values_headers (names : list value) :
  header_values
    (Some (map (fun v => S3Report.header (S3Report.header_value v)) names))
  = Some (map S3Report.header_value names).
Proof. simpl. rewrite map_map. reflexivity. Qed.

Lemma built_headers (resource : Resource) (rows cols : option string)
      (lays : list layer) (rep : S3Report.t) :
  sqltable resource <> [] ->
  S3Report.__init__ resource rows cols lays = Ok rep ->
  exists items objs,
    S3Report.data_frame (resolved resource)
      (S3Report._get_fields (pkey_name resource) rows cols)
      (pkey_name resource) (sqltable resource) = Ok (items, objs) /\
    header_values (S3Report.row rep)
    = Some (if given rows
            then map S3Report.header_value (axis_names items [selector rows])
            else [VNone]) /\
    header_values (S3Report.col rep)
    = Some (if given cols
            then map S3Report.header_value (axis_names items [selector cols])
            else [VNone]).
Proof.
  intros Hrec H. destruct (init_inv _ _ _ _ _ Hrec H)
    as (_ & store & items & objs & _ & Hdf & Hlays).
  exists items, objs. split; [exact Hdf|].
  destruct (layers_keep _ _ _ _ _ Hlays) as (H1 & H2 & _).
  rewrite H1, H2. unfold base_report.
  destruct (given rows); destruct (given cols); simpl;
    rewrite ?map_map; split; reflexivity.
Qed.

Lemma falsy_header_value (v : value) :
  truthy v = false -> S3Report.header_value v = VNone.
Proof.
  intros H. unfold S3Report.header_value. rewrite H, andb_false_r. reflexivity.
Qed.

(** C10: a dimension value that is falsy (0, the empty text, false) gets
    a header whose value is none, as the missing-value mark "__NONE__"
    does: the values of the headers of a built report are the distinct
    dimension values passed through [v != "__NONE__" and v or None]. *)
Theorem falsy_dimension_value (resource : Resource) (rows cols : option string)
        (lays : list layer) (rep : S3Report.t)
        (Hrec : sqltable resource <> [])
        (Hbuilt : S3Report.__init__ resource rows cols lays = Ok rep) :
  exists items objs,
    S3Report.data_frame (resolved resource)
      (S3Report._get_fields (pkey_name resource) rows cols)
      (pkey_name resource) (sqltable resource) = Ok (items, objs) /\
    (given rows = true ->
     header_values (S3Report.row rep)
     = Some (map S3Report.header_value (axis_names items [selector rows]))) /\
    (given cols = true ->
     header_values (S3Report.col rep)
     = Some (map S3Report.header_value (axis_names items [selector cols]))) /\
    S3Report.header_value (VStr "__NONE__") = VNone /\
    S3Report.header_value (VInt 0) = VNone /\
    S3Report.header_value (VStr "") = VNone /\
    S3Report.header_value (VBool false) = VNone /\
    forall v, truthy v = false -> S3Report.header_value v = VNone.
Proof.
  destruct (built_headers _ _ _ _ _ Hrec Hbuilt) as (items & objs & Hdf & Hr & Hc).
  exists items, objs. split; [exact Hdf|].
  split; [intros E; rewrite E in Hr; exact Hr|].
  split; [intros E; rewrite E in Hc; exact Hc|].
  repeat split; try reflexivity. exact falsy_header_value.
Qed.

Lemma falsy_dimension_value_witness :
  sqltable falsy_resource <> [] /\
  exists rep,
    S3Report.__init__ falsy_resource (Some "level") None
                      [(Some "id", Some "count")] = Ok rep /\
    header_values (S3Report.row rep) = Some [VNone; VNone; VInt 2].
Proof.
  assert (Hrec : sqltable falsy_resource <> []) by discriminate.
  split; [exact Hrec|].
  eexists. split; [vm_compute; reflexivity|].
  match goal with
  | |- header_values (S3Report.row ?rep) = _ =>
      destruct (falsy_dimension_value falsy_resource (Some "level") None
                  [(Some "id", Some "count")] rep Hrec eq_refl)
        as (items & objs & Hdf & Hrows & _)
  end.
  rewrite (Hrows eq_refl). vm_compute in Hdf. inversion Hdf; subst.
  reflexivity.
Defined.

(** *** A report needs a dimension *)

(** C2, as stated, fails: the constructor refuses a report without rows and
    columns. *)
Lemma no_dimension_refused :
  S3Report.__init__ five_resource None None [(None, Some "count")]
  = Raise SyntaxError.
Proof. reflexivity. Qed.

(** C2 (amended): a report with neither rows nor columns is refused with a
    SyntaxError; in a report built with one of the two, the axis of the
    other has exactly one entry, of value none; and for 5 records of one
    row value, rows given, columns not, the layer (none, "count") has the
    grand total 5. *)
Theorem one_dimension_report (resource : Resource) (rows cols : option string)
        (lays : list layer) :
  (given rows = false -> given cols = false ->
   S3Report.__init__ resource rows cols lays = Raise SyntaxError) /\
  (forall rep,
     sqltable resource <> [] ->
     S3Report.__init__ resource rows cols lays = Ok rep ->
     (given rows = false ->
      header_values (S3Report.row rep) = Some [VNone] /\
      S3Report.numrows rep = Some 1%nat) /\
     (given cols = false ->
      header_values (S3Report.col rep) = Some [VNone] /\
      S3Report.numcols rep = Some 1%nat)) /\
  exists rep5,
    S3Report.__init__ five_resource (Some "region") None [(None, Some "count")]
    = Ok rep5 /\
    header_values (S3Report.col rep5) = Some [VNone] /\
    grand_total rep5 (None, Some "count") = Some (VInt 5).
Proof.
  split; [|split].
  - intros Er Ec. unfold S3Report.__init__. rewrite Er, Ec. reflexivity.
  - intros rep Hrec H.
    destruct (init_inv _ _ _ _ _ Hrec H)
      as (_ & store & items & objs & _ & _ & Hlays).
    destruct (layers_keep _ _ _ _ _ Hlays) as (H1 & H2 & H3 & H4).
    rewrite H1, H2, H3, H4. unfold base_report.
    split; intros E; rewrite E; split; reflexivity.
  - eexists. split; [vm_compute; reflexivity|]. split; reflexivity.
Qed.

Lemma one_dimension_report_witness :
  given None = false /\
  S3Report.__init__ five_resource None (Some "") [(None, Some "count")]
  = Raise SyntaxError.
Proof.
  split; [reflexivity|].
  exact (proj1 (one_dimension_report five_resource None (Some "")
                  [(None, Some "count")]) eq_refl eq_refl).
Defined.

(** *** The first example of the design document *)

(** C1: the report for the three records, rows "region", columns
    "status" and the layer (none, "count").  The axes and the four cells are
    as the design document gives them; the totals are not: row A has 3
    (not 2), column open has 1 (not 2), and the grand total is 5 (not 3). *)
Theorem first_example_missing_fact :
  exists rep,
    S3Report.__init__ example_resource (Some "region") (Some "status")
                      [count_layer] = Ok rep /\
    header_values (S3Report.row rep) = Some [VStr "A"; VStr "B"] /\
    header_values (S3Report.col rep) = Some [VStr "open"; VStr "closed"] /\
    cell_aggregate rep 0 0 count_layer = Some (VInt 1) /\
    cell_aggregate rep 0 1 count_layer = Some (VInt 1) /\
    cell_aggregate rep 1 0 count_layer = Some (VInt 1) /\
    cell_aggregate rep 1 1 count_layer = Some (VInt 0) /\
    header_total (S3Report.row rep) 0 count_layer = Some (VInt 3) /\
    header_total (S3Report.row rep) 1 count_layer = Some (VInt 1) /\
    header_total (S3Report.col rep) 0 count_layer = Some (VInt 1) /\
    header_total (S3Report.col rep) 1 count_layer = Some (VInt 1) /\
    grand_total rep count_layer = Some (VInt 5).
Proof.
  eexists. split; [vm_compute; reflexivity|]. repeat split.
Qed.

(** The same report with the primary key named as the fact has the totals
    of the design document. *)
Example first_example_fact_id :
  exists rep,
    S3Report.__init__ example_resource (Some "region") (Some "status")
                      [(Some "id", Some "count")] = Ok rep /\
    cell_aggregate rep 0 0 (Some "id", Some "count") = Some (VInt 1) /\
    cell_aggregate rep 1 1 (Some "id", Some "count") = Some (VInt 0) /\
    header_total (S3Report.row rep) 0 (Some "id", Some "count") = Some (VInt 2) /\
    header_total (S3Report.row rep) 1 (Some "id", Some "count") = Some (VInt 1) /\
    header_total (S3Report.col rep) 0 (Some "id", Some "count") = Some (VInt 2) /\
    header_total (S3Report.col rep) 1 (Some "id", Some "count") = Some (VInt 1) /\
    grand_total rep (Some "id", Some "count") = Some (VInt 3).
Proof.
  eexists. split; [vm_compute; reflexivity|]. repeat split.
Qed.

(** ** The cell matrix *)

(** A loop establishes at each of its elements a property that later steps
    do not undo. *)
Lemma for_each_establishes {A S : Type} (I : S -> Prop) (Q : A -> S -> Prop)
      (M : S -> S -> Prop) (xs : list A) (body : S -> A -> result S) :
  (forall st, M st st) ->
  (forall a b c, M a b -> M b c -> M a c) ->
  (forall x a b, M a b -> Q x a -> Q x b) ->
  (forall st x st', In x xs -> I st -> body st x = Ok st' ->
                    I st' /\ Q x st' /\ M st st') ->
  forall st st', I st -> for_each xs body st = Ok st' ->
                 I st' /\ (forall x, In x xs -> Q x st') /\ M st st'.
Proof.
  intros Mrefl Mtrans Mkeep. induction xs as [|x xs IH]; intros Hbody st st' HI H.
  - simpl in H. inversion H; subst. repeat split; [exact HI | contradiction | apply Mrefl].
  - simpl in H. apply bind_Ok in H. destruct H as (st1 & H1 & H2).
    destruct (Hbody st x st1 (or_introl eq_refl) HI H1) as (I1 & Q1 & M1).
    destruct (IH (fun s y s' Hy => Hbody s y s' (or_intror Hy)) st1 st' I1 H2)
      as (I2 & Q2 & M2).
    repeat split; [exact I2 | | exact (Mtrans _ _ _ M1 M2)].
    intros y [<-|Hy]; [exact (Mkeep _ _ _ M2 Q1) | exact (Q2 y Hy)].
Qed.

Lemma cell_at_set (cells : list (list Cell)) (cell_row : list Cell)
      (cell0 x : Cell) (r c r' c' : nat) :
  nth_error cells r = Some cell_row -> nth_error cell_row c = Some cell0 ->
  cell_at (list_set cells r (list_set cell_row c x)) r' c'
  = if Nat.eqb r r' && Nat.eqb c c' then Some x else cell_at cells r' c'.
Proof.
  intros Hr Hc. unfold cell_at.
  destruct (Nat.eqb_spec r r') as [<-|Hne]; simpl.
  - rewrite (list_set_same _ _ _ _ Hr), Hr.
    destruct (Nat.eqb_spec c c') as [<-|Hne].
    + exact (list_set_same _ _ _ _ Hc).
    + apply list_set_other. exact Hne.
  - rewrite (list_set_other _ _ _ _ Hne). reflexivity.
Qed.

Lemma Forall_list_set {A : Type} (P : A -> Prop) (l : list A) (n : nat) (x : A) :
  Forall P l -> P x -> Forall P (list_set l n x).
Proof.
  intros Hl Hx. revert n; induction Hl as [|y l Hy Hl IH]; intros [|n]; simpl;
    constructor; auto.
Qed.

Lemma matrix_shape_set (nrows ncols : nat) (cells : list (list Cell))
      (cell_row : list Cell) (r c : nat) (x : Cell) :
  matrix_shape nrows ncols cells -> nth_error cells r = Some cell_row ->
  matrix_shape nrows ncols (list_set cells r (list_set cell_row c x)).
Proof.
  intros [Hl Hf] Hr. split.
  - rewrite list_set_length. exact Hl.
  - apply Forall_list_set; [exact Hf|].
    rewrite list_set_length.
    rewrite Forall_forall in Hf. apply Hf. eapply nth_error_In. exact Hr.
Qed.

Lemma cell_step_cells (self : S3Report.t) (pt : PivotTable) (pkey : string)
      (method : option string) (lay : layer) (nrows ncols r c : nat)
      (fr fr' : S3Report.frame) :
  cells_inv pt nrows ncols fr ->
  S3Report.cell_step self pt pkey method lay r fr c = Ok fr' ->
  cells_inv pt nrows ncols fr' /\
  cell_filled (S3Report.f_cells fr') (r, c) /\
  cells_grow (S3Report.f_cells fr) (S3Report.f_cells fr').
Proof.
  intros [Hshape Hsound] H. apply cell_step_inv in H.
  destruct H as (col0 & row0 & col1 & row1 & cell_row & cell0 & ids & values & v
                 & _ & _ & Hr & Hc & Hrec & _ & _ & Ecells & _).
  assert (Hids : pivot_ids pt r c = Some ids).
  { destruct Hrec as [Hrec|[_ Hrec]]; [|exact Hrec].
    apply (Hsound r c cell0 ids); [|exact Hrec].
    unfold cell_at. rewrite Hr. exact Hc. }
  unfold cells_inv. rewrite Ecells. split; [split|split].
  - apply matrix_shape_set; assumption.
  - intros r' c' cl ids' Hat Hcl.
    rewrite (cell_at_set _ _ _ _ _ _ _ _ Hr Hc) in Hat.
    destruct (Nat.eqb_spec r r') as [<-|Hne]; simpl in Hat.
    + destruct (Nat.eqb_spec c c') as [<-|Hne].
      * inversion Hat; subst. simpl in Hcl. inversion Hcl; subst. exact Hids.
      * exact (Hsound _ _ _ _ Hat Hcl).
    + exact (Hsound _ _ _ _ Hat Hcl).
  - exists (mkCell (Some ids) (layer_set (c_layers cell0) lay v)), ids.
    simpl. split; [|reflexivity].
    rewrite (cell_at_set _ _ _ _ _ _ _ _ Hr Hc), !Nat.eqb_refl. reflexivity.
  - intros [r' c'] (cl & ids' & Hat & Hcl). unfold cell_filled. simpl in *.
    rewrite (cell_at_set _ _ _ _ _ _ _ _ Hr Hc).
    destruct (Nat.eqb r r' && Nat.eqb c c').
    + exists (mkCell (Some ids) (layer_set (c_layers cell0) lay v)), ids.
      split; reflexivity.
    + exists cl, ids'. split; assumption.
Qed.

Lemma cells_grow_refl (cells : list (list Cell)) : cells_grow cells cells.
Proof. intros rc H. exact H. Qed.

Lemma cells_grow_trans (a b c : list (list Cell)) :
  cells_grow a b -> cells_grow b c -> cells_grow a c.
Proof. intros H1 H2 rc H. exact (H2 rc (H1 rc H)). Qed.

Lemma row_step_cells (self : S3Report.t) (pt : PivotTable) (pkey : string)
      (method : option string) (lay : layer) (nrows ncols r : nat)
      (fr fr' : S3Report.frame) :
  cells_inv pt nrows ncols fr ->
  S3Report.row_step self pt pkey method lay ncols fr r = Ok fr' ->
  cells_inv pt nrows ncols fr' /\
  (forall c, (c < ncols)%nat -> cell_filled (S3Report.f_cells fr') (r, c)) /\
  cells_grow (S3Report.f_cells fr) (S3Report.f_cells fr').
Proof.
  intros Hinv H. unfold S3Report.row_step in H.
  apply bind_Ok in H. destruct H as (row0 & _ & H).
  apply bind_Ok in H. destruct H as (fr1 & Hloop & H).
  apply bind_Ok in H. destruct H as (row1 & _ & H).
  apply bind_Ok in H. destruct H as (v & _ & H).
  inversion H; subst; clear H. simpl.
  pose proof (for_each_establishes
                (cells_inv pt nrows ncols)
                (fun c st => cell_filled (S3Report.f_cells st) (r, c))
                (fun a b => cells_grow (S3Report.f_cells a) (S3Report.f_cells b))
                (seq 0 ncols)
                (S3Report.cell_step self pt pkey method lay r)) as L.
  pose proof (L (fun st => cells_grow_refl _)
                (fun a b c => cells_grow_trans _ _ _)
                (fun x a b Hab Hq => Hab (r, x) Hq)
                (fun st x st' _ HI Hs =>
                   cell_step_cells self pt pkey method lay nrows ncols r x
                                   st st' HI Hs)) as L'.
  match type of Hloop with
  | for_each _ _ ?st0 = _ =>
      destruct (L' st0 fr1 Hinv Hloop) as (I1 & Q1 & M1)
  end.
  repeat split; try apply I1.
  - intros c Hc. apply Q1. apply in_seq. lia.
  - exact M1.
Qed.

Lemma add_layer_cells (self self' : S3Report.t) (pkey : string)
      (pt : PivotTable) (fact method : option string) :
  let nrows := List.length (rnames pt) in
  let ncols := List.length (cnames pt) in
  (forall cells, S3Report.cell self = Some cells ->
                 matrix_shape nrows ncols cells /\ cells_sound pt cells) ->
  S3Report._add_layer self pkey pt fact method = Ok self' ->
  exists cells,
    S3Report.cell self' = Some cells /\
    matrix_shape nrows ncols cells /\ cells_sound pt cells /\
    forall r c, (r < nrows)%nat -> (c < ncols)%nat -> cell_filled cells (r, c).
Proof.
  intros nrows ncols Hpre H. unfold S3Report._add_layer in H.
  destruct (negb _); [discriminate|].
  apply bind_Ok in H. destruct H as (fr & Hrows & H).
  apply bind_Ok in H. destruct H as (cs & _ & H).
  apply bind_Ok in H. destruct H as (total & _ & H).
  inversion H; subst; clear H. simpl.
  exists (S3Report.f_cells fr). split; [reflexivity|].
  pose proof (for_each_establishes
                (cells_inv pt nrows ncols)
                (fun r st => forall c, (c < ncols)%nat ->
                                       cell_filled (S3Report.f_cells st) (r, c))
                (fun a b => cells_grow (S3Report.f_cells a) (S3Report.f_cells b))
                (seq 0 nrows)
                (S3Report.row_step self pt pkey method (fact, method) ncols)) as L.
  pose proof (L (fun st => cells_grow_refl _)
                (fun a b c => cells_grow_trans _ _ _)
                (fun x a b Hab Hq c Hc => Hab (x, c) (Hq c Hc))
                (fun st x st' _ HI Hs =>
                   row_step_cells self pt pkey method (fact, method)
                                  nrows ncols x st st' HI Hs)) as L'.
  match type of Hrows with
  | for_each _ _ ?st0 = _ =>
      destruct (L' st0 fr) as (I1 & Q1 & M1); [|exact Hrows|]
  end.
  - unfold cells_inv. simpl. destruct (S3Report.cell self) as [cells|] eqn:E.
    + exact (Hpre cells eq_refl).
    + split.
      * split; [apply repeat_length|].
        apply Forall_forall. intros x Hx. apply repeat_spec in Hx. subst.
        apply repeat_length.
      * intros r c cl ids Hat Hcl. exfalso.
        unfold cell_at in Hat.
        destruct (nth_error _ r) as [cell_row|] eqn:Er; [|discriminate].
        apply nth_error_In, repeat_spec in Er. subst.
        apply nth_error_In, repeat_spec in Hat. subst. discriminate.
  - destruct I1 as [Hs Hso]. repeat split; try apply Hs; trivial.
    intros r c Hr Hc. apply Q1; trivial. apply in_seq. lia.
Qed.

(** After the first layer every report has its full matrix of cells, each
    holding the record ids the pivot lists for it. *)
Lemma layers_cells (pkey : string) (pt : PivotTable) (lays : list layer)
      (self rep : S3Report.t) :
  let nrows := List.length (rnames pt) in
  let ncols := List.length (cnames pt) in
  S3Report.cell self = None -> lays <> [] ->
  for_each lays
    (fun self fm => S3Report._add_layer self pkey pt (fst fm) (snd fm)) self
  = Ok rep ->
  exists cells,
    S3Report.cell rep = Some cells /\
    matrix_shape nrows ncols cells /\ cells_sound pt cells /\
    forall r c, (r < nrows)%nat -> (c < ncols)%nat -> cell_filled cells (r, c).
Proof.
  intros nrows ncols Hnone Hlays H.
  destruct lays as [|[f m] lays]; [contradiction|].
  simpl in H. apply bind_Ok in H. destruct H as (self1 & H1 & H2).
  assert (P1 : exists cells,
             S3Report.cell self1 = Some cells /\
             matrix_shape nrows ncols cells /\ cells_sound pt cells /\
             forall r c, (r < nrows)%nat -> (c < ncols)%nat ->
                         cell_filled cells (r, c)).
  { apply (add_layer_cells self self1 pkey pt f m); [|exact H1].
    intros cells E. rewrite Hnone in E. discriminate. }
  revert H2.
  apply (for_each_invariant
           (fun st : S3Report.t => exists cells : list (list Cell),
                S3Report.cell st = Some cells /\
                matrix_shape nrows ncols cells /\ cells_sound pt cells /\
                forall r c, (r < nrows)%nat -> (c < ncols)%nat ->
                            cell_filled cells (r, c))); [|exact P1].
  intros st x st' _ (cells & Ec & Hs & Hso & _) Hstep.
  apply (add_layer_cells st st' pkey pt (fst x) (snd x)); [|exact Hstep].
  intros cells' E. rewrite Ec in E. inversion E; subst. split; assumption.
Qed.

(** ** The data frame and the pivot *)

Lemma dict_set_keys_in {A : Type} (d : dict A) (k : string) (v : A) :
  In k (keys d) -> keys (dict_set d k v) = keys d.
Proof.
  induction d as [|[k' v'] d IH]; simpl; [contradiction|].
  destruct (String.eqb_spec k k') as [->|Hne]; simpl; [reflexivity|].
  intros [H|H]; [congruence|]. rewrite (IH H). reflexivity.
Qed.

Lemma dict_set_keys_new {A : Type} (d : dict A) (k : string) (v : A) :
  ~ In k (keys d) -> keys (dict_set d k v) = keys d ++ [k].
Proof.
  induction d as [|[k' v'] d IH]; simpl; [reflexivity|].
  destruct (String.eqb_spec k k') as [->|Hne]; simpl; [tauto|].
  intros H. rewrite IH by tauto. reflexivity.
Qed.

Lemma dict_get_in {A : Type} (d : dict A) (k : string) :
  In k (keys d) -> exists v, dict_get d k = Some v.
Proof.
  induction d as [|[k' v'] d IH]; simpl; [contradiction|].
  destruct (String.eqb_spec k k') as [->|Hne]; [eexists; reflexivity|].
  intros [H|H]; [congruence | exact (IH H)].
Qed.

Lemma dict_get_pair {A : Type} (d : dict A) (k : string) (v : A) :
  NoDup (keys d) -> In (k, v) d -> dict_get d k = Some v.
Proof.
  induction d as [|[k' v'] d IH]; simpl; [contradiction|].
  intros Hnd [H|H].
  - inversion H; subst. rewrite String.eqb_refl. reflexivity.
  - inversion Hnd as [|? ? Hk Hnd']; subst.
    destruct (String.eqb_spec k k') as [->|Hne]; [|exact (IH Hnd' H)].
    exfalso. apply Hk. change k' with (fst (k', v)). apply in_map. exact H.
Qed.

(** The fields that group the records are distinct, hold the primary key,
    and hold nothing but the given dimensions besides. *)
Lemma get_fields_spec (pkey : string) (rows cols : option string) :
  let fields := S3Report._get_fields pkey rows cols in
  NoDup fields /\ In pkey fields /\
  forall k, In k fields ->
            (given rows = true /\ k = selector rows) \/
            (given cols = true /\ k = selector cols) \/ k = pkey.
Proof.
  unfold S3Report._get_fields. simpl.
  destruct (given rows) eqn:Er; destruct (given cols) eqn:Ec; simpl.
  - destruct (String.eqb_spec (selector cols) (selector rows)) as [E|E]; simpl.
    + rewrite orb_false_r.
      destruct (String.eqb_spec pkey (selector rows)) as [E'|E']; simpl.
      * repeat split; [repeat constructor; simpl; tauto | auto |].
        intros k [<-|[]]. auto.
      * repeat split.
        -- repeat constructor; simpl; intuition congruence.
        -- auto.
        -- intros k [<-|[<-|[]]]; auto.
    + rewrite orb_false_r.
      destruct (String.eqb_spec pkey (selector rows)) as [E'|E']; simpl.
      * repeat split.
        -- repeat constructor; simpl; intuition congruence.
        -- auto.
        -- intros k [<-|[<-|[]]]; auto.
      * destruct (String.eqb_spec pkey (selector cols)) as [E''|E'']; simpl.
        -- repeat split.
           ++ repeat constructor; simpl; intuition congruence.
           ++ auto.
           ++ intros k [<-|[<-|[]]]; auto.
        -- repeat split.
           ++ repeat constructor; simpl; intuition congruence.
           ++ auto.
           ++ intros k [<-|[<-|[<-|[]]]]; auto.
  - rewrite orb_false_r.
    destruct (String.eqb_spec pkey (selector rows)) as [E'|E']; simpl.
    + repeat split; [repeat constructor; simpl; tauto | auto |].
      intros k [<-|[]]. auto.
    + repeat split.
      * repeat constructor; simpl; intuition congruence.
      * auto.
      * intros k [<-|[<-|[]]]; auto.
  - rewrite orb_false_r.
    destruct (String.eqb_spec pkey (selector cols)) as [E'|E']; simpl.
    + repeat split; [repeat constructor; simpl; tauto | auto |].
      intros k [<-|[]]. auto.
    + repeat split.
      * repeat constructor; simpl; intuition congruence.
      * auto.
      * intros k [<-|[<-|[]]]; auto.
  - repeat split; [repeat constructor; simpl; tauto | auto |].
    intros k [<-|[]]. auto.
Qed.

Lemma flatten_loop_keys (lf : dict LField) (pkey : string) (r : Row)
      (fields : list string) (it it' : item) :
  NoDup (keys it ++ fields) ->
  for_each fields
    (fun (it : item) field =>
       v <- S3Report._extract lf r field ;;
       let v := if is_none v && negb (String.eqb field pkey)
                then VStr "__NONE__" else v in
       Ok (dict_set it field v))
    it = Ok it' ->
  keys it' = keys it ++ fields.
Proof.
  revert it; induction fields as [|f fields IH]; intros it Hnd H; simpl in H.
  - inversion H; subst. rewrite app_nil_r. reflexivity.
  - apply bind_Ok in H. destruct H as (it1 & H1 & H2).
    apply bind_Ok in H1. destruct H1 as (v & _ & H1). inversion H1; subst; clear H1.
    assert (Hf : ~ In f (keys it)).
    { apply NoDup_remove_2 in Hnd. intros Hin. apply Hnd. apply in_or_app. auto. }
    rewrite (IH _) with (2 := H2).
    + rewrite (dict_set_keys_new _ _ _ Hf), <- app_assoc. reflexivity.
    + rewrite (dict_set_keys_new _ _ _ Hf), <- app_assoc. exact Hnd.
Qed.

Lemma flatten_keys (lf : dict LField) (fields : list string) (pkey : string)
      (r : Row) (flat : item) :
  NoDup fields -> In pkey fields ->
  S3Report._flatten lf fields pkey r = Ok flat -> keys flat = fields.
Proof.
  intros Hnd Hin H. unfold S3Report._flatten in H.
  apply bind_Ok in H. destruct H as (pk & _ & H).
  apply bind_Ok in H. destruct H as (it & Hit & H).
  inversion H; subst; clear H.
  apply flatten_loop_keys in Hit; [|exact Hnd]. simpl in Hit.
  rewrite dict_set_keys_in; rewrite Hit; trivial.
Qed.

Lemma combinations_keys (r i : item) : In i (combinations r) -> keys i = keys r.
Proof.
  revert i; induction r as [|[k v] r IH]; simpl; intros i H.
  - destruct H as [<-|[]]. reflexivity.
  - apply in_flat_map in H. destruct H as (x & _ & H).
    apply in_map_iff in H. destruct H as (t & <- & Ht).
    simpl. rewrite (IH t Ht). reflexivity.
Qed.

Lemma FOP_snoc {A : Type} (R : A -> A -> Prop) (l : list A) (x : A) :
  ForallOrdPairs R l -> Forall (fun a => R a x) l ->
  ForallOrdPairs R (l ++ [x]).
Proof.
  induction 1 as [|a l Ha Hl IH]; intros Hx; simpl.
  - constructor; constructor.
  - inversion Hx; subst. constructor; [|apply IH; assumption].
    apply Forall_app. split; [exact Ha | constructor; [assumption | constructor]].
Qed.

Lemma FOP_filter {A : Type} (R : A -> A -> Prop) (f : A -> bool) (l : list A) :
  ForallOrdPairs R l -> ForallOrdPairs R (filter f l).
Proof.
  induction 1 as [|a l Ha Hl IH]; simpl; [constructor|].
  destruct (f a); [|exact IH]. constructor; [|exact IH].
  rewrite Forall_forall in *. intros x Hx. apply Ha.
  apply filter_In in Hx. tauto.
Qed.

Lemma FOP_map {A B : Type} (R : B -> B -> Prop) (f : A -> B) (l : list A) :
  ForallOrdPairs (fun a b => R (f a) (f b)) l -> ForallOrdPairs R (map f l).
Proof.
  induction 1 as [|a l Ha Hl IH]; simpl; constructor; [|exact IH].
  rewrite Forall_forall in *. intros y Hy. apply in_map_iff in Hy.
  destruct Hy as (x & <- & Hx). exact (Ha x Hx).
Qed.

Lemma FOP_impl_in {A : Type} (R R' : A -> A -> Prop) (l : list A) :
  (forall a b, In a l -> In b l -> R a b -> R' a b) ->
  ForallOrdPairs R l -> ForallOrdPairs R' l.
Proof.
  intros Himp H. induction H as [|a l Ha Hl IH]; constructor.
  - rewrite Forall_forall in *. intros x Hx.
    apply Himp; simpl; auto.
  - apply IH. intros x y Hx Hy. apply Himp; simpl; auto.
Qed.

Lemma keep_new_ok (fields : list string) (expanded items : list item) :
  Forall (fun i => keys i = fields) expanded ->
  frame_ok fields items ->
  frame_ok fields
    (fold_left (fun item_list i =>
                  if existsb (item_eq i) item_list then item_list
                  else item_list ++ [i])
               expanded items).
Proof.
  revert items; induction expanded as [|i expanded IH]; intros items He Hok;
    simpl; [exact Hok|].
  inversion He as [|? ? Hi He']; subst. apply IH; [exact He'|].
  destruct (existsb (item_eq i) items) eqn:E; [exact Hok|].
  destruct Hok as [Hk Hd]. split.
  - apply Forall_app. split; [exact Hk | constructor; [reflexivity | constructor]].
  - apply FOP_snoc; [exact Hd|].
    apply Forall_forall. intros a Ha. unfold item_differs.
    destruct (item_eq i a) eqn:Ea; [|reflexivity].
    assert (existsb (item_eq i) items = true)
      by (apply existsb_exists; exists a; auto).
    congruence.
Qed.

Lemma frame_step_ok (lf : dict LField) (fields : list string) (pkey : string)
      (st st' : list item * list Row) (k : nat) :
  NoDup fields -> In pkey fields ->
  frame_ok fields (fst st) ->
  S3Report.frame_step lf fields pkey st k = Ok st' ->
  frame_ok fields (fst st').
Proof.
  intros Hnd Hin Hok H. unfold S3Report.frame_step in H.
  apply bind_Ok in H. destruct H as (r & _ & H).
  apply bind_Ok in H. destruct H as (flat & Hflat & H).
  apply bind_Ok in H. destruct H as (expanded & Hexp & H).
  inversion H; subst; clear H. simpl.
  pose proof (flatten_keys _ _ _ _ _ Hnd Hin Hflat) as Hk.
  rewrite expand_combinations in Hexp by (rewrite Hk; exact Hnd).
  inversion Hexp; subst; clear Hexp.
  apply keep_new_ok; [|exact Hok].
  apply Forall_forall. intros i Hi. apply combinations_keys in Hi. congruence.
Qed.

Lemma data_frame_ok (lf : dict LField) (pkey : string)
      (rows cols : option string) (recs : list Row)
      (items : list item) (objs : list Row) :
  S3Report.data_frame lf (S3Report._get_fields pkey rows cols) pkey recs
  = Ok (items, objs) ->
  frame_ok (S3Report._get_fields pkey rows cols) items.
Proof.
  destruct (get_fields_spec pkey rows cols) as (Hnd & Hin & _).
  unfold S3Report.data_frame. intros H.
  change items with (fst (items, objs)). revert H.
  apply (for_each_invariant
           (fun st => frame_ok (S3Report._get_fields pkey rows cols) (fst st))).
  - intros st x st' _ Hok Hstep. exact (frame_step_ok _ _ _ _ _ _ Hnd Hin Hok Hstep).
  - split; constructor.
Qed.

Lemma item_eq_intro (fields : list string) (a b : item) :
  NoDup fields -> keys a = fields -> keys b = fields ->
  (forall k, In k fields -> py_eq (item_field b k) (item_field a k) = true) ->
  item_eq b a = true.
Proof.
  intros Hnd Ha Hb H. unfold item_eq. apply andb_true_iff. split.
  - apply Nat.eqb_eq. rewrite <- (length_map fst b), <- (length_map fst a).
    change (List.length (keys b) = List.length (keys a)). congruence.
  - apply forallb_forall. intros [k v] Hkv. simpl.
    assert (Hk : In k fields).
    { rewrite <- Hb. change k with (fst (k, v)). apply in_map. exact Hkv. }
    destruct (dict_get_in a k) as (w & Hw); [rewrite Ha; exact Hk|].
    rewrite Hw. specialize (H k Hk). unfold item_field in H.
    rewrite (dict_get_pair b k v) in H by (rewrite ?Hb; trivial).
    rewrite Hw in H. exact H.
Qed.

Lemma dedupe_covers (values seen : list value) (v : value) :
  In v values ->
  exists w, In w (seen ++ dedupe seen values) /\ py_eq v w = true.
Proof.
  revert seen; induction values as [|x values IH]; intros seen Hin; [contradiction|].
  simpl. destruct (py_in x seen) eqn:E.
  - destruct Hin as [->|Hin]; [|exact (IH seen Hin)].
    unfold py_in in E. apply existsb_exists in E. destruct E as (w & Hw & Hvw).
    exists w. split; [apply in_or_app; auto | exact Hvw].
  - destruct Hin as [->|Hin].
    + exists v. split; [apply in_or_app; simpl; auto | apply py_eq_refl].
    + destruct (IH (x :: seen) Hin) as (w & Hw & Hvw).
      exists w. split; [|exact Hvw].
      simpl in Hw. apply in_or_app.
      destruct Hw as [<-|Hw]; [simpl; auto|].
      apply in_app_or in Hw. destruct Hw; simpl; auto.
Qed.

Lemma pivot_ids_spec (items : list item) (pkey : string)
      (rows_l cols_l : list string) (r c : nat) (ids : list value) :
  pivot_ids (pivot items pkey rows_l cols_l) r c = Some ids <->
  exists rn cn,
    nth_error (axis_names items rows_l) r = Some rn /\
    nth_error (axis_names items cols_l) c = Some cn /\
    ids = filter (fun i => negb (py_eq VNone i))
            (map (fun i => item_field i pkey)
                 (filter (in_cell rows_l cols_l rn cn) items)).
Proof.
  unfold pivot_ids, pivot. simpl. rewrite nth_error_map.
  destruct (nth_error (axis_names items rows_l) r) as [rn|]; simpl.
  - rewrite nth_error_map.
    destruct (nth_error (axis_names items cols_l) c) as [cn|]; simpl.
    + split.
      * intros H. inversion H; subst. exists rn, cn. repeat split.
      * intros (rn' & cn' & H1 & H2 & ->). inversion H1; inversion H2; subst.
        reflexivity.
    + split; [discriminate|]. intros (rn' & cn' & _ & H2 & _). discriminate.
  - split; [discriminate|]. intros (rn' & cn' & H1 & _). discriminate.
Qed.

Lemma axis_covers (items : list item) (dim : list string) (i : item) :
  In i items ->
  exists name, In name (axis_names items dim) /\ on_axis dim name i = true.
Proof.
  intros Hin. destruct dim as [|f dim]; simpl.
  - exists (VInt 1). auto.
  - destruct (dedupe_covers (map (fun i => item_field i f) items) []
                            (item_field i f)) as (w & Hw & Hvw).
    + exact (in_map (fun j => item_field j f) items i Hin).
    + exists w. split; [exact Hw | exact Hvw].
Qed.

Lemma concat_shape (nrows ncols : nat) (cells : list (list Cell)) :
  matrix_shape nrows ncols cells ->
  List.length (List.concat cells) = (nrows * ncols)%nat.
Proof.
  intros [Hl Hf]. subst nrows.
  induction Hf as [|x l Hx Hf IH]; simpl; [reflexivity|].
  rewrite length_app, Hx, IH. reflexivity.
Qed.

Lemma same_cell_same_key (rows cols : option string) (pkey : string)
      (rn cn : value) (a b : item) :
  let fields := S3Report._get_fields pkey rows cols in
  let rows_l := if given rows then [selector rows] else [] in
  let cols_l := if given cols then [selector cols] else [] in
  keys a = fields -> keys b = fields ->
  in_cell rows_l cols_l rn cn a = true ->
  in_cell rows_l cols_l rn cn b = true ->
  py_eq (item_field a pkey) (item_field b pkey) = true ->
  item_eq b a = true.
Proof.
  intros fields rows_l cols_l Ha Hb Hca Hcb Hpk.
  destruct (get_fields_spec pkey rows cols) as (Hnd & _ & Hk).
  apply (item_eq_intro fields); trivial.
  unfold in_cell in Hca, Hcb. apply andb_true_iff in Hca, Hcb.
  destruct Hca as [Hra Hca]. destruct Hcb as [Hrb Hcb].
  intros k Hin. destruct (Hk k Hin) as [[Eg ->]|[[Eg ->]| ->]].
  - unfold rows_l in Hra, Hrb. rewrite Eg in Hra, Hrb. simpl in Hra, Hrb.
    apply (py_eq_trans _ rn); [exact Hrb | rewrite py_eq_sym; exact Hra].
  - unfold cols_l in Hca, Hcb. rewrite Eg in Hca, Hcb. simpl in Hca, Hcb.
    apply (py_eq_trans _ cn); [exact Hcb | rewrite py_eq_sym; exact Hca].
  - rewrite py_eq_sym. exact Hpk.
Qed.

Lemma cell_ids_distinct (rows cols : option string) (pkey : string)
      (items : list item) (rn cn : value) :
  let rows_l := if given rows then [selector rows] else [] in
  let cols_l := if given cols then [selector cols] else [] in
  frame_ok (S3Report._get_fields pkey rows cols) items ->
  distinct_ids
    (filter (fun i => negb (py_eq VNone i))
       (map (fun i => item_field i pkey)
            (filter (in_cell rows_l cols_l rn cn) items))).
Proof.
  intros rows_l cols_l [Hkeys Hdiff].
  apply FOP_filter, FOP_map.
  apply (FOP_impl_in item_differs); [|apply FOP_filter; exact Hdiff].
  intros a b Ha Hb Hab. apply filter_In in Ha, Hb.
  destruct Ha as [Ha Hca]. destruct Hb as [Hb Hcb].
  rewrite Forall_forall in Hkeys.
  destruct (py_eq (item_field a pkey) (item_field b pkey)) eqn:E; [|reflexivity].
  unfold item_differs in Hab.
  rewrite (same_cell_same_key rows cols pkey rn cn a b
             (Hkeys a Ha) (Hkeys b Hb) Hca Hcb E) in Hab.
  discriminate.
Qed.

(** C7, as stated, fails: a report built without any layer has headers and
    counts (2 by 2 here) but no cells. *)
Lemma no_layer_no_cells :
  exists rep,
    S3Report.__init__ example_resource (Some "region") (Some "status") []
    = Ok rep /\
    S3Report.numrows rep = Some 2%nat /\ S3Report.numcols rep = Some 2%nat /\
    S3Report.cell rep = None.
Proof. eexists. split; [vm_compute; reflexivity|]. repeat split. Qed.

(** A record whose primary key is none is in no cell. *)
Example none_id_in_no_cell :
  exists rep,
    S3Report.__init__
      (mkResource "id" example_lfields
         [mkRow [("region", VStr "A"); ("status", VStr "open")] []])
      (Some "region") (Some "status") [(Some "id", Some "count")] = Ok rep /\
    S3Report.cell rep
    = Some [[mkCell (Some []) [((Some "id", Some "count"), VInt 0)]]].
Proof. eexists. split; [vm_compute; reflexivity|]. reflexivity. Qed.

(** C7 (amended): a report built from a non-empty record set with at
    least one layer has numrows * numcols cells, one for every row and
    column; every record id of the expanded items other than none is
    among the records of some cell; and the record ids of one cell are
    pairwise different. *)
Theorem cell_matrix (resource : Resource) (rows cols : option string)
        (lays : list layer) (rep : S3Report.t)
        (Hrec : sqltable resource <> []) (Hlays : lays <> [])
        (Hbuilt : S3Report.__init__ resource rows cols lays = Ok rep) :
  exists nr nc cells items objs,
    S3Report.numrows rep = Some nr /\ S3Report.numcols rep = Some nc /\
    S3Report.cell rep = Some cells /\
    List.length (List.concat cells) = (nr * nc)%nat /\
    (forall r c, (r < nr)%nat -> (c < nc)%nat ->
                 exists cl, cell_at cells r c = Some cl) /\
    S3Report.data_frame (resolved resource)
      (S3Report._get_fields (pkey_name resource) rows cols)
      (pkey_name resource) (sqltable resource) = Ok (items, objs) /\
    (forall i, In i items ->
               item_field i (pkey_name resource) <> VNone ->
               exists r c cl ids,
                 cell_at cells r c = Some cl /\ c_records cl = Some ids /\
                 In (item_field i (pkey_name resource)) ids) /\
    (forall r c cl ids,
       cell_at cells r c = Some cl -> c_records cl = Some ids ->
       distinct_ids ids).
Proof.
  destruct (init_inv _ _ _ _ _ Hrec Hbuilt)
    as (_ & store & items & objs & _ & Hdf & Hl).
  destruct (layers_keep _ _ _ _ _ Hl) as (_ & _ & Hnr & Hnc).
  destruct (layers_cells (pkey_name resource)
              (report_pivot resource rows cols items) lays
              (base_report resource rows cols lays store items objs) rep
              eq_refl Hlays Hl)
    as (cells & Hcell & Hshape & Hsound & Hfilled).
  pose proof (data_frame_ok _ _ _ _ _ _ _ Hdf) as Hok.
  set (pt := report_pivot resource rows cols items) in *.
  assert (Er : S3Report.numrows rep = Some (List.length (rnames pt))).
  { rewrite Hnr. unfold base_report, pt, report_pivot. simpl.
    destruct (given rows); simpl; [rewrite length_map|]; reflexivity. }
  assert (Ec : S3Report.numcols rep = Some (List.length (cnames pt))).
  { rewrite Hnc. unfold base_report, pt, report_pivot. simpl.
    destruct (given cols); simpl; [rewrite length_map|]; reflexivity. }
  exists (List.length (rnames pt)), (List.length (cnames pt)), cells, items, objs.
  split; [exact Er|]. split; [exact Ec|]. split; [exact Hcell|].
  split; [exact (concat_shape _ _ _ Hshape)|].
  split; [|split; [exact Hdf|split]].
  - intros r c Hr Hc. destruct (Hfilled r c Hr Hc) as (cl & ids & Hat & _).
    exists cl. exact Hat.
  - intros i Hi Hpk.
    destruct (axis_covers items (if given rows then [selector rows] else []) i Hi)
      as (rn & Hrn & Hon_r).
    destruct (axis_covers items (if given cols then [selector cols] else []) i Hi)
      as (cn & Hcn & Hon_c).
    apply In_nth_error in Hrn. destruct Hrn as (r & Hr).
    apply In_nth_error in Hcn. destruct Hcn as (c & Hc).
    assert (Hr' : (r < List.length (rnames pt))%nat)
      by (apply nth_error_Some; unfold pt, report_pivot; simpl; congruence).
    assert (Hc' : (c < List.length (cnames pt))%nat)
      by (apply nth_error_Some; unfold pt, report_pivot; simpl; congruence).
    destruct (Hfilled r c Hr' Hc') as (cl & ids & Hat & Hcl). simpl in Hat.
    exists r, c, cl, ids. split; [exact Hat|]. split; [exact Hcl|].
    pose proof (Hsound r c cl ids Hat Hcl) as Hp.
    apply pivot_ids_spec in Hp. destruct Hp as (rn' & cn' & Hr2 & Hc2 & ->).
    rewrite Hr in Hr2. rewrite Hc in Hc2. inversion Hr2; inversion Hc2; subst.
    apply filter_In. split.
    + apply (in_map (fun j => item_field j (pkey_name resource))).
      apply filter_In. split; [exact Hi|].
      unfold in_cell. rewrite Hon_r, Hon_c. reflexivity.
    + destruct (item_field i (pkey_name resource)); try reflexivity.
      contradiction Hpk; reflexivity.
  - intros r c cl ids Hat Hcl.
    pose proof (Hsound r c cl ids Hat Hcl) as Hp.
    apply pivot_ids_spec in Hp. destruct Hp as (rn & cn & _ & _ & ->).
    apply cell_ids_distinct. exact Hok.
Qed.

Lemma cell_matrix_witness :
  sqltable example_resource <> [] /\
  [(Some "id", Some "count")] <> [] /\
  exists rep cells,
    S3Report.__init__ example_resource (Some "region") (Some "status")
                      [(Some "id", Some "count")] = Ok rep /\
    S3Report.cell rep = Some cells /\
    List.length (List.concat cells) = 4%nat.
Proof.
  assert (Hrec : sqltable example_resource <> []) by discriminate.
  assert (Hlays : [(Some "id", Some "count")] <> ([] : list layer)) by discriminate.
  split; [exact Hrec|]. split; [exact Hlays|].
  eexists. 
  assert (Hrep : S3Report.__init__ example_resource (Some "region") (Some "status")
                   [(Some "id", Some "count")]
                 = Ok ?[rep]) by (vm_compute; reflexivity).
  destruct (cell_matrix example_resource (Some "region") (Some "status")
              [(Some "id", Some "count")] _ Hrec Hlays Hrep)
    as (nr & nc & cells & items & objs & Hnr & Hnc & Hcell & Hlen & _).
  exists cells. split; [exact Hrep|]. split; [exact Hcell|].
  rewrite Hlen. simpl in Hnr, Hnc. inversion Hnr; inversion Hnc; reflexivity.
Defined.

(** ** The values a cell aggregates *)

Lemma dedupe_spec (values seen : list value) :
  distinct_ids (dedupe seen values) /\
  Forall (fun w => py_in w seen = false) (dedupe seen values) /\
  incl (dedupe seen values) values.
Proof.
  revert seen; induction values as [|x values IH]; intros seen; simpl.
  - repeat split; [constructor | constructor | intros y []].
  - destruct (py_in x seen) eqn:E.
    + destruct (IH seen) as (H1 & H2 & H3).
      repeat split; trivial. intros y Hy. right. exact (H3 y Hy).
    + destruct (IH (x :: seen)) as (H1 & H2 & H3).
      assert (Hx : Forall (fun w => py_eq x w = false /\ py_in w seen = false)
                          (dedupe (x :: seen) values)).
      { eapply Forall_impl; [|exact H2]. intros w Hw. simpl in Hw.
        apply orb_false_iff in Hw. rewrite py_eq_sym. exact Hw. }
      repeat split.
      * constructor; [|exact H1].
        eapply Forall_impl; [|exact Hx]. intros w [Hw _]. exact Hw.
      * constructor; [exact E|].
        eapply Forall_impl; [|exact Hx]. intros w [_ Hw]. exact Hw.
      * intros y [<-|Hy]; [left; reflexivity | right; exact (H3 y Hy)].
Qed.

Lemma cell_values_spec (lf : dict LField) (store : option (list (value * nat)))
      (objs objs' : list Row) (ids vs : list value) (fact : string)
      (method : option string) :
  S3Report.cell_values lf store objs ids fact method = Ok (vs, objs') ->
  exists raw,
    S3Report.fact_values lf store objs ids fact = Ok (raw, objs') /\
    (In method collapsing ->
     distinct_ids vs /\ incl vs raw /\
     forall x, In x raw -> exists w, In w vs /\ py_eq x w = true) /\
    (~ In method collapsing -> vs = raw).
Proof.
  unfold S3Report.cell_values. intros H.
  apply bind_Ok in H. destruct H as ([raw objs1] & Hraw & H).
  apply bind_Ok in H. destruct H as (vs1 & Hset & H).
  inversion H; subst; clear H. exists raw. split; [exact Hraw|].
  destruct (existsb (opt_str_eqb method) [Some "list"; Some "count"]) eqn:E.
  - unfold py_set in Hset. destruct (existsb is_list raw); [discriminate|].
    inversion Hset; subst; clear Hset. split.
    + intros _. destruct (dedupe_spec raw []) as (H1 & _ & H3).
      repeat split; trivial. intros x Hx.
      destruct (dedupe_covers raw [] x Hx) as (w & Hw & Hxw).
      exists w. split; [exact Hw | exact Hxw].
    + intros Hn. exfalso. apply Hn. apply existsb_exists in E.
      destruct E as (m & Hm & Em). 
      destruct method as [s|]; destruct m as [t|]; simpl in Em; try discriminate.
      * apply String.eqb_eq in Em. subst. exact Hm.
      * destruct Hm as [Hm|[Hm|[]]]; discriminate.
  - inversion Hset; subst; clear Hset. split; [|reflexivity].
    intros Hin. exfalso.
    assert (existsb (opt_str_eqb method) [Some "list"; Some "count"] = true).
    { apply existsb_exists. exists method. split; [exact Hin|].
      destruct method as [s|]; simpl; [apply String.eqb_refl | reflexivity]. }
    congruence.
Qed.

(** C6: in every cell of a layer with a given fact, the value stored for
    the layer is the aggregate of the fact values of the records of the
    cell; for "list" and "count" these values are first reduced to
    pairwise different ones (every fact value keeps an equal
    representative), so that "count" is the number of different values;
    for the other methods they are aggregated as collected. *)
Theorem cell_values_deduplicated (self : S3Report.t) (pt : PivotTable)
        (pkey : string) (method : option string) (lay : layer) (r c : nat)
        (fr fr' : S3Report.frame) (fact : string)
        (Hfact : S3Report.f_fact fr = Some fact)
        (Hstep : S3Report.cell_step self pt pkey method lay r fr c = Ok fr') :
  exists cl ids raw vs v,
    cell_at (S3Report.f_cells fr') r c = Some cl /\
    c_records cl = Some ids /\
    S3Report.fact_values (S3Report.lfields self) (S3Report.records self)
      (S3Report.f_objects fr) ids fact = Ok (raw, S3Report.f_objects fr') /\
    S3Report._aggregate (Some vs) method = Ok v /\
    layer_get (c_layers cl) lay = Some v /\
    (In method collapsing ->
     distinct_ids vs /\ incl vs raw /\
     forall x, In x raw -> exists w, In w vs /\ py_eq x w = true) /\
    (method = Some "count" -> v = VInt (py_len vs)) /\
    (In method [Some "min"; Some "max"; Some "sum"; Some "avg"] -> vs = raw).
Proof.
  apply cell_step_inv in Hstep.
  destruct Hstep as (col0 & row0 & col1 & row1 & cell_row & cell0 & ids & vs & v
                     & _ & _ & Hr & Hc & _ & Hvals & Hagg & Ecells & _).
  rewrite Hfact in Hvals.
  destruct (cell_values_spec _ _ _ _ _ _ _ _ Hvals) as (raw & Hraw & Hcol & Hkeep).
  exists (mkCell (Some ids) (layer_set (c_layers cell0) lay v)), ids, raw, vs, v.
  split.
  { rewrite Ecells, (cell_at_set _ _ _ _ _ _ _ _ Hr Hc), !Nat.eqb_refl. reflexivity. }
  split; [reflexivity|]. split; [exact Hraw|]. split; [exact Hagg|].
  split; [apply layer_get_set|]. split; [exact Hcol|]. split.
  - intros ->. simpl in Hagg. inversion Hagg. reflexivity.
  - intros Hm. apply Hkeep. intros Hin. simpl in Hm, Hin.
    destruct Hm as [<-|[<-|[<-|[<-|[]]]]];
      destruct Hin as [Hin|[Hin|[]]]; discriminate.
Qed.

(** Two records that share a kind count once; their amounts add up
    twice. *)
Example count_deduplicates_sum_does_not :
  exists rep,
    S3Report.__init__ kinds_resource (Some "region") None
      [(Some "kind", Some "count"); (Some "amount", Some "sum");
       (Some "amount", Some "count")] = Ok rep /\
    cell_aggregate rep 0 0 (Some "kind", Some "count") = Some (VInt 2) /\
    cell_aggregate rep 0 0 (Some "amount", Some "sum") = Some (VInt 7) /\
    cell_aggregate rep 0 0 (Some "amount", Some "count") = Some (VInt 2).
Proof. eexists. split; [vm_compute; reflexivity|]. repeat split. Qed.

Lemma cell_values_deduplicated_witness :
  exists fr' cl vs,
    S3Report.cell_step kinds_self kinds_pivot "id" (Some "count")
      (Some "kind", Some "count") 0 kinds_frame 0 = Ok fr' /\
    cell_at (S3Report.f_cells fr') 0 0 = Some cl /\
    distinct_ids vs /\
    layer_get (c_layers cl) (Some "kind", Some "count") = Some (VInt (py_len vs)).
Proof.
  eexists.
  assert (Hstep : S3Report.cell_step kinds_self kinds_pivot "id" (Some "count")
                    (Some "kind", Some "count") 0 kinds_frame 0 = Ok ?[fr'])
    by (vm_compute; reflexivity).
  destruct (cell_values_deduplicated kinds_self kinds_pivot "id" (Some "count")
              (Some "kind", Some "count") 0 0 kinds_frame _ "kind"
              eq_refl Hstep)
    as (cl & ids & raw & vs & v & Hat & _ & _ & _ & Hlay & Hcol & Hcount & _).
  exists cl, vs. split; [exact Hstep|]. split; [exact Hat|].
  split; [apply Hcol; simpl; auto|].
  rewrite <- (Hcount eq_refl). exact Hlay.
Defined.

(** The totals of the first example do not depend on the order in which the
    pivot lists the axes: with the columns sorted (closed, open), row A
    still has 3, the first column (now closed) 0, and the grand total 5. *)
Example first_example_sorted_axes :
  exists rep,
    S3Report._add_layer sorted_self "id" sorted_pivot None (Some "count")
    = Ok rep /\
    header_total (S3Report.row rep) 0 count_layer = Some (VInt 3) /\
    header_total (S3Report.row rep) 1 count_layer = Some (VInt 1) /\
    header_total (S3Report.col rep) 0 count_layer = Some (VInt 0) /\
    header_total (S3Report.col rep) 1 count_layer = Some (VInt 2) /\
    grand_total rep count_layer = Some (VInt 5).
Proof. eexists. split; [vm_compute; reflexivity|]. repeat split. Qed.

(** * Further properties of the engine and of the code around it *)

(** ** Loops and exceptions *)

(** A loop raises what its body raises. *)
Lemma for_each_raise_kind {A S : Type} (P : exn -> Prop) (xs : list A)
      (body : S -> A -> result S) :
  (forall st x e, body st x = Raise e -> P e) ->
  forall st e, for_each xs body st = Raise e -> P e.
Proof.
  intros Hbody. induction xs as [|x xs IH]; intros st e H; simpl in H.
  - discriminate.
  - destruct (body st x) as [st'|e'] eqn:E; simpl in H.
    + exact (IH _ _ H).
    + inversion H; subst. exact (Hbody _ _ _ E).
Qed.

Lemma bind_Raise {A B : Type} (m : result A) (k : A -> result B) (e : exn) :
  bind m k = Raise e -> m = Raise e \/ exists a, m = Ok a /\ k a = Raise e.
Proof.
  destruct m as [a|e']; simpl; intros H.
  - right. exists a. auto.
  - left. inversion H; reflexivity.
Qed.

(** ** Top-N with Others: what cannot go wrong *)

















(** ** Expansion and flattening *)







Lemma extract_unresolved (lf : dict LField) (r : Row) (field : string) :
  dict_get lf field = None -> S3Report._extract lf r field = Raise KeyError.
Proof. unfold S3Report._extract. intros ->. reflexivity. Qed.

Lemma extract_raises (lf : dict LField) (r : Row) (field : string) (e : exn) :
  S3Report._extract lf r field = Raise e ->
  e = KeyError /\ dict_get lf field = None.
Proof.
  unfold S3Report._extract.
  destruct (dict_get lf field) as [l|]; [|intros H; inversion H; auto].
  destruct (dict_get (r_fields r) (fname l)); [discriminate|].
  destruct (dict_get (r_tables r) (tname l)) as [sub|]; [|discriminate].
  destruct (dict_get sub (fname l)); discriminate.
Qed.






(** ** Aggregates of integers *)

Lemma py_cmp_ints (a b : Z) : py_cmp (VInt a) (VInt b) = Ok (Z.compare a b).
Proof.
  simpl. unfold Qcompare. simpl. rewrite !Z.mul_1_r. reflexivity.
Qed.







(** ** The record store *)

Lemma lookup_store_set (st : list (value * nat)) (k i : value) (n : nat) :
  S3Report.lookup_record (Some (S3Report.store_set st k n)) i
  = if py_eq i k then Ok n else S3Report.lookup_record (Some st) i.
Proof.
  unfold S3Report.lookup_record.
  induction st as [|[k' n'] st IH]; simpl.
  - destruct (py_eq i k); reflexivity.
  - destruct (py_eq k k') eqn:Ek; simpl.
    + destruct (py_eq i k) eqn:Ei.
      * rewrite (py_eq_trans i k k' Ei Ek). reflexivity.
      * destruct (py_eq i k') eqn:Ei'; [|reflexivity].
        rewrite py_eq_sym in Ek.
        rewrite (py_eq_trans i k' k Ei' Ek) in Ei. discriminate.
    + destruct (py_eq i k') eqn:Ei'.
      * destruct (py_eq i k) eqn:Ei; [|reflexivity].
        rewrite py_eq_sym in Ei.
        rewrite (py_eq_trans k i k' Ei Ei') in Ek. discriminate.
      * exact IH.
Qed.

Lemma store_set_keys (st : list (value * nat)) (k : value) (n : nat) :
  keys (S3Report.store_set st k n)
  = if py_in k (keys st) then keys st else keys st ++ [k].
Proof.
  induction st as [|[k' n'] st IH]; simpl; [reflexivity|].
  destruct (py_eq k k'); simpl; [reflexivity|].
  rewrite IH. destruct (py_in k (keys st)); reflexivity.
Qed.

Lemma store_set_length (st : list (value * nat)) (k : value) (n : nat) :
  List.length (S3Report.store_set st k n)
  = if py_in k (keys st) then List.length st else S (List.length st).
Proof.
  rewrite <- (length_map fst (S3Report.store_set st k n)).
  change (map fst (S3Report.store_set st k n))
    with (keys (S3Report.store_set st k n)).
  rewrite store_set_keys.
  destruct (py_in k (keys st)); unfold keys;
    rewrite ?length_app, !length_map; simpl; lia.
Qed.

Lemma store_set_distinct (st : list (value * nat)) (k : value) (n : nat) :
  distinct_ids (keys st) -> distinct_ids (keys (S3Report.store_set st k n)).
Proof.
  intros H. rewrite store_set_keys.
  destruct (py_in k (keys st)) eqn:E; [exact H|].
  apply FOP_snoc; [exact H|].
  apply Forall_forall. intros a Ha. rewrite py_eq_sym.
  destruct (py_eq k a) eqn:Eka; [|reflexivity].
  assert (py_in k (keys st) = true)
    by (apply existsb_exists; exists a; auto).
  congruence.
Qed.

Lemma FOP_snoc_inv {A : Type} (R : A -> A -> Prop) (l : list A) (x : A) :
  ForallOrdPairs R (l ++ [x]) ->
  ForallOrdPairs R l /\ Forall (fun a => R a x) l.
Proof.
  induction l as [|a l IH]; simpl; intros H.
  - split; constructor.
  - inversion H as [|? ? Ha Hl]; subst. destruct (IH Hl) as (H1 & H2).
    apply Forall_app in Ha. destruct Ha as (Ha1 & Ha2).
    split; constructor; trivial. inversion Ha2; assumption.
Qed.

Lemma store_step (lf : dict LField) (pkey : string) (done : list (nat * Row))
      (st st' : list (value * nat)) (kr : nat * Row) :
  store_inv lf pkey done st -> store_body lf pkey st kr = Ok st' ->
  store_inv lf pkey (done ++ [kr]) st'.
Proof.
  intros (Hd & Hl & Hk & Hf & Hn) H. unfold store_body in H.
  apply bind_Ok in H. destruct H as (pk & Epk & H).
  destruct (is_list pk); [discriminate|]. inversion H; subst; clear H.
  assert (Ekey : key_of lf pkey (snd kr) = pk) by (unfold key_of; rewrite Epk; reflexivity).
  split; [apply store_set_distinct; exact Hd|].
  split.
  { rewrite store_set_length, length_app. simpl.
    destruct (py_in pk (keys st)); lia. }
  split.
  { intros k Hin. rewrite store_set_keys in Hin.
    assert (Hcases : In k (keys st) \/ k = pk).
    { destruct (py_in pk (keys st)); [left; exact Hin|].
      apply in_app_or in Hin. destruct Hin as [Hin|[<-|[]]]; auto. }
    destruct Hcases as [Hin' | ->].
    - destruct (Hk k Hin') as (kr0 & Hkr0 & E). exists kr0.
      split; [apply in_or_app; auto | exact E].
    - exists kr. split; [apply in_or_app; simpl; auto | symmetry; exact Ekey]. }
  split.
  { intros kr0 Hin. apply in_app_or in Hin.
    rewrite lookup_store_set.
    destruct Hin as [Hin|[<-|[]]].
    - destruct (Hf kr0 Hin) as (E0 & kr' & Hkr' & Hlook & Heq).
      split; [exact E0|].
      destruct (py_eq (key_of lf pkey (snd kr0)) pk) eqn:E.
      + exists kr. split; [apply in_or_app; simpl; auto|].
        split; [reflexivity|]. rewrite Ekey. exact E.
      + exists kr'. split; [apply in_or_app; auto|]. split; assumption.
    - rewrite Ekey. split; [exact Epk|]. rewrite py_eq_refl.
      exists kr. split; [apply in_or_app; simpl; auto|].
      split; [reflexivity|]. rewrite Ekey. apply py_eq_refl. }
  intros Hdist. rewrite map_app in Hdist. simpl in Hdist.
  apply FOP_snoc_inv in Hdist. destruct Hdist as (Hdone & Hlast).
  rewrite store_set_length, length_app, (Hn Hdone). simpl.
  destruct (py_in pk (keys st)) eqn:E; [|lia].
  exfalso. apply existsb_exists in E. destruct E as (k & Hin & Heq).
  destruct (Hk k Hin) as (kr0 & Hkr0 & ->).
  rewrite Forall_forall in Hlast.
  specialize (Hlast (key_of lf pkey (snd kr0))
                    (in_map (fun kr => key_of lf pkey (snd kr)) done kr0 Hkr0)).
  simpl in Hlast. rewrite Ekey, py_eq_sym in Hlast. congruence.
Qed.

Lemma store_loop (lf : dict LField) (pkey : string) (todo done : list (nat * Row))
      (st st' : list (value * nat)) :
  store_inv lf pkey done st ->
  for_each todo (store_body lf pkey) st = Ok st' ->
  store_inv lf pkey (done ++ todo) st'.
Proof.
  revert done st; induction todo as [|kr todo IH]; intros done st Hinv H; simpl in H.
  - inversion H; subst. rewrite app_nil_r. exact Hinv.
  - apply bind_Ok in H. destruct H as (st1 & H1 & H2).
    replace (done ++ kr :: todo) with ((done ++ [kr]) ++ todo)
      by (rewrite <- app_assoc; reflexivity).
    apply (IH _ st1); [|exact H2]. exact (store_step _ _ _ _ _ _ Hinv H1).
Qed.

Lemma in_combine_seq {A : Type} (l : list A) (a k : nat) (x : A) :
  In (k, x) (combine (seq a (List.length l)) l) <->
  (a <= k)%nat /\ nth_error l (k - a) = Some x.
Proof.
  revert a; induction l as [|y l IH]; intros a; simpl.
  - split; [contradiction|]. intros [_ H]. destruct (k - a)%nat; discriminate.
  - rewrite IH. split.
    + intros [H|[H1 H2]].
      * inversion H; subst. rewrite Nat.sub_diag. split; [lia | reflexivity].
      * split; [lia|]. replace (k - a)%nat with (S (k - S a)) by lia. exact H2.
    + intros [H1 H2]. destruct (Nat.eq_dec a k) as [->|Hne].
      * rewrite Nat.sub_diag in H2. inversion H2. left. reflexivity.
      * right. split; [lia|].
        replace (k - a)%nat with (S (k - S a)) in H2 by lia. exact H2.
Qed.

Lemma map_snd_combine_seq {A : Type} (l : list A) (a : nat) :
  map snd (combine (seq a (List.length l)) l) = l.
Proof.
  revert a; induction l as [|y l IH]; intros a; simpl; [reflexivity|].
  rewrite IH. reflexivity.
Qed.

Lemma distinct_positions (l : list value) (i j : nat) (a b : value) :
  distinct_ids l -> nth_error l i = Some a -> nth_error l j = Some b ->
  py_eq a b = true -> i = j.
Proof.
  intros H. revert i j; induction H as [|x l Hx Hl IH]; intros i j Hi Hj Heq.
  - destruct i; discriminate.
  - rewrite Forall_forall in Hx. destruct i as [|i]; destruct j as [|j]; simpl in *.
    + reflexivity.
    + inversion Hi; subst. apply nth_error_In in Hj.
      rewrite (Hx b Hj) in Heq. discriminate.
    + inversion Hj; subst. apply nth_error_In in Hi.
      rewrite py_eq_sym, (Hx a Hi) in Heq. discriminate.
    + f_equal. exact (IH i j Hi Hj Heq).
Qed.

Lemma build_store_inv (lf : dict LField) (pkey : string) (recs : list Row)
      (store : list (value * nat)) :
  S3Report.build_store lf pkey recs = Ok store ->
  store_inv lf pkey (combine (seq 0 (List.length recs)) recs) store.
Proof.
  intros Hstore.
  apply (store_loop lf pkey _ [] []); [|exact Hstore].
  split; [apply FOP_nil|]. split; [simpl; lia|].
  split; [intros ? []|]. split; [intros ? []|]. reflexivity.
Qed.

Lemma combine_seq_length {A : Type} (l : list A) (a : nat) :
  List.length (combine (seq a (List.length l)) l) = List.length l.
Proof. rewrite length_combine, length_seq. lia. Qed.

Lemma combine_seq_keys (lf : dict LField) (pkey : string) (recs : list Row) :
  map (fun kr : nat * Row => key_of lf pkey (snd kr))
      (combine (seq 0 (List.length recs)) recs)
  = map (key_of lf pkey) recs.
Proof.
  rewrite <- (map_map snd (key_of lf pkey)), map_snd_combine_seq. reflexivity.
Qed.

(** X7: the store built from the records holds pairwise different keys,
    at most one per record; looking up the primary key of any record
    finds a record with an equal key; and when the keys of the records are
    pairwise different, it finds the record itself and the store has one
    entry per record. *)
Theorem store_round_trip (lf : dict LField) (pkey : string) (recs : list Row)
        (store : list (value * nat))
        (Hstore : S3Report.build_store lf pkey recs = Ok store) :
  distinct_ids (keys store) /\
  (List.length store <= List.length recs)%nat /\
  (forall k r,
     nth_error recs k = Some r ->
     exists pk k' r',
       S3Report._extract lf r pkey = Ok pk /\
       S3Report.lookup_record (Some store) pk = Ok k' /\
       nth_error recs k' = Some r' /\
       py_eq pk (key_of lf pkey r') = true) /\
  (distinct_ids (map (key_of lf pkey) recs) ->
   List.length store = List.length recs /\
   forall k r, nth_error recs k = Some r ->
               S3Report.lookup_record (Some store) (key_of lf pkey r) = Ok k).
Proof.
  destruct (build_store_inv lf pkey recs store Hstore) as (Hd & Hl & Hk & Hf & Hn).
  pose proof (combine_seq_length recs 0) as Hlen.
  assert (Hfind : forall k r,
     nth_error recs k = Some r ->
     exists k' r',
       S3Report._extract lf r pkey = Ok (key_of lf pkey r) /\
       S3Report.lookup_record (Some store) (key_of lf pkey r) = Ok k' /\
       nth_error recs k' = Some r' /\
       py_eq (key_of lf pkey r) (key_of lf pkey r') = true).
  { intros k r Hkr.
    assert (Hin : In (k, r) (combine (seq 0 (List.length recs)) recs)).
    { apply in_combine_seq. rewrite Nat.sub_0_r. split; [lia | exact Hkr]. }
    destruct (Hf (k, r) Hin) as (E & [k' r'] & Hin' & Hlook & Heq). simpl in *.
    apply in_combine_seq in Hin'. rewrite Nat.sub_0_r in Hin'.
    exists k', r'. repeat split; trivial. apply Hin'. }
  split; [exact Hd|]. split; [lia|]. split.
  - intros k r Hkr. destruct (Hfind k r Hkr) as (k' & r' & E & Hlook & Hr' & Heq).
    exists (key_of lf pkey r), k', r'. repeat split; assumption.
  - intros Hdist.
    assert (Hdist' : distinct_ids
              (map (fun kr : nat * Row => key_of lf pkey (snd kr))
                   (combine (seq 0 (List.length recs)) recs))).
    { rewrite combine_seq_keys. exact Hdist. }
    split; [rewrite (Hn Hdist'); exact Hlen|].
    intros k r Hkr. destruct (Hfind k r Hkr) as (k' & r' & _ & Hlook & Hr' & Heq).
    rewrite Hlook. f_equal. symmetry.
    apply (distinct_positions (map (key_of lf pkey) recs) k k'
             (key_of lf pkey r) (key_of lf pkey r') Hdist); trivial.
    + rewrite nth_error_map, Hkr. reflexivity.
    + rewrite nth_error_map, Hr'. reflexivity.
Qed.

Lemma store_round_trip_witness :
  exists store,
    S3Report.build_store example_lfields "id" (sqltable example_resource)
    = Ok store /\
    List.length store = 3%nat.
Proof.
  eexists.
  assert (H : S3Report.build_store example_lfields "id" (sqltable example_resource)
              = Ok ?[store]) by (vm_compute; reflexivity).
  split; [exact H|].
  destruct (store_round_trip example_lfields "id" (sqltable example_resource) _ H)
    as (_ & _ & _ & Hd).
  apply Hd. vm_compute. repeat constructor.
Defined.

(** ** The failures of the aggregation *)

Lemma except_TypeError_raises (body : result value) (e : exn) :
  except_TypeError body = Raise e -> body = Raise e /\ e <> TypeError.
Proof.
  destruct body as [v|[]]; simpl; intros H; inversion H; subst;
    split; trivial; discriminate.
Qed.

Lemma py_extreme_raises (better : value -> value -> result bool)
      (vs : list value) (e : exn) :
  (forall a b e', better a b = Raise e' -> e' = TypeError) ->
  py_extreme better vs = Raise e ->
  e = TypeError \/ (e = ValueError /\ vs = []).
Proof.
  intros Hb. destruct vs as [|v rest]; simpl; intros H.
  - inversion H. auto.
  - left. revert H.
    apply (for_each_raise_kind (fun e => e = TypeError)).
    intros st x e' H. apply bind_Raise in H.
    destruct H as [H|(b & _ & H)]; [exact (Hb _ _ _ H) | discriminate].
Qed.

Lemma py_lt_raises (a b : value) (e : exn) : py_lt a b = Raise e -> e = TypeError.
Proof.
  unfold py_lt. intros H. apply bind_Raise in H.
  destruct H as [H|(c & _ & H)]; [exact (py_cmp_raises _ _ _ H) | discriminate].
Qed.

Lemma py_gt_raises (a b : value) (e : exn) : py_gt a b = Raise e -> e = TypeError.
Proof.
  unfold py_gt. intros H. apply bind_Raise in H.
  destruct H as [H|(c & _ & H)]; [exact (py_cmp_raises _ _ _ H) | discriminate].
Qed.

Lemma py_div_float_raises (x : value) (n : Z) (e : exn) :
  py_div_float x n = Raise e -> e = TypeError.
Proof.
  unfold py_div_float. destruct (as_num x); intros H; inversion H; reflexivity.
Qed.

Lemma aggregate_raises (values : option (list value)) (m : option string)
      (e : exn) :
  S3Report._aggregate values m = Raise e ->
  e = ValueError /\ values = Some [] /\ (m = Some "min" \/ m = Some "max").
Proof.
  intros Hraise. unfold S3Report._aggregate in Hraise.
  destruct values as [vs|]; [|discriminate].
  destruct m as [m|]; [|destruct (truthy (VList vs)); discriminate].
  destruct (String.eqb m "list") eqn:E1;
    [destruct (truthy (VList vs)); discriminate|].
  destruct (String.eqb m "count") eqn:E2; [discriminate|].
  destruct (String.eqb m "min") eqn:E3.
  { apply String.eqb_eq in E3. subst m.
    apply except_TypeError_raises in Hraise. destruct Hraise as [H Hne].
    destruct (py_extreme_raises py_lt vs e py_lt_raises H) as [->|[-> ->]];
      [contradiction | auto]. }
  destruct (String.eqb m "max") eqn:E4.
  { apply String.eqb_eq in E4. subst m.
    apply except_TypeError_raises in Hraise. destruct Hraise as [H Hne].
    destruct (py_extreme_raises py_gt vs e py_gt_raises H) as [->|[-> ->]];
      [contradiction | auto]. }
  destruct (String.eqb m "sum") eqn:E5.
  { apply except_TypeError_raises in Hraise. destruct Hraise as [H Hne].
    apply sum_loop_raises in H. contradiction. }
  destruct (str_contains "avg" m); [|discriminate].
  apply except_TypeError_raises in Hraise. destruct Hraise as [H Hne].
  exfalso. apply Hne.
  destruct (negb (Z.eqb (py_len vs) 0)); [|discriminate].
  apply bind_Raise in H. destruct H as [H|(s & _ & H)].
  - exact (sum_loop_raises _ _ _ H).
  - exact (py_div_float_raises _ _ _ H).
Qed.



(** ** The errors of the constructor *)

Lemma quiet_Ok {A : Type} (a : A) : quiet (Ok a).
Proof. discriminate. Qed.

Lemma quiet_raise {A : Type} (e : exn) : e <> SyntaxError -> quiet (@Raise A e).
Proof. intros H E. inversion E. contradiction. Qed.

Lemma quiet_bind {A B : Type} (m : result A) (k : A -> result B) :
  quiet m -> (forall a, quiet (k a)) -> quiet (bind m k).
Proof.
  intros Hm Hk H. apply bind_Raise in H.
  destruct H as [H|(a & _ & H)]; [exact (Hm H) | exact (Hk a H)].
Qed.

Lemma quiet_for_each {A S : Type} (xs : list A) (body : S -> A -> result S)
      (st : S) :
  (forall st x, quiet (body st x)) -> quiet (for_each xs body st).
Proof.
  intros Hb H.
  refine (for_each_raise_kind (fun e => e <> SyntaxError) xs body _
                              st SyntaxError H eq_refl).
  intros st0 x e H0 ->. exact (Hb st0 x H0).
Qed.

Lemma quiet_kind {A : Type} (m : result A) (P : exn -> Prop) :
  (forall e, m = Raise e -> P e) -> ~ P SyntaxError -> quiet m.
Proof. intros H Hn E. exact (Hn (H _ E)). Qed.

Ltac quiet_step :=
  match goal with
  | |- quiet (Ok _) => apply quiet_Ok
  | |- quiet (Raise _) => apply quiet_raise; discriminate
  | |- quiet (bind _ _) => apply quiet_bind; [|intros]
  | |- quiet (for_each _ _ _) => apply quiet_for_each; intros
  | |- quiet (match ?x with _ => _ end) => destruct x
  end.

Lemma quiet_list_get {A : Type} (l : list A) (n : nat) : quiet (list_get l n).
Proof. unfold list_get. repeat quiet_step. Qed.

Lemma quiet_axis_get (hs : option (list AxisEntry)) (n : nat) :
  quiet (S3Report.axis_get hs n).
Proof. unfold S3Report.axis_get. destruct hs; [apply quiet_list_get | quiet_step]. Qed.

Lemma quiet_extract (lf : dict LField) (r : Row) (field : string) :
  quiet (S3Report._extract lf r field).
Proof.
  apply (quiet_kind _ (fun e => e = KeyError)); [|discriminate].
  intros e H. exact (proj1 (extract_raises _ _ _ _ H)).
Qed.

Lemma quiet_aggregate (values : option (list value)) (m : option string) :
  quiet (S3Report._aggregate values m).
Proof.
  apply (quiet_kind _ (fun e => e = ValueError)); [|discriminate].
  intros e H. exact (proj1 (aggregate_raises _ _ _ H)).
Qed.

Lemma quiet_lookup_record (store : option (list (value * nat))) (i : value) :
  quiet (S3Report.lookup_record store i).
Proof. unfold S3Report.lookup_record. repeat quiet_step. Qed.

Lemma quiet_record_keys (store : option (list (value * nat))) :
  quiet (S3Report.record_keys store).
Proof. unfold S3Report.record_keys. repeat quiet_step. Qed.

Lemma quiet_py_extend (x : list value) (y : value) : quiet (S3Report.py_extend x y).
Proof. unfold S3Report.py_extend. repeat quiet_step. Qed.

Lemma quiet_py_set (values : list value) : quiet (py_set values).
Proof. unfold py_set. repeat quiet_step. Qed.

Lemma quiet_fact_values (lf : dict LField) (store : option (list (value * nat)))
      (objs : list Row) (ids : list value) (fact : string) :
  quiet (S3Report.fact_values lf store objs ids fact).
Proof.
  unfold S3Report.fact_values.
  apply quiet_bind.
  - apply quiet_for_each. intros acc i.
    apply quiet_bind; [apply quiet_lookup_record | intros k].
    apply quiet_bind; [apply quiet_list_get | intros r].
    apply quiet_bind; [apply quiet_extract | intros v]. apply quiet_Ok.
  - intros found. destruct found as [|[k v] rest]; [apply quiet_Ok|].
    destruct v; try apply quiet_Ok.
    apply quiet_bind; [|intros x'].
    + apply quiet_for_each. intros. apply quiet_py_extend.
    + apply quiet_bind; [apply quiet_list_get | intros r]. apply quiet_Ok.
Qed.

Lemma quiet_cell_values (lf : dict LField) (store : option (list (value * nat)))
      (objs : list Row) (ids : list value) (fact : string)
      (method : option string) :
  quiet (S3Report.cell_values lf store objs ids fact method).
Proof.
  unfold S3Report.cell_values.
  apply quiet_bind; [apply quiet_fact_values | intros [values objs']].
  apply quiet_bind; [|intros; apply quiet_Ok].
  destruct (existsb _ _); [apply quiet_py_set | apply quiet_Ok].
Qed.

Lemma quiet_cell_step (self : S3Report.t) (pt : PivotTable) (pkey : string)
      (method : option string) (lay : layer) (r : nat)
      (fr : S3Report.frame) (c : nat) :
  quiet (S3Report.cell_step self pt pkey method lay r fr c).
Proof.
  unfold S3Report.cell_step.
  apply quiet_bind; [apply quiet_axis_get | intros col0].
  apply quiet_bind; [apply quiet_list_get | intros cell_row].
  apply quiet_bind; [apply quiet_list_get | intros cell0].
  apply quiet_bind; [|intros ids].
  { destruct (c_records cell0); [apply quiet_Ok|].
    apply quiet_bind; [apply quiet_list_get | intros data_row].
    apply quiet_bind; [apply quiet_list_get | intros data]. apply quiet_Ok. }
  apply quiet_bind; [apply quiet_axis_get | intros row0].
  destruct (S3Report.f_fact fr) as [fact|].
  - apply quiet_bind; [apply quiet_cell_values | intros [values objs]].
    apply quiet_bind; [apply quiet_aggregate | intros v]. apply quiet_Ok.
  - apply quiet_bind; [apply quiet_record_keys | intros all_values].
    apply quiet_bind; [apply quiet_aggregate | intros v]. apply quiet_Ok.
Qed.

Lemma quiet_row_step (self : S3Report.t) (pt : PivotTable) (pkey : string)
      (method : option string) (lay : layer) (ncols : nat)
      (fr : S3Report.frame) (r : nat) :
  quiet (S3Report.row_step self pt pkey method lay ncols fr r).
Proof.
  unfold S3Report.row_step.
  apply quiet_bind; [apply quiet_axis_get | intros row0].
  apply quiet_bind; [|intros fr'].
  { apply quiet_for_each. intros. apply quiet_cell_step. }
  apply quiet_bind; [apply quiet_axis_get | intros row1].
  apply quiet_bind; [apply quiet_aggregate | intros v]. apply quiet_Ok.
Qed.

Lemma quiet_col_total (method : option string) (lay : layer)
      (cs : option (list AxisEntry)) (c : nat) :
  quiet (S3Report.col_total method lay cs c).
Proof.
  unfold S3Report.col_total.
  apply quiet_bind; [apply quiet_axis_get | intros col0].
  destruct (e_values col0); [|quiet_step].
  apply quiet_bind; [apply quiet_aggregate | intros v]. apply quiet_Ok.
Qed.

(** A layer ends in a SyntaxError only when its method is not supported. *)
Lemma add_layer_syntax_error (self : S3Report.t) (pkey : string)
      (pt : PivotTable) (fact method : option string) :
  S3Report._add_layer self pkey pt fact method = Raise SyntaxError ->
  forall m, method = Some m -> ~ In m S3Report.METHODS.
Proof.
  unfold S3Report._add_layer. intros H m -> Hin.
  destruct (existsb (opt_str_eqb (Some m)) (map Some S3Report.METHODS)) eqn:E.
  - cbn [negb] in H. cbv zeta in H.
    refine (quiet_bind _ _ _ _ H); [|intros fr].
    { apply quiet_for_each. intros. apply quiet_row_step. }
    apply quiet_bind; [|intros cs].
    { apply quiet_for_each. intros. apply quiet_col_total. }
    apply quiet_bind; [apply quiet_aggregate | intros v]. apply quiet_Ok.
  - assert (Ht : existsb (opt_str_eqb (Some m)) (map Some S3Report.METHODS) = true).
    { apply existsb_exists. exists (Some m). split.
      - apply in_map. exact Hin.
      - simpl. apply String.eqb_refl. }
    congruence.
Qed.

Lemma quiet_build_store (lf : dict LField) (pkey : string) (recs : list Row) :
  quiet (S3Report.build_store lf pkey recs).
Proof.
  unfold S3Report.build_store. apply quiet_for_each. intros st kr.
  apply quiet_bind; [apply quiet_extract | intros pk].
  destruct (is_list pk); [quiet_step | apply quiet_Ok].
Qed.

Lemma quiet_flatten (lf : dict LField) (fields : list string) (pkey : string)
      (r : Row) :
  quiet (S3Report._flatten lf fields pkey r).
Proof.
  unfold S3Report._flatten.
  apply quiet_bind; [apply quiet_extract | intros pk].
  apply quiet_bind; [|intros; apply quiet_Ok].
  apply quiet_for_each. intros it field.
  apply quiet_bind; [apply quiet_extract | intros; apply quiet_Ok].
Qed.

Lemma quiet_expand (r : item) : quiet (S3Report._expand r).
Proof.
  unfold S3Report._expand. apply quiet_for_each. intros rs field.
  unfold S3Report._expand_field. apply quiet_for_each. intros results r0.
  destruct (dict_get r0 field) as [[]|]; repeat quiet_step.
Qed.

Lemma quiet_data_frame (lf : dict LField) (fields : list string)
      (pkey : string) (recs : list Row) :
  quiet (S3Report.data_frame lf fields pkey recs).
Proof.
  unfold S3Report.data_frame. apply quiet_for_each. intros st k.
  unfold S3Report.frame_step.
  apply quiet_bind; [apply quiet_list_get | intros r].
  apply quiet_bind; [apply quiet_flatten | intros flat].
  apply quiet_bind; [apply quiet_expand | intros; apply quiet_Ok].
Qed.

Lemma for_each_raise_at {A S : Type} (xs : list A) (body : S -> A -> result S)
      (st : S) (e : exn) :
  for_each xs body st = Raise e ->
  exists x st0, In x xs /\ body st0 x = Raise e.
Proof.
  revert st; induction xs as [|x xs IH]; intros st H; simpl in H; [discriminate|].
  apply bind_Raise in H. destruct H as [H|(st1 & _ & H)].
  - exists x, st. split; [left; reflexivity | exact H].
  - destruct (IH st1 H) as (y & st0 & Hy & Hb).
    exists y, st0. split; [right; exact Hy | exact Hb].
Qed.

Lemma init_syntax_error (resource : Resource) (rows cols : option string)
      (lays : list layer) :
  S3Report.__init__ resource rows cols lays = Raise SyntaxError ->
  (given rows = false /\ given cols = false) \/
  (sqltable resource <> [] /\
   exists fact method,
     In (fact, method) lays /\
     forall m, method = Some m -> ~ In m S3Report.METHODS).
Proof.
  intros Hraise. unfold S3Report.__init__ in Hraise.
  destruct (negb (given rows) && negb (given cols)) eqn:Eg.
  { left. apply andb_prop in Eg. destruct Eg as [E1 E2].
    apply negb_true_iff in E1. apply negb_true_iff in E2. auto. }
  right. cbv zeta in Hraise.
  destruct (sqltable resource) as [|r0 recs]; [discriminate|].
  split; [discriminate|].
  apply bind_Raise in Hraise. destruct Hraise as [H|(store & _ & H)].
  { exfalso. exact (quiet_build_store _ _ _ H). }
  apply bind_Raise in H. destruct H as [H|([items objs] & _ & H)].
  { exfalso. exact (quiet_data_frame _ _ _ _ H). }
  apply for_each_raise_at in H. destruct H as ([fact method] & self & Hin & H).
  exists fact, method. split; [exact Hin|].
  exact (add_layer_syntax_error _ _ _ _ _ H).
Qed.

(** X9: the constructor ends in a SyntaxError in two cases only: neither
    rows nor columns are given, which always ends so, or the records are
    not empty and a layer names no supported method. *)
Theorem syntax_error_sources (resource : Resource) (rows cols : option string)
        (lays : list layer) :
  (S3Report.__init__ resource rows cols lays = Raise SyntaxError ->
   (given rows = false /\ given cols = false) \/
   (sqltable resource <> [] /\
    exists fact method,
      In (fact, method) lays /\
      forall m, method = Some m -> ~ In m S3Report.METHODS)) /\
  (given rows = false /\ given cols = false ->
   S3Report.__init__ resource rows cols lays = Raise SyntaxError).
Proof.
  split.
  - exact (init_syntax_error resource rows cols lays).
  - intros [Er Ec]. unfold S3Report.__init__. rewrite Er, Ec. reflexivity.
Qed.

Lemma syntax_error_sources_witness :
  exists fact method,
    In (fact, method) [(Some "id", Some "count"); (Some "id", Some "median")] /\
    forall m, method = Some m -> ~ In m S3Report.METHODS.
Proof.
  assert (H : S3Report.__init__ example_resource (Some "region") None
                [(Some "id", Some "count"); (Some "id", Some "median")]
              = Raise SyntaxError) by reflexivity.
  destruct (proj1 (syntax_error_sources _ _ _ _) H) as [[E _]|[_ Hl]];
    [discriminate E | exact Hl].
Defined.

(** ** The size of a report *)

Lemma add_layer_settings (self self' : S3Report.t) (pkey : string)
      (pt : PivotTable) (fact method : option string) :
  S3Report._add_layer self pkey pt fact method = Ok self' ->
  S3Report.records self' = S3Report.records self /\
  S3Report.empty self' = S3Report.empty self /\
  S3Report.rows self' = S3Report.rows self /\
  S3Report.cols self' = S3Report.cols self /\
  S3Report.layers self' = S3Report.layers self /\
  S3Report.dfields self' = S3Report.dfields self.
Proof.
  unfold S3Report._add_layer. intros H.
  destruct (negb _); [discriminate|].
  apply bind_Ok in H. destruct H as (fr & _ & H).
  apply bind_Ok in H. destruct H as (cs & _ & H).
  apply bind_Ok in H. destruct H as (total & _ & H).
  inversion H; subst; clear H. simpl. repeat split.
Qed.

Lemma layers_settings (pkey : string) (pt : PivotTable) (lays : list layer)
      (self rep : S3Report.t) :
  for_each lays
    (fun self fm => S3Report._add_layer self pkey pt (fst fm) (snd fm)) self
  = Ok rep ->
  S3Report.records rep = S3Report.records self /\
  S3Report.empty rep = S3Report.empty self /\
  S3Report.rows rep = S3Report.rows self /\
  S3Report.cols rep = S3Report.cols self /\
  S3Report.layers rep = S3Report.layers self /\
  S3Report.dfields rep = S3Report.dfields self.
Proof.
  apply (for_each_invariant
           (fun st : S3Report.t =>
              S3Report.records st = S3Report.records self /\
              S3Report.empty st = S3Report.empty self /\
              S3Report.rows st = S3Report.rows self /\
              S3Report.cols st = S3Report.cols self /\
              S3Report.layers st = S3Report.layers self /\
              S3Report.dfields st = S3Report.dfields self)).
  - intros st x st' _ (H1 & H2 & H3 & H4 & H5 & H6) Hstep.
    destruct (add_layer_settings _ _ _ _ _ _ Hstep) as (K1 & K2 & K3 & K4 & K5 & K6).
    repeat split; congruence.
  - repeat split.
Qed.

(** X10: a report that has been built keeps the dimensions and layers it
    was asked for; it is empty exactly when the resource gave no records;
    its length is the number of different primary keys, which is at most
    the number of records, and equal to it when the keys of the records
    are pairwise different. *)
Theorem report_length (resource : Resource) (rows cols : option string)
        (lays : list layer) (rep : S3Report.t)
        (Hrep : S3Report.__init__ resource rows cols lays = Ok rep) :
  S3Report.rows rep = rows /\ S3Report.cols rep = cols /\
  S3Report.layers rep = lays /\
  (S3Report.empty rep = true <-> sqltable resource = []) /\
  0 <= S3Report.__len__ rep <= py_len (sqltable resource) /\
  (distinct_ids (map (key_of (resolved resource) (pkey_name resource))
                     (sqltable resource)) ->
   S3Report.__len__ rep = py_len (sqltable resource)).
Proof.
  destruct (sqltable resource) as [|r0 recs] eqn:Es.
  - unfold S3Report.__init__ in Hrep. rewrite Es in Hrep.
    destruct (negb (given rows) && negb (given cols)); [discriminate|].
    inversion Hrep; subst; clear Hrep. unfold S3Report.__len__, py_len. simpl.
    repeat split; trivial; lia.
  - assert (Hne : sqltable resource <> []) by (rewrite Es; discriminate).
    destruct (init_inv resource rows cols lays rep Hne Hrep)
      as (_ & store & items & objs & Hstore & _ & Hl).
    apply layers_settings in Hl. destruct Hl as (K1 & K2 & K3 & K4 & K5 & _).
    unfold base_report in *. simpl in *.
    rewrite Es in Hstore.
    destruct (build_store_inv _ _ _ _ Hstore) as (_ & Hle & _ & _ & Heq).
    rewrite combine_seq_length in Hle, Heq. rewrite combine_seq_keys in Heq.
    unfold S3Report.__len__, py_len. rewrite K1.
    split; [exact K3|]. split; [exact K4|]. split; [exact K5|].
    split; [rewrite K2; split; discriminate|].
    split; [lia|]. intros Hd. rewrite (Heq Hd). reflexivity.
Qed.

Lemma report_length_witness :
  exists rep,
    S3Report.__init__ example_resource (Some "region") (Some "status")
      [(Some "id", Some "count")] = Ok rep /\
    S3Report.__len__ rep = 3.
Proof.
  eexists.
  assert (H : S3Report.__init__ example_resource (Some "region") (Some "status")
                [(Some "id", Some "count")] = Ok ?[rep])
    by (vm_compute; reflexivity).
  split; [exact H|].
  destruct (report_length _ _ _ _ _ H) as (_ & _ & _ & _ & _ & Hd).
  apply Hd. vm_compute. repeat constructor.
Defined.

(** X11: over a non-empty record set whose primary key the resource has
    not resolved, the constructor ends in a KeyError, whatever the layers. *)
Theorem init_key_error (resource : Resource) (rows cols : option string)
        (lays : list layer)
        (Hdim : given rows = true \/ given cols = true)
        (Hrecs : sqltable resource <> [])
        (Hkey : dict_get (resolved resource) (pkey_name resource) = None) :
  S3Report.__init__ resource rows cols lays = Raise KeyError.
Proof.
  unfold S3Report.__init__.
  assert (Eg : negb (given rows) && negb (given cols) = false)
    by (destruct Hdim as [-> | ->]; simpl; auto using andb_false_r).
  rewrite Eg. cbv zeta.
  destruct (sqltable resource) as [|r0 recs]; [contradiction|].
  unfold S3Report.build_store. simpl.
  rewrite (extract_unresolved _ r0 _ Hkey). reflexivity.
Qed.

Lemma init_key_error_witness :
  S3Report.__init__ (mkResource "uid" example_lfields (sqltable example_resource))
    (Some "region") None [(Some "id", Some "count")]
  = Raise KeyError.
Proof.
  apply init_key_error; [left; reflexivity | discriminate | reflexivity].
Defined.

(** ** The fields to retrieve *)

Lemma opt_str_eqb_eq (a b : option string) : opt_str_eqb a b = true <-> a = b.
Proof.
  destruct a as [s|], b as [t|]; simpl; split; intros H;
    try discriminate; try reflexivity.
  - apply String.eqb_eq in H. congruence.
  - inversion H. apply String.eqb_refl.
Qed.

Lemma append_new_in (l : list (option string)) (x y : option string) :
  In y (S3Report.append_new l x) <-> In y l \/ y = x.
Proof.
  unfold S3Report.append_new.
  destruct (existsb (opt_str_eqb x) l) eqn:E.
  - split; [auto|]. intros [H| ->]; [exact H|].
    apply existsb_exists in E. destruct E as (z & Hz & Ez).
    apply opt_str_eqb_eq in Ez. subst. exact Hz.
  - rewrite in_app_iff. simpl. split.
    + intros [H|[H|[]]]; auto.
    + intros [H|H]; auto.
Qed.

Lemma append_new_NoDup (l : list (option string)) (x : option string) :
  NoDup l -> NoDup (S3Report.append_new l x).
Proof.
  unfold S3Report.append_new. intros H.
  destruct (existsb (opt_str_eqb x) l) eqn:E; [exact H|].
  apply NoDup_app; [exact H | repeat constructor; intros [] |].
  intros y Hy [E'|[]]. subst y.
  assert (existsb (opt_str_eqb x) l = true).
  { apply existsb_exists. exists x. split; [exact Hy | apply opt_str_eqb_eq; reflexivity]. }
  congruence.
Qed.

Lemma append_new_prefix (l : list (option string)) (x : option string) :
  exists rest, S3Report.append_new l x = l ++ rest.
Proof.
  unfold S3Report.append_new. destruct (existsb _ _).
  - exists []. rewrite app_nil_r. reflexivity.
  - exists [x]. reflexivity.
Qed.

Lemma layer_facts_in (lays : list layer) (r : list (option string))
      (y : option string) :
  In y (fold_left (fun rf (fm : layer) => S3Report.append_new rf (fst fm)) lays r)
  <-> In y r \/ In y (map fst lays).
Proof.
  revert r; induction lays as [|fm lays IH]; intros r; simpl.
  - tauto.
  - rewrite IH, append_new_in. split; intros H; intuition auto.
Qed.

Lemma layer_facts_NoDup (lays : list layer) (r : list (option string)) :
  NoDup r ->
  NoDup (fold_left (fun rf (fm : layer) => S3Report.append_new rf (fst fm)) lays r).
Proof.
  revert r; induction lays as [|fm lays IH]; intros r H; simpl; [exact H|].
  apply IH, append_new_NoDup, H.
Qed.

Lemma layer_facts_prefix (lays : list layer) (r : list (option string)) :
  exists rest,
    fold_left (fun rf (fm : layer) => S3Report.append_new rf (fst fm)) lays r
    = r ++ rest.
Proof.
  revert r; induction lays as [|fm lays IH]; intros r; simpl.
  - exists []. rewrite app_nil_r. reflexivity.
  - destruct (IH (S3Report.append_new r (fst fm))) as (rest & ->).
    destruct (append_new_prefix r (fst fm)) as (rest0 & ->).
    exists (rest0 ++ rest). rewrite app_assoc. reflexivity.
Qed.

Lemma given_selector (sel : option string) :
  given sel = true -> sel = Some (selector sel).
Proof. destruct sel; simpl; [reflexivity | discriminate]. Qed.

(** X12: the fields to retrieve start with the configured fields, in their
    order; they hold, beside these, the dimensions that are given, the
    primary key and the fact of every layer, and nothing else; no field is
    added twice; and every field that groups the records is retrieved. *)
Theorem rfields_cover (fields : list (option string)) (pkey : string)
        (rows cols : option string) (lays : list layer) :
  let rfields := S3Report._get_rfields fields pkey rows cols lays in
  (exists rest, rfields = fields ++ rest) /\
  (NoDup fields -> NoDup rfields) /\
  (forall f, In f rfields <->
             In f fields \/ (given rows = true /\ f = rows) \/
             (given cols = true /\ f = cols) \/ f = Some pkey \/
             In f (map fst lays)) /\
  (forall f, In f (S3Report._get_fields pkey rows cols) -> In (Some f) rfields).
Proof.
  assert (Hin : forall f,
            In f (S3Report._get_rfields fields pkey rows cols lays) <->
            In f fields \/ (given rows = true /\ f = rows) \/
            (given cols = true /\ f = cols) \/ f = Some pkey \/
            In f (map fst lays)).
  { intros f. unfold S3Report._get_rfields. cbv zeta.
    rewrite layer_facts_in, append_new_in.
    destruct (given rows) eqn:Er; destruct (given cols) eqn:Ec;
      rewrite ?append_new_in; split; intros H;
      repeat match goal with
             | H : _ \/ _ |- _ => destruct H
             | H : _ /\ _ |- _ => destruct H
             end; try discriminate; auto 10. }
  cbv zeta. split; [|split; [|split; [exact Hin|]]].
  - unfold S3Report._get_rfields. cbv zeta.
    match goal with
    | |- exists rest, fold_left _ lays ?X = _ =>
        destruct (layer_facts_prefix lays X) as (r3 & E3);
        assert (E2 : exists r, X = fields ++ r)
    end.
    { destruct (given rows); destruct (given cols);
        repeat match goal with
               | |- context [S3Report.append_new ?l ?x] =>
                   let r := fresh "r" in
                   destruct (append_new_prefix l x) as (r & ->)
               end;
        rewrite <- ?app_assoc; eexists; reflexivity. }
    destruct E2 as (r2 & E2). exists (r2 ++ r3).
    refine (eq_trans E3 _). rewrite E2, app_assoc. reflexivity.
  - intros Hnd. unfold S3Report._get_rfields. cbv zeta.
    apply layer_facts_NoDup, append_new_NoDup.
    destruct (given rows); destruct (given cols);
      repeat apply append_new_NoDup; exact Hnd.
  - intros f Hf. apply Hin. unfold S3Report._get_fields in Hf. cbv zeta in Hf.
    assert (Hcases : (given rows = true /\ f = selector rows) \/
                     (given cols = true /\ f = selector cols) \/ f = pkey).
    { destruct (given rows) eqn:Er; destruct (given cols) eqn:Ec; simpl in Hf;
        repeat match type of Hf with
               | context [if ?b then _ else _] => destruct b
               end;
        simpl in Hf; repeat (apply in_app_or in Hf; simpl in Hf);
        intuition auto. }
    destruct Hcases as [[E ->]|[[E ->]| ->]].
    + right; left. split; [exact E | symmetry; apply given_selector, E].
    + right; right; left. split; [exact E | symmetry; apply given_selector, E].
    + auto.
Qed.

(** ** The totals of the contingency table *)

Lemma length_or_zero_count (raw v : value) :
  S3ContingencyTable.length_or_zero raw = Ok v -> exists n, v = VInt n /\ 0 <= n.
Proof.
  unfold S3ContingencyTable.length_or_zero.
  destruct (truthy raw); [|intros H; inversion H; exists 0; split; [reflexivity | lia]].
  destruct raw; intros H; inversion H; eexists; (split; [reflexivity|]);
    unfold py_len; lia.
Qed.

Lemma totals_loop (represent : value -> string) (values : list (layer * value))
      (lays : list layer) (ts ts' : list string) (a a' : option (list value)) :
  for_each lays
    (fun (st : list string * option (list value)) lay =>
       value <- match layer_get values lay with
                | Some v => Ok v
                | None => Raise KeyError
                end ;;
       value <- (if opt_str_eqb (snd lay) (Some "list")
                 then S3ContingencyTable.length_or_zero value else Ok value) ;;
       let append :=
         match fst st, snd st with
         | [], Some collected => Some (collected ++ [value])
         | _, a => a
         end in
       Ok (fst st ++ [represent value], append))
    (ts, a) = Ok (ts', a') ->
  exists vs,
    Forall2 (shown values) lays vs /\
    ts' = ts ++ map represent vs /\
    a' = match ts, a, vs with
         | [], Some c, v :: _ => Some (c ++ [v])
         | _, _, _ => a
         end.
Proof.
  revert ts a; induction lays as [|lay lays IH]; intros ts a H; simpl in H.
  - inversion H; subst. exists []. split; [constructor|].
    rewrite app_nil_r. split; [reflexivity|]. destruct ts', a'; reflexivity.
  - apply bind_Ok in H. destruct H as ([ts1 a1] & Hstep & Hrest).
    apply bind_Ok in Hstep. destruct Hstep as (raw & Hraw & Hstep).
    apply bind_Ok in Hstep. destruct Hstep as (v & Hv & Hstep).
    cbv zeta in Hstep. cbn [fst snd] in Hstep. inversion Hstep; subst; clear Hstep.
    destruct (IH _ _ Hrest) as (vs & Hvs & -> & ->).
    exists (v :: vs). split; [|split].
    + constructor; [|exact Hvs]. exists raw. split.
      * destruct (layer_get values lay); inversion Hraw; reflexivity.
      * destruct (opt_str_eqb (snd lay) (Some "list"));
          [exact Hv | inversion Hv; reflexivity].
    + rewrite <- app_assoc. reflexivity.
    + destruct ts as [|t ts]; simpl; [destruct a; reflexivity|].
      destruct a; reflexivity.
Qed.

(** X13: when [_totals] returns, every layer has a value in the header: its
    aggregate, or for a list layer its length, a number that is not
    negative; the text shows these values in the order of the layers; and
    the callback has received one value, that of the first layer, or none
    when there is no layer. *)
Theorem totals_first_layer (represent : value -> string)
        (values : list (layer * value)) (lays : list layer)
        (append : option (list value)) (txt : string)
        (append' : option (list value))
        (Hret : S3ContingencyTable._totals represent values lays append
                = Ok (txt, append')) :
  exists vs,
    Forall2 (shown values) lays vs /\
    (forall lay v, In (lay, v) (combine lays vs) -> snd lay = Some "list" ->
                   exists n, v = VInt n /\ 0 <= n) /\
    txt = S3ContingencyTable.py_join " / " (map represent vs) /\
    append' = match append, vs with
              | Some collected, v :: _ => Some (collected ++ [v])
              | _, _ => append
              end.
Proof.
  unfold S3ContingencyTable._totals in Hret.
  apply bind_Ok in Hret. destruct Hret as ([ts a] & Hloop & Hret).
  inversion Hret; subst; clear Hret.
  destruct (totals_loop _ _ _ _ _ _ _ Hloop) as (vs & Hvs & -> & ->).
  exists vs. split; [exact Hvs|]. split; [|split; [reflexivity|]].
  - clear Hloop. induction Hvs as [|lay0 v0 lays0 vs0 H0 Hr IH]; intros lay v Hin Hl.
    + contradiction.
    + destruct Hin as [E|Hin]; [|exact (IH lay v Hin Hl)].
      inversion E; subst. destruct H0 as (raw & _ & H0).
      rewrite Hl in H0. simpl in H0. exact (length_or_zero_count _ _ H0).
  - destruct append, vs; reflexivity.
Qed.

Lemma totals_first_layer_witness :
  exists vs,
    Forall2 (shown [((Some "id", Some "list"), VList [VInt 1; VInt 2]);
                    ((Some "id", Some "sum"), VInt 3)])
            [(Some "id", Some "list"); (Some "id", Some "sum")] vs /\
    Some [VInt 2]
    = match Some [], vs with
      | Some collected, v :: _ => Some (collected ++ [v])
      | _, _ => Some []
      end.
Proof.
  assert (H : S3ContingencyTable._totals (fun _ => "n"%string)
                [((Some "id", Some "list"), VList [VInt 1; VInt 2]);
                 ((Some "id", Some "sum"), VInt 3)]
                [(Some "id", Some "list"); (Some "id", Some "sum")] (Some [])
              = Ok ("n / n"%string, Some [VInt 2])) by reflexivity.
  destruct (totals_first_layer _ _ _ _ _ _ H) as (vs & Hvs & _ & _ & Ha).
  exists vs. split; [exact Hvs | exact Ha].
Defined.

(** ** The layers of a request *)

Lemma py_split_not_nil (sep : ascii) (s : string) : S3Cube.py_split sep s <> [].
Proof.
  destruct s as [|c s]; simpl; [discriminate|].
  destruct (Ascii.eqb c sep); [discriminate|].
  destruct (S3Cube.py_split sep s); discriminate.
Qed.

Lemma py_split_plain (sep : ascii) (s : string) :
  has_char sep s = false -> S3Cube.py_split sep s = [s].
Proof.
  induction s as [|c s IH]; simpl; intros H; [reflexivity|].
  apply orb_false_elim in H. destruct H as [H1 H2].
  rewrite H1, (IH H2). reflexivity.
Qed.

Lemma py_split_app (sep : ascii) (a b : string) :
  has_char sep a = false ->
  S3Cube.py_split sep (a ++ String sep b) = a :: S3Cube.py_split sep b.
Proof.
  induction a as [|c a IH]; simpl; intros H.
  - rewrite Ascii.eqb_refl. reflexivity.
  - apply orb_false_elim in H. destruct H as [H1 H2].
    rewrite H1, (IH H2). reflexivity.
Qed.

Lemma py_split_join (sep : ascii) (l : list string) :
  l <> [] -> Forall (fun x => has_char sep x = false) l ->
  S3Cube.py_split sep (S3ContingencyTable.py_join (String sep "") l) = l.
Proof.
  induction l as [|x l IH]; intros Hne Hall; [contradiction|].
  inversion Hall as [|? ? Hx Hl]; subst.
  destruct l as [|y l].
  - simpl. apply py_split_plain, Hx.
  - change (S3ContingencyTable.py_join (String sep "") (x :: y :: l))
      with (x ++ String sep (S3ContingencyTable.py_join (String sep "") (y :: l)))%string.
    rewrite (py_split_app sep x _ Hx), IH; [reflexivity | discriminate | exact Hl].
Qed.

Lemma py_split_pieces (sep : ascii) (s : string) :
  Forall (fun x => has_char sep x = false) (S3Cube.py_split sep s) /\
  S3ContingencyTable.py_join (String sep "") (S3Cube.py_split sep s) = s.
Proof.
  induction s as [|c s [IH1 IH2]]; simpl.
  - split; [repeat constructor | reflexivity].
  - destruct (Ascii.eqb c sep) eqn:E.
    + apply Ascii.eqb_eq in E. subst c. split; [constructor; [reflexivity | exact IH1]|].
      pose proof (py_split_not_nil sep s) as Hne.
      destruct (S3Cube.py_split sep s) as [|p ps]; [contradiction|].
      change (S3ContingencyTable.py_join (String sep "") ("" :: p :: ps))%string
        with (String sep (S3ContingencyTable.py_join (String sep "") (p :: ps))).
      rewrite IH2. reflexivity.
    + pose proof (py_split_not_nil sep s) as Hne.
      destruct (S3Cube.py_split sep s) as [|p ps]; [contradiction|].
      apply Forall_cons_iff in IH1. destruct IH1 as [Hp Hps]. split.
      * constructor; [simpl; rewrite E, Hp; reflexivity | exact Hps].
      * rewrite <- IH2. destruct ps; reflexivity.
Qed.

Lemma py_split_once_app (sep : ascii) (a b : string) :
  has_char sep a = false ->
  S3Cube.py_split_once sep (a ++ String sep b) = Some (a, b).
Proof.
  induction a as [|c a IH]; simpl; intros H.
  - rewrite Ascii.eqb_refl. reflexivity.
  - apply orb_false_elim in H. destruct H as [H1 H2].
    rewrite H1, (IH H2). reflexivity.
Qed.

Lemma py_split_once_some (sep : ascii) (s a b : string) :
  S3Cube.py_split_once sep s = Some (a, b) ->
  s = (a ++ String sep b)%string /\ has_char sep a = false.
Proof.
  revert a; induction s as [|c s IH]; simpl; intros a H; [discriminate|].
  destruct (Ascii.eqb c sep) eqn:E.
  - inversion H; subst. apply Ascii.eqb_eq in E. subst. split; reflexivity.
  - destruct (S3Cube.py_split_once sep s) as [[a' b']|]; [|discriminate].
    inversion H; subst. destruct (IH a' eq_refl) as [-> Ha].
    split; [reflexivity | simpl; rewrite E, Ha; reflexivity].
Qed.

Lemma py_split_once_none (sep : ascii) (s : string) :
  S3Cube.py_split_once sep s = None -> has_char sep s = false.
Proof.
  induction s as [|c s IH]; simpl; intros H; [reflexivity|].
  destruct (Ascii.eqb c sep); [discriminate|].
  destruct (S3Cube.py_split_once sep s) as [[a b]|]; [discriminate|].
  exact (IH eq_refl).
Qed.

Lemma has_char_app (c : ascii) (a b : string) :
  has_char c (a ++ b) = has_char c a || has_char c b.
Proof.
  induction a as [|d a IH]; simpl; [reflexivity|].
  rewrite IH, orb_assoc. reflexivity.
Qed.

Lemma fact_layers_texts (aggregate : string) (ls : list (string * string)) :
  ls <> [] ->
  Forall (fun l => has_char "," (fst l) = false /\
                   has_char "," (snd l) = false /\
                   has_char ":" (snd l) = false) ls ->
  fact_layers aggregate (S3ContingencyTable.py_join "," (map layer_text ls))
  = map (fun l => (Some (fst l), Some (snd l))) ls.
Proof.
  intros Hne Hall. unfold fact_layers.
  rewrite py_split_join.
  - rewrite map_map. apply map_ext_in. intros [f m] Hin.
    rewrite Forall_forall in Hall. destruct (Hall _ Hin) as (_ & _ & Hm).
    unfold layer_text. simpl in *.
    rewrite (py_split_once_app ":" m f Hm). reflexivity.
  - destruct ls; [contradiction | discriminate].
  - apply Forall_map. revert Hall. apply Forall_impl.
    intros [f m] (Hf & Hm & _). unfold layer_text. simpl in *.
    rewrite has_char_app, Hm. simpl. exact Hf.
Qed.

(** X14: a request that names its layers as [method:fact], separated by
    commas, is read back as these layers, whatever the default method. *)
Theorem request_layers_parse (ls : list (string * string))
        (aggregate : option string) (has_name : bool) (pkey : string)
        (Hne : ls <> [])
        (Hall : Forall (fun l => has_char "," (fst l) = false /\
                                 has_char "," (snd l) = false /\
                                 has_char ":" (snd l) = false) ls) :
  S3Cube.request_layers
    (S3Cube.FStr (S3ContingencyTable.py_join "," (map layer_text ls)))
    aggregate has_name pkey
  = map (fun l => (Some (fst l), Some (snd l))) ls.
Proof.
  pose proof (fact_layers_texts
                (if given aggregate then selector aggregate else "list"%string)
                ls Hne Hall) as H.
  unfold S3Cube.request_layers. cbv zeta.
  destruct (S3ContingencyTable.py_join "," (map layer_text ls)) as [|c f] eqn:E.
  - exfalso. destruct ls as [|l ls]; [contradiction|].
    assert (Hc : has_char ":" (S3ContingencyTable.py_join "," (map layer_text (l :: ls)))
                 = true).
    { destruct ls; simpl; unfold layer_text;
        rewrite !has_char_app; simpl; rewrite orb_true_r; reflexivity. }
    rewrite E in Hc. discriminate.
  - simpl. rewrite app_nil_r. exact H.
Qed.

Lemma request_layers_parse_witness :
  S3Cube.request_layers (S3Cube.FStr "sum:amount,count:id") None true "id"
  = [(Some "amount", Some "sum"); (Some "id", Some "count")].
Proof.
  apply (request_layers_parse [("amount", "sum"); ("id", "count")]%string
                              None true "id"%string).
  - discriminate.
  - repeat constructor.
Defined.

(** X15: every layer of a request has a fact and a method; the fact holds
    no comma; the method is the default one, and then the fact holds no
    colon, or it holds neither colon nor comma; a fact given as a text
    yields one layer for each of its pieces between commas; and there is a
    layer as soon as the request names a fact, the table has a field
    "name", or the primary key has a name. *)
Theorem request_layers_shape (fact : S3Cube.form_value)
        (aggregate : option string) (has_name : bool) (pkey : string) :
  let default := if given aggregate then selector aggregate else "list"%string in
  let ls := S3Cube.request_layers fact aggregate has_name pkey in
  (forall lay, In lay ls ->
     exists f m,
       lay = (Some f, Some m) /\ has_char "," f = false /\
       ((m = default /\ has_char ":" f = false) \/
        (has_char ":" m = false /\ has_char "," m = false))) /\
  (forall f, fact = S3Cube.FStr f -> f <> ""%string ->
     ls = fact_layers default f /\
     List.length ls = List.length (S3Cube.py_split "," f)) /\
  ((has_name = true \/ pkey <> ""%string \/
    (exists f, fact = S3Cube.FStr f /\ f <> ""%string) \/
    (exists fs, fact = S3Cube.FList fs /\ fs <> [])) -> ls <> []).
Proof.
  cbv zeta.
  set (default := if given aggregate then selector aggregate else "list"%string).
  assert (Hshape : forall f lay, In lay (fact_layers default f) ->
     exists f' m,
       lay = (Some f', Some m) /\ has_char "," f' = false /\
       ((m = default /\ has_char ":" f' = false) \/
        (has_char ":" m = false /\ has_char "," m = false))).
  { intros f lay Hin. unfold fact_layers in Hin. apply in_map_iff in Hin.
    destruct Hin as (l & <- & Hl).
    pose proof (proj1 (py_split_pieces "," f)) as Hp.
    rewrite Forall_forall in Hp. specialize (Hp l Hl).
    destruct (S3Cube.py_split_once ":" l) as [[m f']|] eqn:E.
    - apply py_split_once_some in E. destruct E as [-> Hm].
      rewrite has_char_app in Hp. apply orb_false_elim in Hp.
      destruct Hp as [Hp1 Hp2]. simpl in Hp2.
      exists f', m. split; [reflexivity|]. split; [exact Hp2|]. right. auto.
    - apply py_split_once_none in E.
      exists l, default. split; [reflexivity|]. split; [exact Hp|]. left. auto. }
  assert (Hflat : forall facts,
            flat_map (fact_layers default) facts <> [] \/ facts = []).
  { intros [|f facts]; [right; reflexivity | left]. simpl. unfold fact_layers.
    pose proof (py_split_not_nil "," f) as Hne.
    destruct (S3Cube.py_split "," f); [contradiction | discriminate]. }
  assert (Hall : forall facts lay, In lay (flat_map (fact_layers default) facts) ->
     exists f' m,
       lay = (Some f', Some m) /\ has_char "," f' = false /\
       ((m = default /\ has_char ":" f' = false) \/
        (has_char ":" m = false /\ has_char "," m = false))).
  { intros facts lay Hin. apply in_flat_map in Hin.
    destruct Hin as (f & _ & Hin). exact (Hshape f lay Hin). }
  split; [|split].
  - intros lay Hin. unfold S3Cube.request_layers in Hin. cbv zeta in Hin.
    exact (Hall _ lay Hin).
  - intros f -> Hf. destruct f as [|c f]; [contradiction|].
    unfold S3Cube.request_layers. cbv zeta. simpl flat_map. rewrite app_nil_r.
    split; [reflexivity|]. unfold fact_layers. apply length_map.
  - intros H. unfold S3Cube.request_layers. cbv zeta.
    match goal with
    | |- flat_map _ ?facts <> [] =>
        destruct (Hflat facts) as [Hne|Hnil]; [exact Hne|]; exfalso
    end.
    destruct fact as [|[|c f]|[|f fs]]; try discriminate Hnil;
      destruct has_name; try discriminate Hnil;
      destruct pkey; try discriminate Hnil;
      destruct H as [H|[H|[(f0 & H & Hf)|(fs0 & H & Hf)]]];
      try discriminate H; try (apply H; reflexivity);
      inversion H; subst; apply Hf; reflexivity.
Qed.

(** ** The methods the form offers *)

Lemma cube_method_supported (T : string -> string) (m : string) :
  dict_get (S3Cube.METHODS T) m <> None <-> In m S3Report.METHODS.
Proof.
  unfold S3Cube.METHODS, S3Report.METHODS. simpl.
  split.
  - intros H.
    repeat match type of H with
           | context [String.eqb ?a ?b] =>
               let E := fresh "E" in
               destruct (String.eqb a b) eqn:E;
               [apply String.eqb_eq in E; subst; tauto|]
           end.
    contradiction.
  - intros H.
    repeat (destruct H as [<-|H]; [simpl; discriminate|]). contradiction.
Qed.

(** X16: the form names exactly the methods the report engine supports:
    [mname] knows a method if and only if it is one of [S3Report.METHODS],
    an absent code stands for "list", and every option of the method
    selector is a supported method, named as [mname] names it up to the
    translator; of the configured methods the selector keeps the supported
    ones, in their order. *)
Theorem method_names (T : string -> string) :
  (forall m, S3Cube.mname T (Some m) <> None <-> In m S3Report.METHODS) /\
  S3Cube.mname T None = S3Cube.mname T (Some "list"%string) /\
  (forall methods m label,
     In (m, label) (S3Cube.method_options T methods) ->
     In m S3Report.METHODS /\ S3Cube.mname T (Some m) = Some (T label)) /\
  (forall ms, ms <> [] ->
     map fst (S3Cube.method_options T (Some ms))
     = filter (fun m => existsb (String.eqb m) S3Report.METHODS) ms).
Proof.
  assert (Hkey : forall m label,
            In (m, label) (S3Cube.METHODS T) ->
            dict_get (S3Cube.METHODS T) m = Some label).
  { intros m label H. unfold S3Cube.METHODS in *. simpl in H.
    repeat (destruct H as [H|H]; [inversion H; subst; reflexivity|]).
    contradiction. }
  assert (Hopt : forall m label,
            dict_get (S3Cube.METHODS T) m = Some label ->
            In m S3Report.METHODS /\ S3Cube.mname T (Some m) = Some (T label)).
  { intros m label H. split.
    - apply (cube_method_supported T). rewrite H. discriminate.
    - unfold S3Cube.mname. rewrite H. reflexivity. }
  split; [|split; [reflexivity|split]].
  - intros m. rewrite <- (cube_method_supported T m). unfold S3Cube.mname.
    destruct (dict_get (S3Cube.METHODS T) m); split; intros H; try discriminate;
      try (exfalso; apply H; reflexivity).
  - intros methods m label Hin. apply Hopt.
    unfold S3Cube.method_options in Hin.
    destruct methods as [[|m0 ms]|]; try (apply Hkey; exact Hin).
    apply in_flat_map in Hin. destruct Hin as (x & _ & Hin).
    destruct (dict_get (S3Cube.METHODS T) x) as [l|] eqn:E; [|contradiction].
    destruct Hin as [Hin|[]]. inversion Hin; subst. exact E.
  - intros ms Hne. unfold S3Cube.method_options.
    destruct ms as [|m0 ms]; [contradiction|].
    generalize (m0 :: ms). clear. intros ms.
    induction ms as [|m ms IH]; [reflexivity|].
    cbn [flat_map filter]. rewrite map_app, IH.
    destruct (dict_get (S3Cube.METHODS T) m) as [l|] eqn:E.
    + assert (Hin : In m S3Report.METHODS)
        by (apply (cube_method_supported T); rewrite E; discriminate).
      assert (Hex : existsb (String.eqb m) S3Report.METHODS = true).
      { apply existsb_exists. exists m. split; [exact Hin | apply String.eqb_refl]. }
      rewrite Hex. reflexivity.
    + assert (Hex : existsb (String.eqb m) S3Report.METHODS = false).
      { destruct (existsb (String.eqb m) S3Report.METHODS) eqn:Ex; [|reflexivity].
        apply existsb_exists in Ex. destruct Ex as (x & Hx & Ex).
        apply String.eqb_eq in Ex. subst x.
        apply (cube_method_supported T) in Hx. contradiction. }
      rewrite Hex. reflexivity.
Qed.

(** ** The aggregates of the layers *)

Lemma layer_eqb_eq (a b : layer) : layer_eqb a b = true <-> a = b.
Proof.
  destruct a as [f m], b as [f' m']. unfold layer_eqb. simpl.
  rewrite andb_true_iff, !opt_str_eqb_eq. split.
  - intros [-> ->]. reflexivity.
  - intros H. inversion H. auto.
Qed.

Lemma layer_get_set_other (d : list (layer * value)) (k k' : layer) (v : value) :
  layer_eqb k' k = false -> layer_get (layer_set d k v) k' = layer_get d k'.
Proof.
  intros Hne. induction d as [|[k0 v0] d IH]; simpl.
  - rewrite Hne. reflexivity.
  - destruct (layer_eqb k k0) eqn:E; simpl.
    + apply layer_eqb_eq in E. subst k0. rewrite Hne. reflexivity.
    + rewrite IH. reflexivity.
Qed.

Lemma layer_set_keeps (d : list (layer * value)) (k k' : layer) (v : value) :
  layer_get d k' <> None -> layer_get (layer_set d k v) k' <> None.
Proof.
  destruct (layer_eqb k' k) eqn:E.
  - apply layer_eqb_eq in E. subst. rewrite layer_get_set. discriminate.
  - rewrite (layer_get_set_other d k k' v E). trivial.
Qed.

Lemma same_but_refl (lay : layer) (f : layer -> option value) : same_but lay f f.
Proof. split; auto. Qed.

Lemma same_but_trans (lay : layer) (f g h : layer -> option value) :
  same_but lay f g -> same_but lay g h -> same_but lay f h.
Proof.
  intros [H1 H2] [K1 K2]. split.
  - intros lay0 E. rewrite (K1 lay0 E). exact (H1 lay0 E).
  - intros lay0 E. exact (K2 lay0 (H2 lay0 E)).
Qed.

Lemma same_but_eq (lay : layer) (f g : layer -> option value) :
  (forall lay0, g lay0 = f lay0) -> same_but lay f g.
Proof. intros H. split; intros lay0 E; rewrite H; trivial. Qed.

Lemma same_but_set (lay : layer) (d : list (layer * value)) (v : value)
      (f g : layer -> option value) :
  (forall lay0, f lay0 = layer_get d lay0) ->
  (forall lay0, g lay0 = layer_get (layer_set d lay v) lay0) ->
  same_but lay f g /\ g lay <> None.
Proof.
  intros Hf Hg. split; [split|].
  - intros lay0 E. rewrite Hg, Hf. apply layer_get_set_other, E.
  - intros lay0 E. rewrite Hg. apply layer_set_keeps. rewrite <- Hf. exact E.
  - rewrite Hg, layer_get_set. discriminate.
Qed.

Lemma frame_rel_refl (lay : layer) (a : S3Report.frame) : frame_rel lay a a.
Proof. repeat split; auto. Qed.

Lemma frame_rel_trans (lay : layer) (a b c : S3Report.frame) :
  frame_rel lay a b -> frame_rel lay b c -> frame_rel lay a c.
Proof.
  intros (H1 & H2 & H3) (K1 & K2 & K3).
  split; [|split]; intros; eapply same_but_trans; eauto.
Qed.

Lemma header_total_set (hs : option (list AxisEntry)) (n m : nat)
      (e0 e : AxisEntry) (lay0 : layer) :
  S3Report.axis_get hs n = Ok e0 ->
  header_total (S3Report.axis_set hs n e) m lay0
  = if Nat.eqb n m then layer_get (e_layers e) lay0 else header_total hs m lay0.
Proof.
  destruct hs as [l|]; simpl; [|discriminate].
  intros H. apply list_get_Ok in H.
  destruct (Nat.eqb_spec n m) as [<-|Hne].
  - rewrite (list_set_same l n e e0 H). reflexivity.
  - rewrite (list_set_other l n m e Hne). reflexivity.
Qed.

Lemma header_total_get (hs : option (list AxisEntry)) (n : nat)
      (e0 : AxisEntry) (lay0 : layer) :
  S3Report.axis_get hs n = Ok e0 ->
  header_total hs n lay0 = layer_get (e_layers e0) lay0.
Proof.
  destruct hs as [l|]; simpl; [|discriminate].
  intros H. apply list_get_Ok in H. rewrite H. reflexivity.
Qed.

(** Replacing a header by one with the same aggregates changes no
    aggregate. *)
Lemma header_total_same (hs : option (list AxisEntry)) (n m : nat)
      (e0 e : AxisEntry) (lay0 : layer) :
  S3Report.axis_get hs n = Ok e0 -> e_layers e = e_layers e0 ->
  header_total (S3Report.axis_set hs n e) m lay0 = header_total hs m lay0.
Proof.
  intros H E. rewrite (header_total_set hs n m e0 e lay0 H).
  destruct (Nat.eqb_spec n m) as [<-|Hne]; [|reflexivity].
  rewrite E. symmetry. apply header_total_get, H.
Qed.

Lemma cell_step_layers (self : S3Report.t) (pt : PivotTable) (pkey : string)
      (method : option string) (lay : layer) (r c : nat)
      (fr fr' : S3Report.frame) :
  S3Report.cell_step self pt pkey method lay r fr c = Ok fr' ->
  exists col0 row0 col1 row1 cell_row cell0 ids v,
    S3Report.axis_get (S3Report.f_cols fr) c = Ok col0 /\
    S3Report.axis_get (S3Report.f_rows fr) r = Ok row0 /\
    nth_error (S3Report.f_cells fr) r = Some cell_row /\
    nth_error cell_row c = Some cell0 /\
    S3Report.f_cells fr'
    = list_set (S3Report.f_cells fr) r
        (list_set cell_row c
           (mkCell (Some ids) (layer_set (c_layers cell0) lay v))) /\
    S3Report.f_rows fr' = S3Report.axis_set (S3Report.f_rows fr) r row1 /\
    e_layers row1 = e_layers row0 /\
    S3Report.f_cols fr' = S3Report.axis_set (S3Report.f_cols fr) c col1 /\
    e_layers col1 = e_layers col0.
Proof.
  unfold S3Report.cell_step. intros H.
  apply bind_Ok in H. destruct H as (col0 & Hcol & H).
  apply bind_Ok in H. destruct H as (cell_row & Hcr & H).
  apply bind_Ok in H. destruct H as (cell0 & Hc0 & H).
  apply bind_Ok in H. destruct H as (ids & Hids & H).
  apply bind_Ok in H. destruct H as (row0 & Hrow & H).
  apply list_get_Ok in Hcr. apply list_get_Ok in Hc0.
  destruct (S3Report.f_fact fr) as [fact|] eqn:Ef.
  - apply bind_Ok in H. destruct H as ([values objs] & Hv & H).
    apply bind_Ok in H. destruct H as (v & Hagg & H).
    inversion H; subst; clear H. simpl.
    eexists col0, row0, _, _, cell_row, cell0, ids, v.
    repeat split; try eassumption; try reflexivity.
    destruct (S3Report.row_values_is_records fr); reflexivity.
  - apply bind_Ok in H. destruct H as (all_values & Hk & H).
    apply bind_Ok in H. destruct H as (v & Hagg & H).
    inversion H; subst; clear H. simpl.
    eexists col0, row0, _, _, cell_row, cell0, ids, v.
    repeat split; try eassumption; reflexivity.
Qed.

Lemma cell_step_rel (self : S3Report.t) (pt : PivotTable) (pkey : string)
      (method : option string) (lay : layer) (r c : nat)
      (fr fr' : S3Report.frame) :
  S3Report.cell_step self pt pkey method lay r fr c = Ok fr' ->
  frame_rel lay fr fr' /\ cells_layer (S3Report.f_cells fr') r c lay <> None.
Proof.
  intros H. apply cell_step_layers in H.
  destruct H as (col0 & row0 & col1 & row1 & cell_row & cell0 & ids & v
                 & Hc & Hr & Hnr & Hnc & Ecells & Erows & Elr & Ecols & Elc).
  assert (Hat : forall r' c' lay0,
            cells_layer (S3Report.f_cells fr') r' c' lay0
            = if Nat.eqb r r' && Nat.eqb c c'
              then layer_get (layer_set (c_layers cell0) lay v) lay0
              else cells_layer (S3Report.f_cells fr) r' c' lay0).
  { intros r' c' lay0. unfold cells_layer.
    rewrite Ecells, (cell_at_set _ _ _ _ r c r' c' Hnr Hnc).
    destruct (Nat.eqb r r' && Nat.eqb c c'); reflexivity. }
  assert (Hold : forall lay0,
            cells_layer (S3Report.f_cells fr) r c lay0
            = layer_get (c_layers cell0) lay0).
  { intros lay0. unfold cells_layer, cell_at. rewrite Hnr, Hnc. reflexivity. }
  split; [split; [|split]|].
  - intros r' c'.
    destruct (Nat.eqb r r' && Nat.eqb c c') eqn:E.
    + apply andb_prop in E. destruct E as [E1 E2].
      apply Nat.eqb_eq in E1. apply Nat.eqb_eq in E2. subst r' c'.
      apply (same_but_set lay (c_layers cell0) v); [exact Hold|].
      intros lay0. rewrite Hat, !Nat.eqb_refl. reflexivity.
    + apply same_but_eq. intros lay0. rewrite Hat, E. reflexivity.
  - intros n. apply same_but_eq. intros lay0. rewrite Erows.
    apply (header_total_same _ r n row0 row1 lay0 Hr Elr).
  - intros n. apply same_but_eq. intros lay0. rewrite Ecols.
    apply (header_total_same _ c n col0 col1 lay0 Hc Elc).
  - rewrite Hat, !Nat.eqb_refl, layer_get_set. discriminate.
Qed.

Lemma row_step_rel (self : S3Report.t) (pt : PivotTable) (pkey : string)
      (method : option string) (lay : layer) (ncols r : nat)
      (fr fr' : S3Report.frame) :
  S3Report.row_step self pt pkey method lay ncols fr r = Ok fr' ->
  frame_rel lay fr fr' /\
  (forall c, (c < ncols)%nat ->
             cells_layer (S3Report.f_cells fr') r c lay <> None) /\
  header_total (S3Report.f_rows fr') r lay <> None.
Proof.
  unfold S3Report.row_step. intros H.
  apply bind_Ok in H. destruct H as (row0 & Hrow & H).
  apply bind_Ok in H. destruct H as (fr1 & Hloop & H).
  apply bind_Ok in H. destruct H as (row1 & Hrow1 & H).
  apply bind_Ok in H. destruct H as (v & _ & H).
  inversion H; subst; clear H. simpl.
  pose proof (for_each_establishes
                (fun _ => True)
                (fun c st => cells_layer (S3Report.f_cells st) r c lay <> None)
                (frame_rel lay) (seq 0 ncols)
                (S3Report.cell_step self pt pkey method lay r)
                (frame_rel_refl lay) (frame_rel_trans lay)) as L.
  match type of Hloop with
  | for_each _ _ ?st0 = _ =>
      destruct (L (fun x a b M Q => proj2 (proj1 M r x) lay Q)
                  (fun st x st' _ _ Hs =>
                     conj I (let (M, Q) := cell_step_rel _ _ _ _ _ _ _ _ _ Hs in
                             conj Q M))
                  st0 fr1 I Hloop) as (_ & Q1 & M1);
      assert (M0 : frame_rel lay fr st0)
  end.
  { split; [|split]; simpl.
    - intros r' c'. apply same_but_refl.
    - intros n. apply same_but_eq. intros lay0.
      apply (header_total_same _ r n row0 _ lay0 Hrow). reflexivity.
    - intros n. apply same_but_refl. }
  pose proof (frame_rel_trans lay _ _ _ M0 M1) as M2.
  destruct (same_but_set lay (e_layers row1) v
              (header_total (S3Report.f_rows fr1) r)
              (header_total
                 (S3Report.axis_set (S3Report.f_rows fr1) r
                    (mkAxis (e_value row1) (e_records row1) None
                            (layer_set (e_layers row1) lay v))) r))
    as [Hs Hp].
  { intros lay0. apply header_total_get, Hrow1. }
  { intros lay0. rewrite (header_total_set _ r r row1 _ lay0 Hrow1), Nat.eqb_refl.
    reflexivity. }
  split; [|split; [|exact Hp]].
  - eapply frame_rel_trans; [exact M2|].
    split; [|split]; simpl.
    + intros r' c'. apply same_but_refl.
    + intros n. destruct (Nat.eqb_spec r n) as [<-|Hne]; [exact Hs|].
      apply same_but_eq. intros lay0.
      rewrite (header_total_set _ r n row1 _ lay0 Hrow1).
      destruct (Nat.eqb_spec r n); [contradiction | reflexivity].
    + intros n. apply same_but_refl.
  - intros c Hc. apply Q1. apply in_seq. lia.
Qed.

Lemma col_total_rel (method : option string) (lay : layer)
      (cs cs' : option (list AxisEntry)) (c : nat) :
  S3Report.col_total method lay cs c = Ok cs' ->
  (forall n, same_but lay (header_total cs n) (header_total cs' n)) /\
  header_total cs' c lay <> None.
Proof.
  unfold S3Report.col_total. intros H.
  apply bind_Ok in H. destruct H as (col0 & Hcol & H).
  destruct (e_values col0) as [vals|]; [|discriminate].
  apply bind_Ok in H. destruct H as (v & _ & H).
  inversion H; subst; clear H.
  destruct (same_but_set lay (e_layers col0) v
              (header_total cs c)
              (header_total
                 (S3Report.axis_set cs c
                    (mkAxis (e_value col0) (e_records col0) None
                            (layer_set (e_layers col0) lay v))) c))
    as [Hs Hp].
  { intros lay0. apply header_total_get, Hcol. }
  { intros lay0. rewrite (header_total_set _ c c col0 _ lay0 Hcol), Nat.eqb_refl.
    reflexivity. }
  split; [|exact Hp].
  intros n. destruct (Nat.eqb_spec c n) as [<-|Hne]; [exact Hs|].
  apply same_but_eq. intros lay0.
  rewrite (header_total_set _ c n col0 _ lay0 Hcol).
  destruct (Nat.eqb_spec c n); [contradiction | reflexivity].
Qed.

Lemma blank_cells_layer (nrows ncols r c : nat) (lay0 : layer) :
  cells_layer (repeat (repeat (mkCell None []) ncols) nrows) r c lay0 = None.
Proof.
  unfold cells_layer, cell_at.
  destruct (nth_error _ r) as [cell_row|] eqn:Er; [|reflexivity].
  apply nth_error_In, repeat_spec in Er. subst.
  destruct (nth_error _ c) as [cl|] eqn:Ec; [|reflexivity].
  apply nth_error_In, repeat_spec in Ec. subst. reflexivity.
Qed.

(** What one layer does to the aggregates of a report. *)
Lemma add_layer_layers (self self' : S3Report.t) (pkey : string)
      (pt : PivotTable) (fact method : option string) :
  S3Report._add_layer self pkey pt fact method = Ok self' ->
  (forall r c, same_but (fact, method) (cell_aggregate self r c)
                        (cell_aggregate self' r c)) /\
  (forall n, same_but (fact, method) (header_total (S3Report.row self) n)
                      (header_total (S3Report.row self') n)) /\
  (forall n, same_but (fact, method) (header_total (S3Report.col self) n)
                      (header_total (S3Report.col self') n)) /\
  same_but (fact, method) (grand_total self) (grand_total self') /\
  layer_complete (List.length (rnames pt)) (List.length (cnames pt)) self'
                 (fact, method).
Proof.
  unfold S3Report._add_layer. intros H.
  destruct (negb _); [discriminate|]. cbv zeta in H.
  apply bind_Ok in H. destruct H as (fr & Hrows & H).
  apply bind_Ok in H. destruct H as (cs & Hcols & H).
  apply bind_Ok in H. destruct H as (total & _ & H).
  inversion H; subst; clear H.
  set (lay := (fact, method)) in *.
  set (nrows := List.length (rnames pt)) in *.
  set (ncols := List.length (cnames pt)) in *.
  pose proof (for_each_establishes
                (fun _ => True)
                (fun r st =>
                   (forall c, (c < ncols)%nat ->
                              cells_layer (S3Report.f_cells st) r c lay <> None) /\
                   header_total (S3Report.f_rows st) r lay <> None)
                (frame_rel lay) (seq 0 nrows)
                (S3Report.row_step self pt pkey method lay ncols)
                (frame_rel_refl lay) (frame_rel_trans lay)) as L.
  match type of Hrows with
  | for_each _ _ ?st0 = _ =>
      destruct (L (fun x a b M Q =>
                     conj (fun c Hc => proj2 (proj1 M x c) lay (proj1 Q c Hc))
                          (proj2 (proj1 (proj2 M) x) lay (proj2 Q)))
                  (fun st x st' _ _ Hs =>
                     conj I (let (M, Q) := row_step_rel _ _ _ _ _ _ _ _ _ Hs in
                             conj Q M))
                  st0 fr I Hrows) as (_ & Q1 & (M1 & M2 & M3))
  end.
  simpl in M1, M2, M3.
  pose proof (for_each_establishes
                (fun _ => True)
                (fun c st => header_total st c lay <> None)
                (fun a b => forall n, same_but lay (header_total a n)
                                               (header_total b n))
                (seq 0 ncols) (S3Report.col_total method lay)
                (fun st n => same_but_refl lay _)
                (fun a b c Hab Hbc n => same_but_trans lay _ _ _ (Hab n) (Hbc n))
                (fun x a b M Q => proj2 (M x) lay Q)
                (fun st x st' _ _ Hs =>
                   conj I (let (M, Q) := col_total_rel _ _ _ _ _ Hs in conj Q M))
                (S3Report.f_cols fr) cs I Hcols) as (_ & Q2 & M4).
  assert (Hcell : forall r c lay0,
            cell_aggregate self r c lay0
            = cells_layer match S3Report.cell self with
                          | Some cs0 => cs0
                          | None => repeat (repeat (mkCell None []) ncols) nrows
                          end r c lay0).
  { intros r c lay0. unfold cell_aggregate.
    destruct (S3Report.cell self); [reflexivity|].
    rewrite blank_cells_layer. reflexivity. }
  destruct (same_but_set lay (S3Report.totals self) total
              (grand_total self)
              (fun lay0 => layer_get (layer_set (S3Report.totals self) lay total) lay0)
              (fun _ => eq_refl) (fun _ => eq_refl)) as [Ht Hpt].
  split; [|split; [|split; [|split; [exact Ht|]]]].
  - intros r c. destruct (M1 r c) as [K1 K2]. split.
    + intros lay0 E. rewrite Hcell. exact (K1 lay0 E).
    + intros lay0 E. rewrite Hcell in E. exact (K2 lay0 E).
  - exact M2.
  - intros n. eapply same_but_trans; [exact (M3 n) | exact (M4 n)].
  - split; [|split; [|split; [|exact Hpt]]].
    + intros r c Hr Hc.
      assert (Hin : In r (seq 0 nrows)) by (apply in_seq; lia).
      exact (proj1 (Q1 r Hin) c Hc).
    + intros r Hr.
      assert (Hin : In r (seq 0 nrows)) by (apply in_seq; lia).
      exact (proj2 (Q1 r Hin)).
    + intros c Hc. apply Q2. apply in_seq. lia.
Qed.



Lemma layers_complete_loop (pkey : string) (pt : PivotTable)
      (lays : list layer) (self rep : S3Report.t) :
  for_each lays
    (fun self fm => S3Report._add_layer self pkey pt (fst fm) (snd fm)) self
  = Ok rep ->
  forall lay, In lay lays ->
    layer_complete (List.length (rnames pt)) (List.length (cnames pt)) rep lay.
Proof.
  intros H.
  pose proof (for_each_establishes
                (fun _ : S3Report.t => True)
                (fun lay st =>
                   layer_complete (List.length (rnames pt))
                                  (List.length (cnames pt)) st lay)
                report_keeps lays
                (fun self (fm : layer) =>
                   S3Report._add_layer self pkey pt (fst fm) (snd fm))) as L.
  pose proof (L (fun st lay0 => conj (fun r c K => K)
                                (conj (fun n K => K)
                                   (conj (fun n K => K) (fun K => K))))
              (fun a b c Hab Hbc lay0 =>
                 let '(conj A1 (conj A2 (conj A3 A4))) := Hab lay0 in
                 let '(conj B1 (conj B2 (conj B3 B4))) := Hbc lay0 in
                 conj (fun r c K => B1 r c (A1 r c K))
                   (conj (fun n K => B2 n (A2 n K))
                      (conj (fun n K => B3 n (A3 n K))
                            (fun K => B4 (A4 K)))))
              (fun x a b M Q =>
                 let '(conj M1 (conj M2 (conj M3 M4))) := M x in
                 let '(conj Q1 (conj Q2 (conj Q3 Q4))) := Q in
                 conj (fun r c Hr Hc => M1 r c (Q1 r c Hr Hc))
                   (conj (fun r Hr => M2 r (Q2 r Hr))
                      (conj (fun c Hc => M3 c (Q3 c Hc)) (M4 Q4)))))
    as L'.
  clear L.
  match type of L' with
  | ?P -> _ => assert (Hbody : P)
  end.
  { intros st [f m] st' _ _ Hs. simpl in Hs.
    destruct (add_layer_layers _ _ _ _ _ _ Hs) as (H1 & H2 & H3 & H4 & H5).
    split; [exact I|]. split; [exact H5|].
    intros lay0. split; [|split; [|split]].
    + intros r c. exact (proj2 (H1 r c) lay0).
    + intros n. exact (proj2 (H2 n) lay0).
    + intros n. exact (proj2 (H3 n) lay0).
    + exact (proj2 H4 lay0). }
  destruct (L' Hbody self rep I H) as (_ & Q & _). exact Q.
Qed.

(** X18: in a report built from a non-empty record set, every layer has an
    aggregate in every cell, in every row header, in every column header
    and in the totals of the report. *)
Theorem layers_complete (resource : Resource) (rows cols : option string)
        (lays : list layer) (rep : S3Report.t)
        (Hrec : sqltable resource <> [])
        (Hbuilt : S3Report.__init__ resource rows cols lays = Ok rep) :
  exists nr nc,
    S3Report.numrows rep = Some nr /\ S3Report.numcols rep = Some nc /\
    forall lay, In lay lays -> layer_complete nr nc rep lay.
Proof.
  destruct (init_inv _ _ _ _ _ Hrec Hbuilt)
    as (_ & store & items & objs & _ & _ & Hl).
  destruct (layers_keep _ _ _ _ _ Hl) as (_ & _ & Hnr & Hnc).
  set (pt := report_pivot resource rows cols items) in *.
  exists (List.length (rnames pt)), (List.length (cnames pt)).
  split; [|split].
  - rewrite Hnr. unfold base_report, pt, report_pivot. simpl.
    destruct (given rows); simpl; [rewrite length_map|]; reflexivity.
  - rewrite Hnc. unfold base_report, pt, report_pivot. simpl.
    destruct (given cols); simpl; [rewrite length_map|]; reflexivity.
  - exact (layers_complete_loop _ _ _ _ _ Hl).
Qed.

Lemma layers_complete_witness :
  exists rep,
    S3Report.__init__ example_resource (Some "region") (Some "status")
      [(Some "id", Some "count"); (Some "id", Some "sum")] = Ok rep /\
    grand_total rep (Some "id", Some "count") <> None.
Proof.
  eexists.
  assert (H : S3Report.__init__ example_resource (Some "region") (Some "status")
                [(Some "id", Some "count"); (Some "id", Some "sum")]
              = Ok ?[rep]) by (vm_compute; reflexivity).
  split; [exact H|].
  assert (Hrec : sqltable example_resource <> []) by discriminate.
  destruct (layers_complete _ _ _ _ _ Hrec H) as (nr & nc & _ & _ & Hl).
  exact (proj2 (proj2 (proj2 (Hl (Some "id"%string, Some "count"%string)
                                 (or_introl eq_refl))))).
Defined.

(** ** The report of a request *)

Lemma request_layers_some (fact : S3Cube.form_value) (aggregate : option string)
      (has_name : bool) (pkey : string) (lay : layer) :
  In lay (S3Cube.request_layers fact aggregate has_name pkey) ->
  exists f m, lay = (Some f, Some m).
Proof.
  unfold S3Cube.request_layers. cbv zeta. intros H.
  apply in_flat_map in H. destruct H as (f & _ & H).
  apply in_map_iff in H. destruct H as (l & <- & _).
  destruct (S3Cube.py_split_once ":" l) as [[m f']|]; eexists; eexists; reflexivity.
Qed.

(** X19: when the controller generates the report of a request, a
    SyntaxError of the constructor means that the records are not empty and
    that a layer of the request names a method that is not supported; the
    missing dimensions never cause it. *)
Theorem cube_report_syntax_error (resource : Resource)
        (rows cols : option string) (method : string) (form_ok : bool)
        (fact : S3Cube.form_value) (aggregate : option string)
        (has_name : bool)
        (Hgen : S3Cube.generates_report rows cols method form_ok = true)
        (Hraise : S3Report.__init__ resource rows cols
                    (S3Cube.request_layers fact aggregate has_name
                                           (pkey_name resource))
                  = Raise SyntaxError) :
  method = "report"%string /\ form_ok = true /\
  (given rows = true \/ given cols = true) /\
  sqltable resource <> [] /\
  exists f m,
    In (Some f, Some m)
       (S3Cube.request_layers fact aggregate has_name (pkey_name resource)) /\
    ~ In m S3Report.METHODS.
Proof.
  unfold S3Cube.generates_report in Hgen. cbv zeta in Hgen.
  apply andb_prop in Hgen. destruct Hgen as [Hok Hm].
  assert (Hdim : negb (given rows) && negb (given cols) = false).
  { destruct (negb (given rows) && negb (given cols)); [discriminate Hm | reflexivity]. }
  rewrite Hdim in Hm. apply String.eqb_eq in Hm.
  split; [exact Hm|]. split; [exact Hok|].
  assert (Hd : given rows = true \/ given cols = true)
    by (destruct (given rows); destruct (given cols); auto; discriminate Hdim).
  split; [exact Hd|].
  destruct (init_syntax_error _ _ _ _ Hraise) as [[E1 E2]|[Hrec Hl]].
  { destruct Hd as [Hd|Hd]; congruence. }
  split; [exact Hrec|].
  destruct Hl as (f & m & Hin & Hm').
  destruct (request_layers_some _ _ _ _ _ Hin) as (f' & m' & E).
  inversion E; subst. exists f', m'. split; [exact Hin|].
  exact (Hm' m' eq_refl).
Qed.

Lemma cube_report_syntax_error_witness :
  exists f m,
    In (Some f, Some m)
       (S3Cube.request_layers (S3Cube.FStr "median:id") None false "id") /\
    ~ In m S3Report.METHODS.
Proof.
  assert (Hgen : S3Cube.generates_report (Some "region") None "report" true = true)
    by reflexivity.
  assert (Hraise : S3Report.__init__ example_resource (Some "region") None
                     (S3Cube.request_layers (S3Cube.FStr "median:id") None false
                                            (pkey_name example_resource))
                   = Raise SyntaxError) by reflexivity.
  exact (proj2 (proj2 (proj2 (proj2
           (cube_report_syntax_error _ _ _ _ _ _ _ _ Hgen Hraise))))).
Defined.

(** ** When the construction succeeds *)
































(** ** The labels of the dimensions *)

Lemma find_labelled (sel : string) (fs : list S3ContingencyTable.field_entry) :
  match find (fun f => match f with
                       | S3ContingencyTable.Labelled _ s => String.eqb s sel
                       | S3ContingencyTable.Plain _ => false
                       end) fs with
  | Some (S3ContingencyTable.Labelled label s) =>
      s = sel /\ In (S3ContingencyTable.Labelled label sel) fs
  | Some (S3ContingencyTable.Plain _) => False
  | None => forall label, ~ In (S3ContingencyTable.Labelled label sel) fs
  end.
Proof.
  induction fs as [|[s|label s] fs IH]; simpl.
  - intros label [].
  - destruct (find _ fs) as [[s'|label' s']|].
    + contradiction.
    + destruct IH as [-> Hin]. split; [reflexivity | right; exact Hin].
    + intros label [H|H]; [discriminate H | exact (IH label H)].
  - destruct (String.eqb_spec s sel) as [->|Hne].
    + split; [reflexivity | left; reflexivity].
    + destruct (find _ fs) as [[s'|label' s']|].
      * contradiction.
      * destruct IH as [-> Hin]. split; [reflexivity | right; exact Hin].
      * intros label' [H|H]; [inversion H; contradiction | exact (IH label' H)].
Qed.

(** X21: the label of a dimension is empty for a field that is not
    resolved; otherwise it is a label the configured field list gives to
    the selector of the field, or the own label of the field when the list
    gives none; the list is the one configured under the key, and
    "list_fields" is consulted only when nothing is configured under the
    key. *)
Theorem get_label_source (lf : dict S3ContingencyTable.FieldLabel)
        (field : option string)
        (config : dict (list S3ContingencyTable.field_entry)) (key : string) :
  let label := S3ContingencyTable._get_label lf field config key in
  let fields :=
    match dict_get config key with
    | Some fs => fs
    | None => match dict_get config "list_fields" with
              | Some fs => fs
              | None => []
              end
    end in
  ((field = None \/ exists f, field = Some f /\ dict_get lf f = None) ->
   label = ""%string) /\
  (forall f l, field = Some f -> dict_get lf f = Some l ->
     (In (S3ContingencyTable.Labelled label (S3ContingencyTable.lf_selector l))
         fields \/
      (label = S3ContingencyTable.lf_label l /\
       forall other,
         ~ In (S3ContingencyTable.Labelled other
                 (S3ContingencyTable.lf_selector l)) fields))).
Proof.
  cbv zeta. split.
  - intros [->|(f & -> & E)]; unfold S3ContingencyTable._get_label;
      [reflexivity | rewrite E; reflexivity].
  - intros f l -> E. unfold S3ContingencyTable._get_label. rewrite E. cbv zeta.
    unfold S3ContingencyTable.get_config.
    set (fields := match dict_get config key with
                   | Some fs => fs
                   | None => match dict_get config "list_fields" with
                             | Some fs => fs
                             | None => []
                             end
                   end).
    assert (Ef : match
                   match dict_get config key with
                   | Some v => Some v
                   | None =>
                       match dict_get config "list_fields" with
                       | Some v => Some v
                       | None => None
                       end
                   end
                 with
                 | Some fs => fs
                 | None => []
                 end = fields).
    { unfold fields. destruct (dict_get config key); [reflexivity|].
      destruct (dict_get config "list_fields"); reflexivity. }
    rewrite Ef.
    pose proof (find_labelled (S3ContingencyTable.lf_selector l) fields) as H.
    destruct (find _ fields) as [[s|label s]|].
    + contradiction.
    + left. exact (proj2 H).
    + right. split; [reflexivity | exact H].
Qed.
